(** * Eduroam log analysis: the parsing and classification pipeline

    A shallow embedding of [src/log_generator.py] (the minimal analyzer,
    [extract_summary_tables_from_stream]) and of [src/ritik.py] (the
    extended analyzer, [EduroamLogAnalyzer.parse_eduroam_log],
    [enrich_log_data], [analyze_movements]).

    Conventions of the embedding.
    - A Python [str] is a [string]; a character is an [ascii], read as the
      code point U+0000..U+00FF.  The tables for [\w], [\s] and [str.lower]
      are the ones CPython uses on that range; code points above U+00FF are
      outside the model.
    - A compiled pattern is a value of [regex]; [exec] is the backtracking
      matcher of [re], which explores alternatives in priority order, so the
      captured groups are the ones Python reports.
    - A value that may raise is a [result]; a pandas table is a [DataFrame],
      a list of named columns.
    - [pd.to_datetime] is library code: the parser of one timestamp is a
      variable of the sections below, and [strptime] is an instance of it
      for the format ['%a %b %d %H:%M:%S %Y'].
    - [np.random.uniform] draws from an explicit generator state; a float
      is a rational number. *)

From Stdlib Require Import String Ascii List Bool Arith NArith Lia QArith.
Import ListNotations.
Close Scope Q_scope.
Open Scope string_scope.

Set Implicit Arguments.

(** ** Python characters and strings *)

Module Py.

Definition code (a : ascii) : N := N_of_ascii a.

Definition in_range (lo hi : N) (a : ascii) : bool :=
  (N.leb lo (code a) && N.leb (code a) hi)%bool.

Definition is_digit (a : ascii) : bool := in_range 48 57 a.
Definition is_ascii_upper (a : ascii) : bool := in_range 65 90 a.
Definition is_ascii_lower (a : ascii) : bool := in_range 97 122 a.

(** [str.isalnum] or ['_'] on U+0000..U+00FF: the ASCII letters and digits,
    the Latin-1 letters, and the numeric characters U+00B2, U+00B3, U+00B9,
    U+00BC..U+00BE. *)
Definition is_word (a : ascii) : bool :=
  is_digit a || is_ascii_upper a || is_ascii_lower a || N.eqb (code a) 95
  || N.eqb (code a) 170 || N.eqb (code a) 178 || N.eqb (code a) 179
  || N.eqb (code a) 181 || N.eqb (code a) 185 || N.eqb (code a) 186
  || in_range 188 190 a || in_range 192 214 a || in_range 216 246 a
  || in_range 248 255 a.

(** [str.isspace] on U+0000..U+00FF. *)
Definition is_space (a : ascii) : bool :=
  in_range 9 13 a || in_range 28 32 a || N.eqb (code a) 133
  || N.eqb (code a) 160.

Definition is_upper (a : ascii) : bool :=
  is_ascii_upper a || (in_range 192 222 a && negb (N.eqb (code a) 215)).

Definition is_lower_cased (a : ascii) : bool :=
  is_ascii_lower a || (in_range 224 254 a && negb (N.eqb (code a) 247)).

Definition to_lower (a : ascii) : ascii :=
  if is_upper a then ascii_of_N (code a + 32) else a.

Definition to_upper (a : ascii) : ascii :=
  if is_lower_cased a then ascii_of_N (code a - 32) else a.

(** [s.lower()] *)
Fixpoint lower (s : string) : string :=
  match s with
  | EmptyString => EmptyString
  | String a s' => String (to_lower a) (lower s')
  end.

(** [s.startswith(p)] *)
Fixpoint startswith (p s : string) : bool :=
  match p with
  | EmptyString => true
  | String a p' =>
      match s with
      | EmptyString => false
      | String b s' => Ascii.eqb a b && startswith p' s'
      end
  end.

(** [p in s] *)
Fixpoint contains (p s : string) : bool :=
  startswith p s ||
  match s with
  | EmptyString => false
  | String _ s' => contains p s'
  end.

(** [any(p in s for p in ps)] *)
Definition any_in (ps : list string) (s : string) : bool :=
  existsb (fun p => contains p s) ps.

Fixpoint drop (n : nat) (s : string) : string :=
  match n with
  | O => s
  | S n' => match s with EmptyString => EmptyString | String _ s' => drop n' s' end
  end.

(** [s.replace(old, new)] for a non-empty [old]: occurrences are replaced
    from the left, without overlap. *)
Fixpoint replace_fuel (fuel : nat) (old new s : string) : string :=
  match fuel with
  | O => s
  | S fuel' =>
      match s with
      | EmptyString => EmptyString
      | String a s' =>
          if startswith old s
          then new ++ replace_fuel fuel' old new (drop (String.length old) s)
          else String a (replace_fuel fuel' old new s')
      end
  end.

Definition replace (old new s : string) : string :=
  replace_fuel (String.length s) old new s.

Fixpoint lstrip (s : string) : string :=
  match s with
  | EmptyString => EmptyString
  | String a s' => if is_space a then lstrip s' else s
  end.

Fixpoint rstrip (s : string) : string :=
  match s with
  | EmptyString => EmptyString
  | String a s' =>
      match rstrip s' with
      | EmptyString => if is_space a then EmptyString else String a EmptyString
      | t => String a t
      end
  end.

(** [s.strip()] *)
Definition strip (s : string) : string := rstrip (lstrip s).

(** [s.split(sep)] for a one-character separator: never the empty list. *)
Fixpoint split (sep : ascii) (s : string) : list string :=
  match s with
  | EmptyString => [EmptyString]
  | String a s' =>
      if Ascii.eqb a sep then EmptyString :: split sep s'
      else match split sep s' with
           | [] => [String a EmptyString]
           | w :: ws => String a w :: ws
           end
  end.

Definition newline : ascii := ascii_of_N 10.

End Py.

(** ** The [re] module: patterns and the backtracking matcher *)

Module Re.

(** The fragment of the pattern language the two analyzers use.  [Chr p] is
    one character in the class [p] (a literal, a set, an escape or [.]);
    [Rep g p lo hi] is a quantified class, greedy when [g] is true
    ([\d+], [\w{3}], [.*]) and lazy otherwise ([.*?]); [Opt r] is [(r)?];
    [Grp n r] is [(?P<n>r)]; [Bol] is [^]. *)
Inductive regex : Type :=
| Eps
| Bol
| Chr (p : ascii -> bool)
| Cat (r1 r2 : regex)
| Alt (r1 r2 : regex)
| Grp (name : string) (r : regex)
| Opt (r : regex)
| Rep (greedy : bool) (p : ascii -> bool) (lo : nat) (hi : option nat).

(** The groups set so far, most recent first. *)
Definition caps : Type := list (string * string).

Fixpoint lookup (n : string) (c : caps) : option string :=
  match c with
  | [] => None
  | (n', v) :: c' => if String.eqb n n' then Some v else lookup n c'
  end.

(** The text between position [s] and the later position [s1], both given
    as the rest of the subject. *)
Definition taken (s s1 : string) : string :=
  substring 0 (String.length s - String.length s1) s.

Definition orelse {A : Type} (x y : option A) : option A :=
  match x with Some _ => x | None => y end.

Section Exec.

Variable A : Type.

(** Greedy [p{lo,hi}]: take a character while allowed, and give back on
    failure of the rest. *)
Fixpoint rep_greedy (p : ascii -> bool) (lo : nat) (hi : option nat)
    (s : string) (k : string -> option A) {struct s} : option A :=
  match hi with
  | Some O => match lo with O => k s | S _ => None end
  | _ =>
      match s with
      | String a s' =>
          if p a
          then orelse (rep_greedy p (pred lo) (option_map pred hi) s' k)
                      (match lo with O => k s | S _ => None end)
          else match lo with O => k s | S _ => None end
      | EmptyString => match lo with O => k s | S _ => None end
      end
  end.

(** Lazy [p{lo,hi}?]: try the rest first, and take a character on failure. *)
Fixpoint rep_lazy (p : ascii -> bool) (lo : nat) (hi : option nat)
    (s : string) (k : string -> option A) {struct s} : option A :=
  orelse (match lo with O => k s | S _ => None end)
    (match hi with
     | Some O => None
     | _ =>
         match s with
         | String a s' =>
             if p a then rep_lazy p (pred lo) (option_map pred hi) s' k
             else None
         | EmptyString => None
         end
     end).

(** [exec r subj s c k]: match [r] at position [s] of the subject [subj]
    with the groups [c], then continue with [k]; the first success in
    priority order is the result. *)
Fixpoint exec (r : regex) (subj s : string) (c : caps)
    (k : string -> caps -> option A) {struct r} : option A :=
  match r with
  | Eps => k s c
  | Bol =>
      if Nat.eqb (String.length s) (String.length subj) then k s c else None
  | Chr p =>
      match s with
      | String a s' => if p a then k s' c else None
      | EmptyString => None
      end
  | Cat r1 r2 => exec r1 subj s c (fun s1 c1 => exec r2 subj s1 c1 k)
  | Alt r1 r2 => orelse (exec r1 subj s c k) (exec r2 subj s c k)
  | Grp n r1 => exec r1 subj s c (fun s1 c1 => k s1 ((n, taken s s1) :: c1))
  | Opt r1 => orelse (exec r1 subj s c k) (k s c)
  | Rep g p lo hi =>
      (if g then rep_greedy else rep_lazy) p lo hi s (fun s1 => k s1 c)
  end.

End Exec.

(** A match object: the groups that took part in the match. *)
Definition match_obj : Type := caps.

(** [m.group(n)]: [None] for a group that did not take part. *)
Definition group (m : match_obj) (n : string) : option string := lookup n m.

Definition match_at (r : regex) (subj s : string) : option match_obj :=
  exec r subj s [] (fun _ c => Some c).

(** [pattern.match(subj)] *)
Definition re_match (r : regex) (subj : string) : option match_obj :=
  match_at r subj subj.

Fixpoint search_from (r : regex) (subj s : string) : option match_obj :=
  match match_at r subj s with
  | Some m => Some m
  | None =>
      match s with
      | String _ s' => search_from r subj s'
      | EmptyString => None
      end
  end.

(** [pattern.search(subj)] *)
Definition re_search (r : regex) (subj : string) : option match_obj :=
  search_from r subj subj.

(** *** Character classes *)

Definition lit_c (c : ascii) : ascii -> bool := fun a => Ascii.eqb a c.
(** A literal under [re.IGNORECASE]. *)
Definition lit_ci (c : ascii) : ascii -> bool :=
  fun a => Ascii.eqb (Py.to_lower a) (Py.to_lower c).
(** A set under [re.IGNORECASE]: some case variant is in the set. *)
Definition ci (p : ascii -> bool) : ascii -> bool :=
  fun a => p a || p (Py.to_lower a) || p (Py.to_upper a).

Definition any_char : ascii -> bool := fun a => negb (Ascii.eqb a Py.newline).
Definition word : ascii -> bool := Py.is_word.
Definition digit : ascii -> bool := Py.is_digit.
Definition non_space : ascii -> bool := fun a => negb (Py.is_space a).
Definition one_of (cs : string) : ascii -> bool :=
  fun a => existsb (Ascii.eqb a) (list_ascii_of_string cs).
Definition union (p q : ascii -> bool) : ascii -> bool := fun a => p a || q a.
Definition range (lo hi : ascii) : ascii -> bool :=
  Py.in_range (Py.code lo) (Py.code hi).
Definition not_char (c : ascii) : ascii -> bool :=
  fun a => negb (Ascii.eqb a c).

(** A literal string, case-sensitive or not. *)
Fixpoint lit (s : string) : regex :=
  match s with
  | EmptyString => Eps
  | String a s' => Cat (Chr (lit_c a)) (lit s')
  end.

Fixpoint liti (s : string) : regex :=
  match s with
  | EmptyString => Eps
  | String a s' => Cat (Chr (lit_ci a)) (liti s')
  end.

Fixpoint seq (rs : list regex) : regex :=
  match rs with
  | [] => Eps
  | r :: rs' => Cat r (seq rs')
  end.

Definition exactly (n : nat) (p : ascii -> bool) : regex := Rep true p n (Some n).
Definition plus (p : ascii -> bool) : regex := Rep true p 1 None.
Definition star (p : ascii -> bool) : regex := Rep true p 0 None.
Definition star_lazy (p : ascii -> bool) : regex := Rep false p 0 None.

(** *** The language of a pattern

    [matches subj r s s']: [r] can match at position [s] of the subject
    and stop at position [s'], whatever the priorities. *)

Definition within (n : nat) (hi : option nat) : Prop :=
  match hi with
  | Some h => n <= h
  | None => True
  end.

Inductive matches (subj : string) : regex -> string -> string -> Prop :=
| M_Eps : forall s, matches subj Eps s s
| M_Bol : forall s,
    String.length s = String.length subj -> matches subj Bol s s
| M_Chr : forall p a s, p a = true -> matches subj (Chr p) (String a s) s
| M_Cat : forall r1 r2 s s1 s2,
    matches subj r1 s s1 -> matches subj r2 s1 s2 ->
    matches subj (Cat r1 r2) s s2
| M_AltL : forall r1 r2 s s1,
    matches subj r1 s s1 -> matches subj (Alt r1 r2) s s1
| M_AltR : forall r1 r2 s s1,
    matches subj r2 s s1 -> matches subj (Alt r1 r2) s s1
| M_Grp : forall n r s s1,
    matches subj r s s1 -> matches subj (Grp n r) s s1
| M_OptSome : forall r s s1,
    matches subj r s s1 -> matches subj (Opt r) s s1
| M_OptNone : forall r s, matches subj (Opt r) s s
| M_Rep : forall g p lo hi u s,
    forallb p (list_ascii_of_string u) = true ->
    lo <= String.length u -> within (String.length u) hi ->
    matches subj (Rep g p lo hi) (u ++ s) s.

Definition is_some {A : Type} (o : option A) : bool :=
  match o with Some _ => true | None => false end.


(** The named groups every match of [r] sets. *)
Fixpoint must (r : regex) : list string :=
  match r with
  | Grp n r1 => n :: must r1
  | Cat r1 r2 => must r1 ++ must r2
  | Alt r1 r2 =>
      filter (fun n => existsb (String.eqb n) (must r2)) (must r1)
  | _ => []
  end.


(** What a quantified class has consumed when the rest [k] returns [x]. *)
Definition consumed {A : Type} (p : ascii -> bool) (k : string -> option A)
    (lo : nat) (hi : option nat) (s : string) (x : A) : Prop :=
  exists u s', s = u ++ s' /\ forallb p (list_ascii_of_string u) = true /\
               lo <= String.length u /\ within (String.length u) hi /\
               k s' = Some x.

(** Some split of the input lets the rest [k] succeed. *)
Definition feasible {A : Type} (p : ascii -> bool) (k : string -> option A)
    (lo : nat) (hi : option nat) (s : string) : Prop :=
  exists u s', s = u ++ s' /\ forallb p (list_ascii_of_string u) = true /\
               lo <= String.length u /\ within (String.length u) hi /\
               is_some (k s') = true.

(** Every group set in [c] is set in [c']. *)
Definition keeps (c c' : caps) : Prop :=
  forall n, lookup n c <> None -> lookup n c' <> None.

Definition sets (ns : list string) (c : caps) : Prop :=
  forall n, In n ns -> lookup n c <> None.

(** Whether the continuation succeeds does not depend on the groups. *)
Definition insensitive {A : Type} (k : string -> caps -> option A) : Prop :=
  forall s c c', is_some (k s c) = true -> is_some (k s c') = true.

Definition all_ascii : list ascii := map ascii_of_nat (List.seq 0 256).

(** The classes [p] and [q] checked on every character: [p] inside [q]. *)
Definition inside (p q : ascii -> bool) : bool :=
  forallb (fun a => implb (p a) (q a)) all_ascii.


End Re.

(** ** Exceptions *)

Inductive exn : Type :=
| KeyError (key : string)
| ValueError (msg : string).

Inductive result (A : Type) : Type :=
| Ok (a : A)
| Raise (e : exn).

Arguments Ok {A} a.
Arguments Raise {A} e.

Definition bind {A B : Type} (x : result A) (f : A -> result B) : result B :=
  match x with
  | Ok a => f a
  | Raise e => Raise e
  end.

Notation "x <- e1 ;; e2" := (bind e1 (fun x => e2))
  (at level 61, e1 at next level, right associativity).

(** ** A fragment of pandas *)

Module Pandas.

(** [datetime] fields of a parsed timestamp. *)
Record datetime : Type := mkDatetime {
  year : nat; month : nat; day : nat;
  hour : nat; minute : nat; second : nat
}.

(** A cell: [None], [nan], a string, a timestamp, [NaT], a boolean or a
    float. *)
Inductive value : Type :=
| VNone
| VNaN
| VStr (s : string)
| VTime (t : datetime)
| VNaT
| VBool (b : bool)
| VNum (q : Q).

Definition of_opt (o : option string) : value :=
  match o with
  | Some s => VStr s
  | None => VNone
  end.

(** [pd.isna(v)] *)
Definition isna (v : value) : bool :=
  match v with
  | VNone | VNaN | VNaT => true
  | _ => false
  end.

(** [str(v)].  The analyzers convert user names, realms, institutions,
    addresses and countries, none of which is a timestamp or a float: the
    text of those two is not modelled. *)
Definition py_str (v : value) : string :=
  match v with
  | VNone => "None"
  | VNaN => "nan"
  | VNaT => "NaT"
  | VStr s => s
  | VBool true => "True"
  | VBool false => "False"
  | VTime _ => ""
  | VNum _ => ""
  end.

(** [v == 'lit'] against a string literal. *)
Definition eq_str (v : value) (lit : string) : bool :=
  match v with
  | VStr s => String.eqb s lit
  | _ => false
  end.

(** A Python dict with string keys, in insertion order. *)
Definition dict : Type := list (string * value).

Fixpoint dict_get (d : dict) (k : string) : option value :=
  match d with
  | [] => None
  | (k', v) :: d' => if String.eqb k k' then Some v else dict_get d' k
  end.

(** [d[k] = v] *)
Fixpoint dict_set (d : dict) (k : string) (v : value) : dict :=
  match d with
  | [] => [(k, v)]
  | (k', v') :: d' =>
      if String.eqb k k' then (k, v) :: d' else (k', v') :: dict_set d' k v
  end.

Definition Series : Type := list value.

(** A table: the columns in order, each as long as the index. *)
Record DataFrame : Type := mkDataFrame {
  columns : list (string * Series);
  nrows : nat
}.

(** [pd.DataFrame()] *)
Definition empty_frame : DataFrame := mkDataFrame [] 0.

Definition mem (k : string) (ks : list string) : bool :=
  existsb (String.eqb k) ks.

(** Keys in order of first appearance. *)
Fixpoint union_keys (seen : list string) (ks : list string) : list string :=
  match ks with
  | [] => seen
  | k :: ks' => union_keys (if mem k seen then seen else seen ++ [k]) ks'
  end.

Definition keys_of (rs : list dict) : list string :=
  union_keys [] (concat (map (map fst) rs)).

Definition cell (d : dict) (k : string) : value :=
  match dict_get d k with
  | Some v => v
  | None => VNaN
  end.

(** [pd.DataFrame(records)] for a list of dicts: one column per key in
    order of first appearance, [nan] where a record lacks the key; no
    column at all for the empty list.  A [None] of a record is kept: in a
    column that holds nothing but [None] and missing cells pandas has
    [nan] in its place, and both are null for [isna] and [fillna]. *)
Definition from_records (rs : list dict) : DataFrame :=
  mkDataFrame (map (fun k => (k, map (fun d => cell d k) rs)) (keys_of rs))
              (length rs).

Fixpoint assoc (k : string) (cs : list (string * Series)) : option Series :=
  match cs with
  | [] => None
  | (k', s) :: cs' => if String.eqb k k' then Some s else assoc k cs'
  end.

(** [df[k]]: raises [KeyError] for a column the table lacks. *)
Definition getitem (df : DataFrame) (k : string) : result Series :=
  match assoc k (columns df) with
  | Some s => Ok s
  | None => Raise (KeyError k)
  end.

Fixpoint put (k : string) (s : Series) (cs : list (string * Series))
    : list (string * Series) :=
  match cs with
  | [] => [(k, s)]
  | (k', s') :: cs' =>
      if String.eqb k k' then (k, s) :: cs' else (k', s') :: put k s cs'
  end.

(** [df[k] = s] *)
Definition setitem (df : DataFrame) (k : string) (s : Series) : DataFrame :=
  mkDataFrame (put k s (columns df)) (nrows df).

(** [df.get(k, default)] *)
Definition get (df : DataFrame) (k : string) (default : Series) : Series :=
  match assoc k (columns df) with
  | Some s => s
  | None => default
  end.

(** [s.fillna(v)] *)
Definition fillna (v : value) (s : Series) : Series :=
  map (fun x => if isna x then v else x) s.

(** [df.empty] *)
Definition empty (df : DataFrame) : bool :=
  match columns df with
  | [] => true
  | _ => Nat.eqb (nrows df) 0
  end.

(** Row [i] of the table as a dict. *)
Definition row (df : DataFrame) (i : nat) : dict :=
  map (fun c => (fst c, nth i (snd c) VNaN)) (columns df).

(** [df.to_dict('records')] *)
Definition to_records (df : DataFrame) : list dict :=
  map (row df) (List.seq 0 (nrows df)).

Section ToDatetime.

(** The library's parser of one timestamp string. *)
Variable parse : string -> option datetime.

Definition convert (v : value) : option value :=
  match v with
  | VStr s => option_map VTime (parse s)
  | VTime t => Some (VTime t)
  | VNone | VNaN | VNaT => Some VNaT
  | _ => None
  end.

Definition coerce (v : value) : value :=
  match convert v with
  | Some t => t
  | None => VNaT
  end.

(** [pd.to_datetime(s, errors="coerce")]: what does not parse is [NaT].
    Without a [format] pandas converts the cells of a column under the
    format it infers from the first of them; [parse] stands for the
    conversion of one cell of the column at hand. *)
Definition to_datetime_coerce (s : Series) : Series := map coerce s.

(** [pd.to_datetime(s, format=...)] with the default [errors="raise"]: one
    element that does not parse raises [ValueError]. *)
Fixpoint to_datetime_raise (s : Series) : result Series :=
  match s with
  | [] => Ok []
  | v :: s' =>
      match convert v with
      | Some t => ts <- to_datetime_raise s' ;; Ok (t :: ts)
      | None => Raise (ValueError "time data doesn't match format")
      end
  end.

End ToDatetime.

End Pandas.

(** ** [src/log_generator.py] *)

Module LogGenerator.

Import Re Pandas.

(** [\w{3} \w{3} \d+ \d{2}:\d{2}:\d{2} \d{4}], under [re.IGNORECASE] when
    [ic] is set. *)
Definition timestamp_re (ic : bool) : regex :=
  let w := if ic then ci word else word in
  let d := if ic then ci digit else digit in
  let l := if ic then liti else lit in
  seq [exactly 3 w; l " "; exactly 3 w; l " "; plus d; l " ";
       exactly 2 d; l ":"; exactly 2 d; l ":"; exactly 2 d; l " ";
       exactly 4 d].

(** Lines 12-16, compiled with [re.IGNORECASE]. *)
Definition access_pattern : regex :=
  seq [Grp "timestamp" (timestamp_re true); liti ": ";
       Grp "event" (Cat (liti "Access-") (Alt (liti "Accept") (liti "Reject")));
       liti " for user ";
       Opt (Grp "user" (plus (ci (union word (one_of "@.")))));
       Opt (liti " ");
       liti "stationid ";
       Grp "stationid"
         (plus (ci (union (range "0" "9")
                   (union (range "a" "f")
                   (union (range "A" "F") (one_of ":-"))))));
       star_lazy any_char;
       liti "from ";
       Grp "source" (plus (ci non_space));
       Opt (Cat (liti " to ") (Grp "dest" (plus (ci non_space))));
       star_lazy any_char;
       liti "(";
       Grp "ip" (plus (ci (union digit (one_of "."))));
       Opt (liti ")");
       Opt (seq [star_lazy any_char; liti "cui ";
                 Grp "cui" (plus (ci (union (range "a" "f") (range "0" "9"))))])].

(** Lines 18-21, case-sensitive; the dot of [1.0] is the wildcard. *)
Definition fticks_pattern : regex :=
  seq [Grp "timestamp" (timestamp_re false); lit ": ";
       lit "F-TICKS/eduroam/1"; Chr any_char; lit "0#REALM=";
       star (not_char "#");
       lit "#VISCOUNTRY="; Grp "country" (star (not_char "#"));
       lit "#VISINST="; Grp "inst" (star (not_char "#"));
       lit "#CSI="; Grp "csi" (star (not_char "#"));
       lit "#RESULT="; Grp "result" (star (not_char "#"));
       lit "#"].

(** Lines 29-39: the dict appended for a line the access pattern finds. *)
Definition access_record (line : string) : option dict :=
  match re_search access_pattern line with
  | Some m =>
      Some [("Timestamp", of_opt (group m "timestamp"));
            ("Event", of_opt (group m "event"));
            ("Username", of_opt (group m "user"));
            ("StationID", of_opt (group m "stationid"));
            ("Source", of_opt (group m "source"));
            ("Destination", of_opt (group m "dest"));
            ("ServerIP", of_opt (group m "ip"));
            ("CUI", of_opt (group m "cui"))]
  | None => None
  end.

(** Line 43. *)
Definition reason_of (result : option string) : string :=
  match result with
  | Some r =>
      if String.eqb r "OK" then "Authentication successful"
      else "Authentication failed"
  | None => "Authentication failed"
  end.

(** Lines 41-51: the dict appended for a line the F-TICKS pattern finds. *)
Definition fticks_record (line : string) : option dict :=
  match re_search fticks_pattern line with
  | Some m =>
      let result := group m "result" in
      let reason := reason_of result in
      Some [("Timestamp", of_opt (group m "timestamp"));
            ("VISCOUNTRY", of_opt (group m "country"));
            ("VISINST", of_opt (group m "inst"));
            ("CSI", of_opt (group m "csi"));
            ("RESULT", of_opt result);
            ("Reason", VStr reason)]
  | None => None
  end.

Definition append (l : list dict) (o : option dict) : list dict :=
  match o with
  | Some d => l ++ [d]
  | None => l
  end.

(** Lines 23-51: the loop over the decoded lines, with the two lists as
    its state; both patterns are tried on every line. *)
Fixpoint classify (stream : list string) (access_logs fticks_logs : list dict)
    : list dict * list dict :=
  match stream with
  | [] => (access_logs, fticks_logs)
  | line :: rest =>
      classify rest (append access_logs (access_record line))
                    (append fticks_logs (fticks_record line))
  end.



(** The records a per-line extractor yields on a stream, in order. *)
Definition records_of (f : string -> option dict) (stream : list string)
    : list dict :=
  flat_map (fun line => match f line with Some d => [d] | None => [] end) stream.

Section Extract.

Variable parse : string -> option datetime.

(** Lines 8-59.  [stream] is the list of lines as decoded on line 25;
    decoding with [errors="ignore"] does not raise. *)
Definition extract_summary_tables_from_stream (stream : list string)
    : result (DataFrame * DataFrame) :=
  let '(access_logs, fticks_logs) := classify stream [] [] in
  let df_access := from_records access_logs in
  let df_fticks := from_records fticks_logs in
  ts <- getitem df_access "Timestamp" ;;
  let df_access := setitem df_access "Timestamp" (to_datetime_coerce parse ts) in
  ts <- getitem df_fticks "Timestamp" ;;
  let df_fticks := setitem df_fticks "Timestamp" (to_datetime_coerce parse ts) in
  Ok (df_access, df_fticks).

End Extract.

(** The rows of the Access table of a run. *)
Definition map_fst_records (r : result (DataFrame * DataFrame))
    : result (list dict) :=
  match r with
  | Ok (df_access, _) => Ok (to_records df_access)
  | Raise e => Raise e
  end.

(** The rows of the F-TICKS table of a run. *)
Definition map_snd_records (r : result (DataFrame * DataFrame))
    : result (list dict) :=
  match r with
  | Ok (_, df_fticks) => Ok (to_records df_fticks)
  | Raise e => Raise e
  end.

End LogGenerator.

(** ** [src/ritik.py] *)

Module Ritik.

Import Re Pandas.

(** *** Effects: Streamlit messages and the NumPy generator *)

(** What a run can touch besides its arguments: the messages shown with
    [st.error], and the state of [np.random], the sequence of the draws to
    come. *)
Record state : Type := mkState {
  messages : list string;
  gen : nat -> Q
}.

Definition M (A : Type) : Type := state -> result A * state.

Definition ret {A : Type} (a : A) : M A := fun st => (Ok a, st).

Definition lift {A : Type} (r : result A) : M A := fun st => (r, st).

Definition mbind {A B : Type} (m : M A) (f : A -> M B) : M B :=
  fun st =>
    match m st with
    | (Ok a, st') => f a st'
    | (Raise e, st') => (Raise e, st')
    end.

Notation "x <~ e1 ;; e2" := (mbind e1 (fun x => e2))
  (at level 61, e1 at next level, right associativity).

(** [st.error(msg)] *)
Definition st_error (msg : string) : M unit :=
  fun st => (Ok tt, mkState (messages st ++ [msg]) (gen st)).

(** [np.random.uniform(lo, hi, n)]: the next [n] draws. *)
Definition uniform (n : nat) : M (list Q) :=
  fun st => (Ok (map (gen st) (List.seq 0 n)),
             mkState (messages st) (fun i => gen st (n + i)%nat)).

(** *** The analyzer's tables (lines 124-156) *)

Definition indian_institutions : list string :=
  ["iitd.ac.in"; "iitm.ac.in"; "iitb.ac.in"; "iitg.ac.in"; "iitk.ac.in";
   "iitr.ac.in"; "iiserkol.ac.in"; "iisc.ac.in"; "icgeb.ac.in"; "nit.ac.in";
   "ernet.in"; "iiserpune.ac.in"; "iisertvm.ac.in"; "iiserb.ac.in";
   "bits-pilani.ac.in"; "jnu.ac.in"; "du.ac.in"; "tifr.res.in"; "cdac.in";
   "csir.res.in"].

Definition institution_coordinates : list (string * (Q * Q)) :=
  [("iitd", (28.6139, 77.2090)); ("iitm", (12.9716, 80.2594));
   ("iitb", (19.1334, 72.9133)); ("iitg", (26.1890, 91.6917));
   ("iitk", (26.5123, 80.2329)); ("iitr", (29.8650, 77.8950));
   ("iiserkol", (22.5726, 88.3639)); ("iisc", (13.0827, 77.5718));
   ("etlr1.eduroam.org", (52.5200, 13.4050));
   ("etlr2.eduroam.org", (55.6761, 12.5683))]%Q.

Definition country_coordinates : list (string * (Q * Q)) :=
  [("India", (20.5937, 78.9629)); ("Italy", (41.8719, 12.5674));
   ("UK", (55.3781, -3.4360)); ("USA", (39.8283, -98.5795));
   ("Germany", (51.1657, 10.4515)); ("France", (46.2276, 2.2137));
   ("Netherlands", (52.1326, 5.2913)); ("Sweden", (60.1282, 18.6435))]%Q.

Fixpoint find_key {A : Type} (k : string) (d : list (string * A)) : option A :=
  match d with
  | [] => None
  | (k', v) :: d' => if String.eqb k k' then Some v else find_key k d'
  end.

(** *** [parse_eduroam_log]: the patterns (lines 163-182) *)

(** [\w{3} \w{3} \d{2} \d{2}:\d{2}:\d{2} \d{4}] *)
Definition timestamp_re : regex :=
  seq [exactly 3 word; lit " "; exactly 3 word; lit " "; exactly 2 digit;
       lit " "; exactly 2 digit; lit ":"; exactly 2 digit; lit ":";
       exactly 2 digit; lit " "; exactly 4 digit].

Definition access_pattern : regex :=
  seq [Bol; Grp "timestamp" timestamp_re; lit ": ";
       lit "Access-"; Grp "status" (Alt (lit "Accept") (lit "Reject"));
       Opt (Cat (lit " for user ") (Grp "user" (plus (union word (one_of ".@-")))));
       Opt (Cat (lit " stationid ")
                (Grp "stationid" (plus (union word (one_of ":.-")))));
       Opt (Cat (lit " cui ") (Grp "cui" (plus word)));
       Opt (Cat (lit " from ") (Grp "from_inst" (plus (union word (one_of ".-")))));
       Opt (Cat (lit " to ") (Grp "to_inst" (plus (union word (one_of ".-")))));
       star any_char; lit "("; Grp "ip" (plus (union digit (one_of "."))); lit ")";
       Opt (seq [star any_char; lit " operator ";
                 Grp "operator" (plus (union word (one_of ".-")))])].

Definition fticks_pattern : regex :=
  seq [Bol; Grp "timestamp" timestamp_re; lit ": ";
       lit "F-TICKS/eduroam/"; plus (union digit (one_of "."));
       lit "#REALM="; Grp "realm" (star (not_char "#")); lit "#";
       lit "VISCOUNTRY="; Grp "viscountry" (star (not_char "#")); lit "#";
       lit "VISINST="; Grp "visinst" (star (not_char "#")); lit "#";
       lit "CSI="; Grp "csi" (star (not_char "#")); lit "#";
       lit "RESULT="; Grp "result" (star (not_char "#")); lit "#"].

(** [m.groupdict()]: every named group of the pattern, in order, [None]
    for a group that did not take part. *)
Definition groupdict (names : list string) (m : match_obj) : dict :=
  map (fun n => (n, of_opt (group m n))) names.

Definition access_groups : list string :=
  ["timestamp"; "status"; "user"; "stationid"; "cui"; "from_inst"; "to_inst";
   "ip"; "operator"].

Definition fticks_groups : list string :=
  ["timestamp"; "realm"; "viscountry"; "visinst"; "csi"; "result"].

(** Lines 192-196. *)
Definition access_record (line : string) : option dict :=
  match re_match access_pattern line with
  | Some m => Some (dict_set (groupdict access_groups m) "log_type" (VStr "access"))
  | None => None
  end.

(** Lines 199-203. *)
Definition fticks_record (line : string) : option dict :=
  match re_match fticks_pattern line with
  | Some m => Some (dict_set (groupdict fticks_groups m) "log_type" (VStr "fticks"))
  | None => None
  end.

Definition append (l : list dict) (o : option dict) : list dict :=
  match o with
  | Some d => l ++ [d]
  | None => l
  end.

(** The two shapes of a record of the table. *)
Definition is_access_record (d : dict) : Prop :=
  exists m, d = dict_set (groupdict access_groups m) "log_type" (VStr "access").

Definition is_fticks_record (d : dict) : Prop :=
  exists m, d = dict_set (groupdict fticks_groups m) "log_type" (VStr "fticks").

(** Lines 186-203: the loop, with [records] as its state. *)
Fixpoint collect (lines : list string) (records : list dict) : list dict :=
  match lines with
  | [] => records
  | line :: rest =>
      let line := Py.strip line in
      match line with
      | EmptyString => collect rest records
      | _ =>
          collect rest
            (append (append records (access_record line)) (fticks_record line))
      end
  end.

(** *** [enrich_log_data]: the row functions (lines 229-304) *)

Definition institution_fragments : list string := ["iit"; "iisc"; "iiser"; "nit"].

(** Lines 229-242. *)
Definition classify_user_type (user realm from_inst to_inst : value) : string :=
  let realm := if isna realm || eq_str realm "" then VStr "" else realm in
  if Py.any_in indian_institutions (Py.lower (py_str realm)) then "Indian"
  else
    let inst_names :=
      Py.lower (py_str from_inst) ++ " " ++ Py.lower (py_str to_inst) in
    if Py.any_in institution_fragments inst_names then "Indian" else "Foreign".

(** Lines 250-272. *)
Definition get_country_from_realm (realm : value) : string :=
  if isna realm || eq_str realm "" then "Unknown"
  else
    let realm := Py.lower (py_str realm) in
    if Py.contains ".in" realm || Py.any_in indian_institutions realm then "India"
    else if Py.contains ".it" realm then "Italy"
    else if Py.contains ".uk" realm || Py.contains ".ac.uk" realm then "UK"
    else if Py.contains ".edu" realm then "USA"
    else if Py.contains ".de" realm then "Germany"
    else if Py.contains ".fr" realm then "France"
    else if Py.contains ".nl" realm then "Netherlands"
    else if Py.contains ".se" realm then "Sweden"
    else "Unknown".

(** Every marker [get_country_from_realm] looks for, in the order of the
    tests. *)
Definition country_markers : list string :=
  ".in" :: indian_institutions ++
  [".it"; ".uk"; ".ac.uk"; ".edu"; ".de"; ".fr"; ".nl"; ".se"].

(** Lines 277-286. *)
Definition get_visiting_location (from_inst to_inst ip : value) : string :=
  let institutions :=
    Py.lower (py_str from_inst) ++ " " ++ Py.lower (py_str to_inst) in
  if Py.any_in institution_fragments institutions
     || Py.contains "14.139." (py_str ip) || Py.contains "103." (py_str ip)
  then "India"
  else if Py.contains "eduroam.org" institutions then "International"
  else "Unknown".

(** Lines 297-304. *)
Definition get_coordinates (inst_name : value) (country : string) : Q * Q :=
  let inst_key :=
    Py.replace "_sp" "" (Py.replace "_idp_sp" "" (Py.lower (py_str inst_name))) in
  match find_key inst_key institution_coordinates with
  | Some c => c
  | None =>
      match find_key country country_coordinates with
      | Some c => c
      | None => (0, 0)%Q
      end
  end.

(** Line 294, on one row: [(home != visiting) & (home != 'Unknown')]. *)
Definition roaming (home visiting : string) : bool :=
  negb (String.eqb home visiting) && negb (String.eqb home "Unknown").

(** Line 316, on one cell. *)
Definition connection_success (status : value) : string :=
  if eq_str status "Accept" then "Success" else "Failed".

(** [s.str.split('@').str[1]] on one cell. *)
Definition realm_of_user (user : value) : value :=
  match user with
  | VStr s =>
      match Py.split "@" s with
      | _ :: r :: _ => VStr r
      | _ => VNaN
      end
  | _ => VNaN
  end.

(** A float sum, kept in lowest terms. *)
Definition fadd (v : value) (q : Q) : value :=
  match v with
  | VNum a => VNum (Qred (a + q)%Q)
  | _ => VNaN
  end.

Fixpoint zip_with {A B C : Type} (f : A -> B -> C) (l : list A) (l' : list B)
    : list C :=
  match l, l' with
  | a :: t, b :: t' => f a b :: zip_with f t t'
  | _, _ => []
  end.

(** The text of a cell of [home_country] or [visiting_country]: both
    columns hold strings only. *)
Definition str_of (v : value) : string := py_str v.

(** Lines 220-318. *)
Definition enrich_log_data (df : DataFrame) : M DataFrame :=
  user <~ lift (getitem df "user") ;;
  let df := setitem df "user" (fillna (VStr "unknown") user) in
  from_inst <~ lift (getitem df "from_inst") ;;
  let df := setitem df "from_inst" (fillna (VStr "unknown") from_inst) in
  to_inst <~ lift (getitem df "to_inst") ;;
  let df := setitem df "to_inst" (fillna (VStr "unknown") to_inst) in
  user <~ lift (getitem df "user") ;;
  let df :=
    setitem df "realm" (fillna (VStr "") (get df "realm" (map realm_of_user user))) in
  (* user_type *)
  user <~ lift (getitem df "user") ;;
  realm <~ lift (getitem df "realm") ;;
  from_inst <~ lift (getitem df "from_inst") ;;
  to_inst <~ lift (getitem df "to_inst") ;;
  let df :=
    setitem df "user_type"
      (zip_with (fun ur ft =>
                   VStr (classify_user_type (fst ur) (snd ur) (fst ft) (snd ft)))
                (combine user realm) (combine from_inst to_inst)) in
  (* home_country *)
  realm <~ lift (getitem df "realm") ;;
  let df :=
    setitem df "home_country" (map (fun r => VStr (get_country_from_realm r)) realm) in
  (* visiting_country *)
  from_inst <~ lift (getitem df "from_inst") ;;
  to_inst <~ lift (getitem df "to_inst") ;;
  ip <~ lift (getitem df "ip") ;;
  let df :=
    setitem df "visiting_country"
      (zip_with (fun ft i => VStr (get_visiting_location (fst ft) (snd ft) i))
                (combine from_inst to_inst) ip) in
  (* is_roaming *)
  home <~ lift (getitem df "home_country") ;;
  visiting <~ lift (getitem df "visiting_country") ;;
  let df :=
    setitem df "is_roaming"
      (zip_with (fun h v => VBool (roaming (str_of h) (str_of v))) home visiting) in
  (* coordinates *)
  to_inst <~ lift (getitem df "to_inst") ;;
  visiting <~ lift (getitem df "visiting_country") ;;
  let coords := zip_with (fun t v => get_coordinates t (str_of v)) to_inst visiting in
  let df := setitem df "latitude" (map (fun c => VNum (fst c)) coords) in
  let df := setitem df "longitude" (map (fun c => VNum (snd c)) coords) in
  (* jitter *)
  lat <~ lift (getitem df "latitude") ;;
  dlat <~ uniform (nrows df) ;;
  let df := setitem df "latitude" (zip_with fadd lat dlat) in
  lon <~ lift (getitem df "longitude") ;;
  dlon <~ uniform (nrows df) ;;
  let df := setitem df "longitude" (zip_with fadd lon dlon) in
  (* connection_success *)
  status <~ lift (getitem df "status") ;;
  let df :=
    setitem df "connection_success"
      (map (fun x => VStr (connection_success x)) status) in
  ret df.

(** The table of lines 223-316 once the five columns read from the input
    table are at hand; [g] is the state of the generator. *)
Definition enriched (df : DataFrame) (user from_inst to_inst ip status : Series)
    (g : nat -> Q) : DataFrame :=
  let n := nrows df in
  let user := fillna (VStr "unknown") user in
  let from_inst := fillna (VStr "unknown") from_inst in
  let to_inst := fillna (VStr "unknown") to_inst in
  let realm := fillna (VStr "") (get df "realm" (map realm_of_user user)) in
  let user_type :=
    zip_with (fun ur ft =>
                VStr (classify_user_type (fst ur) (snd ur) (fst ft) (snd ft)))
             (combine user realm) (combine from_inst to_inst) in
  let home := map (fun r => VStr (get_country_from_realm r)) realm in
  let visiting :=
    zip_with (fun ft i => VStr (get_visiting_location (fst ft) (snd ft) i))
             (combine from_inst to_inst) ip in
  let is_roaming :=
    zip_with (fun h v => VBool (roaming (str_of h) (str_of v))) home visiting in
  let coords := zip_with (fun t v => get_coordinates t (str_of v)) to_inst visiting in
  let lat0 := map (fun c => VNum (fst c)) coords in
  let lon0 := map (fun c => VNum (snd c)) coords in
  let lat := zip_with fadd lat0 (map g (List.seq 0 n)) in
  let lon := zip_with fadd lon0 (map (fun i => g (n + i)%nat) (List.seq 0 n)) in
  let cs := map (fun x => VStr (connection_success x)) status in
  let df := setitem df "user" user in
  let df := setitem df "from_inst" from_inst in
  let df := setitem df "to_inst" to_inst in
  let df := setitem df "realm" realm in
  let df := setitem df "user_type" user_type in
  let df := setitem df "home_country" home in
  let df := setitem df "visiting_country" visiting in
  let df := setitem df "is_roaming" is_roaming in
  let df := setitem df "latitude" lat0 in
  let df := setitem df "longitude" lon0 in
  let df := setitem df "latitude" lat in
  let df := setitem df "longitude" lon in
  setitem df "connection_success" cs.

(** The table without its [latitude] and [longitude] columns. *)
Definition drop_column (k : string) (df : DataFrame) : DataFrame :=
  mkDataFrame (filter (fun c => negb (String.eqb (fst c) k)) (columns df))
              (nrows df).

Definition drop_coordinates (df : DataFrame) : DataFrame :=
  drop_column "longitude" (drop_column "latitude" df).

Definition map_result {A B : Type} (f : A -> B) (r : result A) : result B :=
  match r with
  | Ok a => Ok (f a)
  | Raise e => Raise e
  end.

Section Parse.

Variable parse : string -> option datetime.

Definition no_entries : string :=
  "No valid eduroam log entries found. Please check your log file format.".

(** Lines 158-218. *)
Definition parse_eduroam_log (log_content : string) : M DataFrame :=
  let lines := Py.split Py.newline (Py.strip log_content) in
  let records := collect lines [] in
  match records with
  | [] => _ <~ st_error no_entries ;; ret empty_frame
  | _ =>
      let df := from_records records in
      ts <~ lift (getitem df "timestamp") ;;
      ts <~ lift (to_datetime_raise parse ts) ;;
      let df := setitem df "timestamp" ts in
      enrich_log_data df
  end.

End Parse.

(** *** [analyze_movements] (lines 320-355) *)

Definition value_eqb (a b : value) : bool :=
  match a, b with
  | VNone, VNone | VNaN, VNaN | VNaT, VNaT => true
  | VStr x, VStr y => String.eqb x y
  | VBool x, VBool y => Bool.eqb x y
  | VNum x, VNum y => Qeq_bool x y
  | VTime x, VTime y =>
      Nat.eqb (year x) (year y) && Nat.eqb (month x) (month y)
      && Nat.eqb (day x) (day y) && Nat.eqb (hour x) (hour y)
      && Nat.eqb (minute x) (minute y) && Nat.eqb (second x) (second y)
  | _, _ => false
  end.

(** [s.unique()]: the distinct cells in order of first appearance. *)
Fixpoint unique_from (seen : Series) (s : Series) : Series :=
  match s with
  | [] => seen
  | v :: s' =>
      unique_from (if existsb (value_eqb v) seen then seen else (seen ++ [v])%list) s'
  end.

Definition unique (s : Series) : Series := unique_from [] s.

(** [s == 'lit'] *)
Definition mask_str (s : Series) (lit : string) : list bool :=
  map (fun v => eq_str v lit) s.

(** [s == True] *)
Definition mask_true (s : Series) : list bool :=
  map (fun v => match v with VBool true => true | _ => false end) s.

Definition mask_and (m m' : list bool) : list bool := zip_with andb m m'.

(** [len(df[mask])] *)
Definition count (m : list bool) : nat := length (filter (fun b => b) m).

(** [s[mask]] *)
Fixpoint select (m : list bool) (s : Series) : Series :=
  match m, s with
  | b :: m', v :: s' => if b then v :: select m' s' else select m' s'
  | _, _ => []
  end.

(** The order-independent entries of one [user_movements] value. *)
Record user_summary : Type := mkUserSummary {
  u_total_connections : nat;
  u_successful_connections : nat;
  u_is_roaming : bool;
  u_roaming_sessions : nat
}.

(** The counters of the analysis and the per-user summaries.  The entries
    that depend on [sort_values] and [institution_stats] are not part of
    the model. *)
Record analysis : Type := mkAnalysis {
  total_users : nat;
  indian_users : nat;
  foreign_users : nat;
  total_connections : nat;
  successful_connections : nat;
  failed_connections : nat;
  roaming_sessions : nat;
  countries_involved : nat;
  user_movements : list (string * user_summary)
}.

(** Lines 342-353 for one user. *)
Definition summarize_user (df : DataFrame) (user : string)
    : result user_summary :=
  users <- getitem df "user" ;;
  let m := mask_str users user in
  _ <- getitem df "timestamp" ;;
  _ <- getitem df "user_type" ;;
  _ <- getitem df "home_country" ;;
  _ <- getitem df "to_inst" ;;
  _ <- getitem df "visiting_country" ;;
  status <- getitem df "status" ;;
  is_roaming <- getitem df "is_roaming" ;;
  Ok (mkUserSummary (count m)
        (count (mask_and m (mask_str status "Accept")))
        (existsb (fun b => b) (mask_and m (mask_true is_roaming)))
        (count (mask_and m (mask_true is_roaming)))).

(** Lines 338-353: the loop over the users; ['unknown'] is skipped. *)
Fixpoint movements (df : DataFrame) (users : Series)
    : result (list (string * user_summary)) :=
  match users with
  | [] => Ok []
  | u :: rest =>
      if eq_str u "unknown" then movements df rest
      else
        s <- summarize_user df (py_str u) ;;
        ms <- movements df rest ;;
        Ok ((py_str u, s) :: ms)
  end.

(** Lines 320-355; [None] is the empty dict returned for an empty table. *)
Definition analyze_movements (df : DataFrame) : result (option analysis) :=
  if empty df then Ok None
  else
    user <- getitem df "user" ;;
    user_type <- getitem df "user_type" ;;
    status <- getitem df "status" ;;
    is_roaming <- getitem df "is_roaming" ;;
    home <- getitem df "home_country" ;;
    ms <- movements df (unique user) ;;
    Ok (Some (mkAnalysis
      (length (unique user))
      (length (unique (select (mask_str user_type "Indian") user)))
      (length (unique (select (mask_str user_type "Foreign") user)))
      (nrows df)
      (count (mask_str status "Accept"))
      (count (mask_str status "Reject"))
      (count (mask_true is_roaming))
      (length (unique home))
      ms)).

End Ritik.

(** ** An instance of the timestamp parser *)

Module Strptime.

Import Pandas.

Definition weekdays : list string :=
  ["mon"; "tue"; "wed"; "thu"; "fri"; "sat"; "sun"].

Definition months : list string :=
  ["jan"; "feb"; "mar"; "apr"; "may"; "jun"; "jul"; "aug"; "sep"; "oct";
   "nov"; "dec"].

Fixpoint index_of (s : string) (l : list string) : option nat :=
  match l with
  | [] => None
  | x :: l' => if String.eqb s x then Some 0 else option_map S (index_of s l')
  end.

Fixpoint digits (s : string) (acc : nat) : option nat :=
  match s with
  | EmptyString => Some acc
  | String a s' =>
      if Py.is_digit a
      then digits s' (10 * acc + (N.to_nat (Py.code a) - 48))
      else None
  end.

(** A number of at least [lo] and at most [hi] digits. *)
Definition number (lo hi : nat) (s : string) : option nat :=
  if ((lo <=? String.length s) && (String.length s <=? hi))%nat then digits s 0
  else None.

Definition leap (y : nat) : bool :=
  (Nat.eqb (y mod 4) 0 && negb (Nat.eqb (y mod 100) 0)) || Nat.eqb (y mod 400) 0.

Definition days_in_month (y m : nat) : nat :=
  match m with
  | 2 => if leap y then 29 else 28
  | 4 | 6 | 9 | 11 => 30
  | _ => 31
  end.

(** The format ['%a %b %d %H:%M:%S %Y'] on a string whose fields are
    separated by single spaces. *)
Definition strptime (s : string) : option datetime :=
  match Py.split " " s with
  | [a; b; d; t; y] =>
      match index_of (Py.lower a) weekdays, index_of (Py.lower b) months,
            number 1 2 d, Py.split ":" t, number 4 4 y with
      | Some _, Some m, Some d, [hh; mm; ss], Some y =>
          match number 1 2 hh, number 1 2 mm, number 1 2 ss with
          | Some hh, Some mm, Some ss =>
              if ((1 <=? d) && (d <=? days_in_month y (S m)) && (hh <=? 23)
                  && (mm <=? 59) && (ss <=? 61))%nat
              then Some (mkDatetime y (S m) d hh mm ss)
              else None
          | _, _, _ => None
          end
      | _, _, _, _, _ => None
      end
  | _ => None
  end.

End Strptime.

(** ** Inputs of the examples *)

Module Examples.

Import Pandas.

Definition nl : string := String Py.newline EmptyString.

(** Example 1 of the specification. *)
Definition access_line : string :=
  "Thu Jul 25 09:03:00 2024: Access-Accept for user alice@iitd.ac.in stationid AA:BB:CC:DD:EE:FF from sp1.example to sp2.example (10.0.0.5)".

(** Example 2 of the specification. *)
Definition fticks_line : string :=
  "Thu Jul 25 09:03:05 2024: F-TICKS/eduroam/1.0#REALM=iitd.ac.in#VISCOUNTRY=IN#VISINST=nit.ac.in#CSI=abc123#RESULT=OK#".

Definition fticks_with (result : string) : string :=
  "Thu Jul 25 09:03:05 2024: F-TICKS/eduroam/1.0#REALM=iitd.ac.in#VISCOUNTRY=IN#VISINST=nit.ac.in#CSI=abc123#RESULT="
  ++ result ++ "#".

(** The record of [access_line] in the minimal analyzer. *)
Definition access_dict : dict :=
  [("Timestamp", VStr "Thu Jul 25 09:03:00 2024");
   ("Event", VStr "Access-Accept");
   ("Username", VStr "alice@iitd.ac.in");
   ("StationID", VStr "AA:BB:CC:DD:EE:FF");
   ("Source", VStr "sp1.example");
   ("Destination", VStr "sp2.example");
   ("ServerIP", VStr "10.0.0.5");
   ("CUI", VNone)].

(** The record of [fticks_line] in the minimal analyzer. *)
Definition fticks_dict : dict :=
  [("Timestamp", VStr "Thu Jul 25 09:03:05 2024");
   ("VISCOUNTRY", VStr "IN");
   ("VISINST", VStr "nit.ac.in");
   ("CSI", VStr "abc123");
   ("RESULT", VStr "OK");
   ("Reason", VStr "Authentication successful")].




(** A line of both Access grammars whose hour is 25. *)
Definition bad_hour_line : string :=
  "Thu Jul 25 25:03:00 2024: Access-Accept for user alice@iitd.ac.in stationid AA:BB:CC:DD:EE:FF from sp1.example to sp2.example (10.0.0.5)".

Definition garbage : list string :=
  ["this is not a log line"; "Access-Accept without a timestamp (10.0.0.5)"; ""].

Definition garbage_text : string :=
  "this is not a log line" ++ nl ++ "Access-Accept without a timestamp (10.0.0.5)".

(** A generator whose draws are all 0, and one whose draws are 0, 1/40,
    2/40, 3/40 and so on. *)
Definition still : Ritik.state := Ritik.mkState [] (fun _ => 0%Q).
Definition drifting : Ritik.state :=
  Ritik.mkState [] (fun i => (Z.of_nat i # 40)%Q).

(** The table of [access_line] before enrichment. *)
Definition access_table : DataFrame :=
  from_records (Ritik.collect [access_line] []).

Definition from_ok (r : result DataFrame) : DataFrame :=
  match r with
  | Ok df => df
  | Raise _ => empty_frame
  end.

End Examples.

(** ** What the groups of a pattern capture *)

Module Captured.

Import Re.

(** [groups_ok P r]: whatever the subject, the text of every named group
    [n] of [r] satisfies [P n]. *)
Fixpoint groups_ok (P : string -> string -> Prop) (r : regex) : Prop :=
  match r with
  | Grp n r1 =>
      (forall subj s s1, matches subj r1 s s1 -> P n (taken s s1)) /\
      groups_ok P r1
  | Cat r1 r2 | Alt r1 r2 => groups_ok P r1 /\ groups_ok P r2
  | Opt r1 => groups_ok P r1
  | Eps | Bol | Chr _ | Rep _ _ _ _ => True
  end.

Definition caps_ok (P : string -> string -> Prop) (c : caps) : Prop :=
  forall n v, lookup n c = Some v -> P n v.

(** The number of characters every match of [r] consumes, when it is the
    same for all of them. *)
Fixpoint width (r : regex) : option nat :=
  match r with
  | Eps | Bol => Some 0
  | Chr _ => Some 1
  | Cat r1 r2 =>
      match width r1, width r2 with
      | Some a, Some b => Some (a + b)
      | _, _ => None
      end
  | Alt r1 r2 =>
      match width r1, width r2 with
      | Some a, Some b => if Nat.eqb a b then Some a else None
      | _, _ => None
      end
  | Grp _ r1 => width r1
  | Opt _ => None
  | Rep _ _ lo hi =>
      match hi with
      | Some h => if Nat.eqb lo h then Some lo else None
      | None => None
      end
  end.

(** Every character of [v] is in the class [p]. *)
Definition all_in (p : ascii -> bool) (v : string) : Prop :=
  forallb p (list_ascii_of_string v) = true.

(** The texts of the groups of [Ritik.access_pattern]. *)
Definition extended_access_text (n v : string) : Prop :=
  (n = "timestamp" -> String.length v = 24) /\
  (n = "status" -> v = "Accept" \/ v = "Reject") /\
  (n = "ip" -> v <> "").

(** The texts of the groups of [LogGenerator.access_pattern]. *)
Definition minimal_access_text (n v : string) : Prop :=
  (n = "event" -> String.length v = 13) /\
  (n = "stationid" ->
   v <> "" /\
   all_in (union (range "0" "9")
          (union (range "a" "f") (union (range "A" "F") (one_of ":-")))) v) /\
  (n = "source" -> v <> "" /\ all_in non_space v) /\
  (n = "ip" -> v <> "").

(** The texts of the groups of the two F-TICKS patterns. *)
Definition fticks_text (n v : string) : Prop :=
  n <> "timestamp" -> all_in (not_char "#") v.

End Captured.

(** ** [src/app.py] *)

Module App.

Import Pandas.

(** What a call returns, or the error it raises: [IndexError] for a
    subscript out of range, [TypeError] for ['@' in email] on a value that
    is no container. *)
Inductive outcome : Type :=
| Returned (v : value)
| IndexError
| TypeError.

(** Lines 15-18: [extract_domain], applied to the cells of [Username]. *)
Definition extract_domain (email : value) : outcome :=
  if isna email then Returned VNone
  else match email with
       | VStr e =>
           if Py.contains "@" e
           then match Py.split "@" e with
                | _ :: domain :: _ =>
                    Returned (VStr (Py.lower (Py.strip domain)))
                | _ => IndexError
                end
           else Returned VNone
       | _ => TypeError
       end.

End App.

(** ** The records of one line in the extended analyzer *)

Module Lines.

Import Pandas.

(** What one pass of the loop of lines 186-203 appends. *)
Definition records_of_line (line : string) : list dict :=
  match Py.strip line with
  | EmptyString => []
  | l => Ritik.append (Ritik.append [] (Ritik.access_record l))
                      (Ritik.fticks_record l)
  end.

End Lines.

(** ** Records of the examples in the extended analyzer *)

Module Records.

Import Pandas.

(** The record of [Examples.access_line]. *)
Definition access_dict : dict :=
  [("timestamp", VStr "Thu Jul 25 09:03:00 2024");
   ("status", VStr "Accept");
   ("user", VStr "alice@iitd.ac.in");
   ("stationid", VStr "AA:BB:CC:DD:EE:FF");
   ("cui", VNone);
   ("from_inst", VStr "sp1.example");
   ("to_inst", VStr "sp2.example");
   ("ip", VStr "10.0.0.5");
   ("operator", VNone);
   ("log_type", VStr "access")].

(** The record of [Examples.fticks_line]. *)
Definition fticks_dict : dict :=
  [("timestamp", VStr "Thu Jul 25 09:03:05 2024");
   ("realm", VStr "iitd.ac.in");
   ("viscountry", VStr "IN");
   ("visinst", VStr "nit.ac.in");
   ("csi", VStr "abc123");
   ("result", VStr "OK");
   ("log_type", VStr "fticks")].

End Records.

(** ** Matches with their groups *)

Unset Implicit Arguments.

Module Derivation.

Import Re.

(** [runs subj r s c s' c']: [r] can match from position [s] to position
    [s'] of the subject, and a match along this way turns the groups [c]
    into [c']. *)
Inductive runs (subj : string)
    : regex -> string -> caps -> string -> caps -> Prop :=
| R_Eps : forall s c, runs subj Eps s c s c
| R_Bol : forall s c,
    String.length s = String.length subj -> runs subj Bol s c s c
| R_Chr : forall p a s c, p a = true -> runs subj (Chr p) (String a s) c s c
| R_Cat : forall r1 r2 s c s1 c1 s2 c2,
    runs subj r1 s c s1 c1 -> runs subj r2 s1 c1 s2 c2 ->
    runs subj (Cat r1 r2) s c s2 c2
| R_AltL : forall r1 r2 s c s1 c1,
    runs subj r1 s c s1 c1 -> runs subj (Alt r1 r2) s c s1 c1
| R_AltR : forall r1 r2 s c s1 c1,
    runs subj r2 s c s1 c1 -> runs subj (Alt r1 r2) s c s1 c1
| R_Grp : forall n r s c s1 c1,
    runs subj r s c s1 c1 ->
    runs subj (Grp n r) s c s1 ((n, taken s s1) :: c1)
| R_OptSome : forall r s c s1 c1,
    runs subj r s c s1 c1 -> runs subj (Opt r) s c s1 c1
| R_OptNone : forall r s c, runs subj (Opt r) s c s c
| R_Rep : forall g p lo hi u s c,
    forallb p (list_ascii_of_string u) = true ->
    lo <= String.length u -> within (String.length u) hi ->
    runs subj (Rep g p lo hi) (u ++ s) c s c.

(** The named groups of a pattern. *)
Fixpoint groups (r : regex) : list string :=
  match r with
  | Grp n r1 => n :: groups r1
  | Cat r1 r2 | Alt r1 r2 => groups r1 ++ groups r2
  | Opt r1 => groups r1
  | Eps | Bol | Chr _ | Rep _ _ _ _ => []
  end.

(** Whether [r] has a group of the name [n]. *)
Definition names (n : string) (r : regex) : bool :=
  existsb (String.eqb n) (groups r).

End Derivation.

(** ** The grammar of an F-TICKS line *)

Module Grammar.

Import Re Captured.

(** [n] characters of the class [p]. *)
Definition chars (p : ascii -> bool) (n : nat) (v : string) : Prop :=
  all_in p v /\ String.length v = n.

(** A timestamp as the minimal analyzer reads it: two words of three
    characters, the day in digits, the time in two digits each and the
    year in four. *)
Inductive timestamp_text : string -> Prop :=
| Timestamp : forall wd mo day hh mm ss yyyy,
    chars word 3 wd -> chars word 3 mo ->
    all_in digit day -> day <> "" ->
    chars digit 2 hh -> chars digit 2 mm -> chars digit 2 ss ->
    chars digit 4 yyyy ->
    timestamp_text (wd ++ " " ++ mo ++ " " ++ day ++ " " ++ hh ++ ":" ++ mm
                       ++ ":" ++ ss ++ " " ++ yyyy).

(** A line of the F-TICKS grammar, put together from its parts: [v] is the
    character between [1] and [0] of the version, [rest] what follows the
    [#] that ends the result. *)
Definition fticks_line (ts : string) (v : ascii)
    (realm country inst csi result rest : string) : string :=
  ts ++ ": F-TICKS/eduroam/1"
     ++ String v ("0#REALM=" ++ realm ++ "#VISCOUNTRY=" ++ country
                  ++ "#VISINST=" ++ inst ++ "#CSI=" ++ csi
                  ++ "#RESULT=" ++ result ++ "#" ++ rest).

End Grammar.

(** ** The tests of the home country *)

Module Markers.

(** The tests of [get_country_from_realm] as the claim reads them: the
    markers of each country, in the order of the tests of lines 255-270. *)
Definition country_tests : list (list string * string) :=
  [(".in" :: Ritik.indian_institutions, "India");
   ([".it"], "Italy");
   ([".uk"; ".ac.uk"], "UK");
   ([".edu"], "USA");
   ([".de"], "Germany");
   ([".fr"], "France");
   ([".nl"], "Netherlands");
   ([".se"], "Sweden")].

(** The country of the first test one of whose markers [realm] holds,
    anywhere. *)
Fixpoint first_country (tests : list (list string * string)) (realm : string)
    : string :=
  match tests with
  | [] => "Unknown"
  | (markers, country) :: rest =>
      if Py.any_in markers realm then country else first_country rest realm
  end.

End Markers.

(** ** What acceptance of an Access line depends on *)

Module Required.

Import Re.







End Required.

Set Implicit Arguments.

(** * Properties *)

(** ** The matcher and the language of a pattern *)

Module ReFacts.

Import Re.

Lemma append_assoc (u v w : string) : (u ++ v) ++ w = u ++ (v ++ w).
Proof. induction u as [|a u IH]; simpl; [reflexivity | now rewrite IH]. Qed.

Lemma length_append (u v : string) :
  String.length (u ++ v) = String.length u + String.length v.
Proof. induction u as [|a u IH]; simpl; [reflexivity | now rewrite IH]. Qed.


Section Repetition.

Variable A : Type.
Variable p : ascii -> bool.
Variable k : string -> option A.

Lemma consumed_nil lo hi s x :
  lo = 0 -> k s = Some x -> consumed p k lo hi s x.
Proof.
  intros -> H. exists EmptyString, s. simpl. repeat split; auto.
  destruct hi; simpl; lia.
Qed.

Lemma consumed_cons lo hi a s x :
  p a = true -> hi <> Some 0 ->
  consumed p k (pred lo) (option_map pred hi) s x ->
  consumed p k lo hi (String a s) x.
Proof.
  intros Ha Hhi (u & s' & -> & Hu & Hlo & Hhi' & Hk).
  exists (String a u), s'. simpl. rewrite Ha, Hu. repeat split; auto; try lia.
  destruct hi as [[|h]|]; simpl in *; try lia. congruence.
Qed.

Lemma stop_sound lo hi s x :
  match lo with O => k s | S _ => None end = Some x -> consumed p k lo hi s x.
Proof. destruct lo; [apply consumed_nil; reflexivity | discriminate]. Qed.

Lemma rep_greedy_sound : forall s lo hi x,
  rep_greedy p lo hi s k = Some x -> consumed p k lo hi s x.
Proof.
  induction s as [|a s IH]; intros lo hi x H.
  - simpl in H. destruct hi as [[|h]|]; now apply stop_sound.
  - destruct hi as [[|h]|]; [now apply stop_sound | |];
      cbn [rep_greedy] in H;
      (destruct (p a) eqn:Ha; [|now apply stop_sound]);
      unfold orelse in H;
      match type of H with context [rep_greedy p ?l ?h' s k] =>
        destruct (rep_greedy p l h' s k) eqn:E
      end;
      try (now apply stop_sound);
      inversion H; subst;
      (apply consumed_cons; [assumption | discriminate | now apply IH]).
Qed.

Lemma rep_lazy_sound : forall s lo hi x,
  rep_lazy p lo hi s k = Some x -> consumed p k lo hi s x.
Proof.
  induction s as [|a s IH]; intros lo hi x H; cbn [rep_lazy] in H;
    unfold orelse in H.
  - destruct (match lo with O => k EmptyString | S _ => None end) eqn:E.
    + inversion H; subst. now apply stop_sound.
    + destruct hi as [[|h]|]; discriminate.
  - destruct (match lo with O => k (String a s) | S _ => None end) eqn:E.
    + inversion H; subst. now apply stop_sound.
    + destruct hi as [[|h]|]; [discriminate | |];
        (destruct (p a) eqn:Ha; [|discriminate]);
        (apply consumed_cons; [assumption | discriminate | now apply IH]).
Qed.

Lemma feasible_inv lo hi s :
  feasible p k lo hi s ->
  (lo = 0 /\ is_some (k s) = true) \/
  (exists a s', s = String a s' /\ p a = true /\ hi <> Some 0 /\
                feasible p k (pred lo) (option_map pred hi) s').
Proof.
  intros (u & s' & -> & Hu & Hlo & Hhi & Hk).
  destruct u as [|a u]; simpl in *.
  - left. split; [lia | assumption].
  - right. apply andb_prop in Hu. destruct Hu as [Ha Hu].
    exists a, (u ++ s'). repeat split; auto.
    + destruct hi as [[|h]|]; simpl in *; try discriminate; lia.
    + exists u, s'. repeat split; auto; try lia.
      destruct hi as [[|h]|]; simpl in *; lia.
Qed.

Lemma rep_greedy_complete : forall s lo hi,
  feasible p k lo hi s -> is_some (rep_greedy p lo hi s k) = true.
Proof.
  induction s as [|a s IH]; intros lo hi H;
    destruct (feasible_inv H) as [[-> Hk] | (b & s' & E & Hb & Hhi & H')].
  - simpl. destruct hi as [[|h]|]; assumption.
  - discriminate.
  - simpl. destruct hi as [[|h]|]; try assumption;
      (destruct (p a); [|assumption]); unfold orelse;
      match goal with |- context [rep_greedy p ?l ?h s k] =>
        destruct (rep_greedy p l h s k) end; auto.
  - inversion E; subst b s'. simpl.
    destruct hi as [[|h]|]; [congruence | |]; rewrite Hb; unfold orelse;
      specialize (IH _ _ H');
      match goal with |- context [rep_greedy p ?l ?h' s k] =>
        destruct (rep_greedy p l h' s k) end; auto; discriminate.
Qed.

Lemma rep_lazy_complete : forall s lo hi,
  feasible p k lo hi s -> is_some (rep_lazy p lo hi s k) = true.
Proof.
  induction s as [|a s IH]; intros lo hi H;
    destruct (feasible_inv H) as [[-> Hk] | (b & s' & E & Hb & Hhi & H')].
  - simpl. unfold orelse. destruct (k EmptyString); [reflexivity | discriminate].
  - discriminate.
  - simpl. unfold orelse. destruct (k (String a s)); [reflexivity | discriminate].
  - inversion E; subst b s'. simpl. unfold orelse.
    destruct (match lo with O => k (String a s) | S _ => None end);
      [reflexivity |].
    destruct hi as [[|h]|]; [congruence | |]; rewrite Hb; now apply IH.
Qed.

End Repetition.

(** *** Soundness: a result of [exec] comes from a match of the language *)

Lemma keeps_refl c : keeps c c.
Proof. intros n H; exact H. Qed.

Lemma keeps_trans c1 c2 c3 : keeps c1 c2 -> keeps c2 c3 -> keeps c1 c3.
Proof. intros H1 H2 n H. apply H2, H1, H. Qed.

Lemma keeps_cons c n v : keeps c ((n, v) :: c).
Proof.
  intros n' H. simpl. destruct (String.eqb n' n); [discriminate | exact H].
Qed.

Lemma sets_keeps ns c c' : sets ns c -> keeps c c' -> sets ns c'.
Proof. intros H K n Hn. apply K, H, Hn. Qed.

Lemma sets_nil c : sets [] c.
Proof. intros n []. Qed.

Lemma exec_sound (A : Type) (subj : string) :
  forall r s c (k : string -> caps -> option A) x,
    exec r subj s c k = Some x ->
    exists s' c', matches subj r s s' /\ keeps c c' /\ sets (must r) c' /\
                  k s' c' = Some x.
Proof.
  induction r as [| |p|r1 IH1 r2 IH2|r1 IH1 r2 IH2|n r1 IH1|r1 IH1|g p lo hi];
    intros s c k x H; simpl in H.
  - exists s, c. repeat split; auto using keeps_refl, sets_nil. constructor.
  - destruct (Nat.eqb (String.length s) (String.length subj)) eqn:E;
      [|discriminate].
    apply Nat.eqb_eq in E.
    exists s, c. repeat split; auto using keeps_refl, sets_nil.
    now constructor.
  - destruct s as [|a s]; [discriminate|].
    destruct (p a) eqn:Ha; [|discriminate].
    exists s, c. repeat split; auto using keeps_refl, sets_nil.
    now constructor.
  - apply IH1 in H. destruct H as (s1 & c1 & M1 & K1 & S1 & H).
    apply IH2 in H. destruct H as (s2 & c2 & M2 & K2 & S2 & H).
    exists s2, c2. repeat split; eauto using keeps_trans.
    + econstructor; eauto.
    + intros n Hn. simpl in Hn. apply in_app_or in Hn.
      destruct Hn as [Hn|Hn]; [apply K2, S1, Hn | apply S2, Hn].
  - unfold orelse in H. destruct (exec r1 subj s c k) eqn:E.
    + inversion H; subst. apply IH1 in E.
      destruct E as (s1 & c1 & M1 & K1 & S1 & E).
      exists s1, c1. repeat split; auto; [now apply M_AltL|].
      intros n Hn. simpl in Hn. apply filter_In in Hn. apply S1, Hn.
    + apply IH2 in H. destruct H as (s1 & c1 & M1 & K1 & S1 & H).
      exists s1, c1. repeat split; auto; [now apply M_AltR|].
      intros n Hn. simpl in Hn. apply filter_In in Hn. destruct Hn as [_ Hn].
      apply existsb_exists in Hn. destruct Hn as (n' & Hn' & E').
      apply String.eqb_eq in E'. subst n'. apply S1, Hn'.
  - apply IH1 in H. destruct H as (s1 & c1 & M1 & K1 & S1 & H).
    exists s1, ((n, taken s s1) :: c1). repeat split; auto.
    + now constructor.
    + eapply keeps_trans; [exact K1 | apply keeps_cons].
    + intros n' Hn. simpl in Hn. destruct Hn as [<-|Hn].
      * simpl. rewrite String.eqb_refl. discriminate.
      * apply keeps_cons, S1, Hn.
  - unfold orelse in H. destruct (exec r1 subj s c k) eqn:E.
    + inversion H; subst. apply IH1 in E.
      destruct E as (s1 & c1 & M1 & K1 & S1 & E).
      exists s1, c1. repeat split; auto using sets_nil. now apply M_OptSome.
    + exists s, c. repeat split; auto using keeps_refl, sets_nil.
      apply M_OptNone.
  - assert (C : consumed p (fun s1 => k s1 c) lo hi s x).
    { destruct g; [now apply rep_greedy_sound | now apply rep_lazy_sound]. }
    destruct C as (u & s' & -> & Hu & Hlo & Hhi & Hk).
    exists s', c. repeat split; auto using keeps_refl, sets_nil.
    now constructor.
Qed.

(** *** Completeness: a match of the language makes [exec] succeed *)

Lemma is_some_orelse {A : Type} (x y : option A) :
  is_some (orelse x y) = is_some x || is_some y.
Proof. destruct x; reflexivity. Qed.

Lemma exec_complete (A : Type) (subj : string) :
  forall r (k : string -> caps -> option A), insensitive k ->
    forall s s' c c0,
      matches subj r s s' -> is_some (k s' c0) = true ->
      is_some (exec r subj s c k) = true.
Proof.
  induction r as [| |p|r1 IH1 r2 IH2|r1 IH1 r2 IH2|n r1 IH1|r1 IH1|g p lo hi];
    intros k Hk s s' c c0 M H; inversion M; subst; simpl.
  - eapply Hk; eauto.
  - match goal with E : String.length _ = _ |- _ => rewrite E end.
    rewrite Nat.eqb_refl. eapply Hk; eauto.
  - match goal with E : p _ = true |- _ => rewrite E end. eapply Hk; eauto.
  - match goal with
    | M1 : matches _ r1 _ ?s1, M2 : matches _ r2 ?s1 _ |- _ =>
        apply IH1 with (s' := s1) (c0 := c); auto;
        [| eapply IH2; eauto]
    end.
    intros t d d' Hd. destruct (exec r2 subj t d k) eqn:E; [|discriminate].
    apply exec_sound in E. destruct E as (t' & d'' & Mt & _ & _ & E).
    eapply IH2; eauto. rewrite E. reflexivity.
  - rewrite is_some_orelse. apply orb_true_iff. left. eapply IH1; eauto.
  - rewrite is_some_orelse. apply orb_true_iff. right. eapply IH2; eauto.
  - apply IH1 with (s' := s') (c0 := c0).
    + intros t d d' Hd. eapply Hk; eauto.
    + assumption.
    + eapply Hk; eauto.
  - rewrite is_some_orelse. apply orb_true_iff. left. eapply IH1; eauto.
  - rewrite is_some_orelse. apply orb_true_iff. right. eapply Hk; eauto.
  - assert (F : feasible p (fun s1 => k s1 c) lo hi (u ++ s')).
    { exists u, s'. repeat split; auto. eapply Hk; eauto. }
    destruct g; [now apply rep_greedy_complete | now apply rep_lazy_complete].
Qed.

(** *** [match] and [search] *)

Lemma match_at_matches r subj s :
  is_some (match_at r subj s) = true <-> exists s', matches subj r s s'.
Proof.
  unfold match_at. split.
  - destruct (exec r subj s [] (fun _ c => Some c)) eqn:E; [|discriminate].
    intros _. apply exec_sound in E. destruct E as (s' & _ & M & _). eauto.
  - intros (s' & M).
    eapply exec_complete with (c0 := []); eauto. intros t d d' _. reflexivity.
Qed.

Lemma match_at_sets r subj s m :
  match_at r subj s = Some m -> forall n, In n (must r) -> group m n <> None.
Proof.
  unfold match_at. intros E. apply exec_sound in E.
  destruct E as (s' & c' & _ & _ & S & E). inversion E; subst. exact S.
Qed.

(** [pattern.match] succeeds exactly on the subjects with a matching
    prefix. *)
Lemma re_match_matches r subj :
  is_some (re_match r subj) = true <-> exists s', matches subj r subj s'.
Proof. apply match_at_matches. Qed.



Lemma search_from_sets r subj : forall s m,
  search_from r subj s = Some m -> forall n, In n (must r) -> group m n <> None.
Proof.
  induction s as [|a s IH]; intros m H; simpl in H.
  - destruct (match_at r subj EmptyString) eqn:E; [|discriminate].
    inversion H; subst. now apply (match_at_sets _ _ _ E).
  - destruct (match_at r subj (String a s)) eqn:E.
    + inversion H; subst. now apply (match_at_sets _ _ _ E).
    + now apply IH.
Qed.

(** *** Reasoning in the language *)

Lemma cat_inv subj r1 r2 s s2 :
  matches subj (Cat r1 r2) s s2 ->
  exists s1, matches subj r1 s s1 /\ matches subj r2 s1 s2.
Proof. intros M. inversion M; subst. eauto. Qed.

Lemma grp_inv subj n r s s' : matches subj (Grp n r) s s' -> matches subj r s s'.
Proof. intros M. now inversion M. Qed.

Lemma eps_inv subj s s' : matches subj Eps s s' -> s = s'.
Proof. intros M. now inversion M. Qed.

Lemma all_ascii_complete (a : ascii) : In a all_ascii.
Proof.
  unfold all_ascii. rewrite <- (ascii_nat_embedding a).
  apply in_map, in_seq. pose proof (nat_ascii_bounded a). lia.
Qed.

Lemma inside_spec p q : inside p q = true -> forall a, p a = true -> q a = true.
Proof.
  unfold inside. rewrite forallb_forall. intros H a Ha.
  specialize (H a (all_ascii_complete a)). rewrite Ha in H. exact H.
Qed.





Lemma star_empty subj p s : matches subj (star p) s s.
Proof.
  change s with (EmptyString ++ s) at 1. apply M_Rep; simpl; auto.
Qed.

End ReFacts.

(** ** The Access grammar of the two analyzers *)

Module AccessGrammar.

Import Re ReFacts Pandas.



Ltac split_cats H :=
  repeat match type of H with
  | matches _ (Cat _ _) _ _ =>
      let s := fresh "s" in
      let M := fresh "M" in
      apply cat_inv in H; destruct H as (s & M & H)
  end;
  apply eps_inv in H; subst.










End AccessGrammar.

(** ** Tables *)

Unset Implicit Arguments.

Module PandasFacts.

Import Pandas.

Lemma assoc_put k k' s cs :
  assoc k (put k' s cs) = if String.eqb k k' then Some s else assoc k cs.
Proof.
  induction cs as [|[k0 s0] cs IH]; simpl.
  - destruct (String.eqb k k'); reflexivity.
  - destruct (String.eqb k' k0) eqn:E0; simpl.
    + apply String.eqb_eq in E0. subst k0.
      destruct (String.eqb k k'); reflexivity.
    + destruct (String.eqb k k0) eqn:E1.
      * apply String.eqb_eq in E1. subst k0.
        rewrite String.eqb_sym, E0. reflexivity.
      * exact IH.
Qed.

Lemma getitem_setitem df k k' s :
  getitem (setitem df k' s) k = if String.eqb k k' then Ok s else getitem df k.
Proof.
  unfold getitem, setitem. simpl. rewrite assoc_put.
  destruct (String.eqb k k'); reflexivity.
Qed.

Lemma get_setitem df k k' s d :
  get (setitem df k' s) k d = if String.eqb k k' then s else get df k d.
Proof.
  unfold get, setitem. simpl. rewrite assoc_put.
  destruct (String.eqb k k'); reflexivity.
Qed.

Lemma nrows_setitem df k s : nrows (setitem df k s) = nrows df.
Proof. reflexivity. Qed.

Lemma cell_row df i k :
  cell (row df i) k =
  match assoc k (columns df) with
  | Some s => nth i s VNaN
  | None => VNaN
  end.
Proof.
  unfold cell, row. induction (columns df) as [|[k0 s0] cs IH]; simpl.
  - reflexivity.
  - destruct (String.eqb k k0); [reflexivity | exact IH].
Qed.

Lemma cell_row_getitem df i k s :
  getitem df k = Ok s -> cell (row df i) k = nth i s VNaN.
Proof.
  unfold getitem. rewrite cell_row.
  destruct (assoc k (columns df)); intros H; inversion H; reflexivity.
Qed.

Lemma in_to_records df d :
  In d (to_records df) -> exists i, i < nrows df /\ d = row df i.
Proof.
  unfold to_records. rewrite in_map_iff. intros (i & <- & Hi).
  apply in_seq in Hi. exists i. split; [lia | reflexivity].
Qed.

Lemma nth_as_error (A : Type) (l : list A) i d :
  nth i l d = match nth_error l i with Some x => x | None => d end.
Proof.
  revert i. induction l as [|a l IH]; intros [|i]; simpl; auto.
Qed.

Lemma mem_union_keys k : forall ks seen,
  mem k (union_keys seen ks) = mem k seen || mem k ks.
Proof.
  induction ks as [|k0 ks IH]; intros seen; simpl.
  - now rewrite orb_false_r.
  - rewrite IH. destruct (mem k0 seen) eqn:E.
    + destruct (String.eqb k k0) eqn:E0; [|reflexivity].
      apply String.eqb_eq in E0. subst k0. rewrite E. reflexivity.
    + unfold mem at 1. rewrite existsb_app. simpl.
      rewrite orb_false_r, orb_assoc. reflexivity.
Qed.

Lemma assoc_tabulate (f : string -> Series) k ks :
  assoc k (map (fun k => (k, f k)) ks) = if mem k ks then Some (f k) else None.
Proof.
  induction ks as [|k0 ks IH]; simpl; [reflexivity|].
  destruct (String.eqb k k0) eqn:E; simpl; [|exact IH].
  apply String.eqb_eq in E. subst k0. reflexivity.
Qed.

Lemma mem_in k ks : In k ks -> mem k ks = true.
Proof.
  intros H. apply existsb_exists. exists k. split; [exact H|].
  apply String.eqb_refl.
Qed.

Lemma dict_get_in_keys d k : dict_get d k <> None -> In k (map fst d).
Proof.
  induction d as [|[k0 v0] d IH]; simpl; [congruence|].
  destruct (String.eqb k k0) eqn:E.
  - apply String.eqb_eq in E. auto.
  - auto.
Qed.

Lemma dict_get_not_in_keys d k : mem k (map fst d) = false -> dict_get d k = None.
Proof.
  induction d as [|[k0 v0] d IH]; simpl; [reflexivity|].
  destruct (String.eqb k k0); [discriminate | exact IH].
Qed.

Lemma getitem_from_records rs k col :
  getitem (from_records rs) k = Ok col -> col = map (fun d => cell d k) rs.
Proof.
  unfold getitem, from_records. simpl. rewrite assoc_tabulate.
  destruct (mem k (keys_of rs)); intros H; inversion H; reflexivity.
Qed.

Lemma getitem_from_records_present rs d k :
  In d rs -> dict_get d k <> None ->
  getitem (from_records rs) k = Ok (map (fun d => cell d k) rs).
Proof.
  intros Hd Hk. unfold getitem, from_records. simpl. rewrite assoc_tabulate.
  unfold keys_of. rewrite mem_union_keys. simpl.
  rewrite mem_in; [reflexivity|].
  apply in_concat. exists (map fst d). split.
  - apply in_map_iff. exists d. auto.
  - now apply dict_get_in_keys.
Qed.

(** A row of [pd.DataFrame(records)] holds the cells of its record. *)
Lemma cell_row_from_records rs i d k :
  nth_error rs i = Some d -> cell (row (from_records rs) i) k = cell d k.
Proof.
  intros H. rewrite cell_row. unfold from_records. simpl.
  rewrite assoc_tabulate. destruct (mem k (keys_of rs)) eqn:E.
  - rewrite nth_as_error, nth_error_map, H. reflexivity.
  - unfold cell. rewrite dict_get_not_in_keys; [reflexivity|].
    unfold keys_of in E. rewrite mem_union_keys in E. simpl in E.
    destruct (mem k (map fst d)) eqn:E'; [|reflexivity].
    apply existsb_exists in E'. destruct E' as (k' & Hk' & Ek').
    apply String.eqb_eq in Ek'. subst k'.
    rewrite mem_in in E; [discriminate|].
    apply in_concat. exists (map fst d). split; [|exact Hk'].
    apply in_map_iff. exists d. split; [reflexivity|].
    eapply nth_error_In; eauto.
Qed.

Lemma cell_row_setitem df i k k' s :
  cell (row (setitem df k' s) i) k =
  if String.eqb k k' then nth i s VNaN else cell (row df i) k.
Proof.
  rewrite !cell_row. unfold setitem. simpl. rewrite assoc_put.
  destruct (String.eqb k k'); reflexivity.
Qed.

Lemma to_datetime_raise_fails parse s v :
  In v s -> convert parse v = None ->
  to_datetime_raise parse s = Raise (ValueError "time data doesn't match format").
Proof.
  induction s as [|v0 s IH]; intros Hv Hc; simpl; [destruct Hv|].
  destruct Hv as [->|Hv].
  - rewrite Hc. reflexivity.
  - destruct (convert parse v0); [|reflexivity].
    rewrite (IH Hv Hc). reflexivity.
Qed.

Lemma drop_put k k' s cs :
  filter (fun c => negb (String.eqb (fst c) k)) (put k' s cs) =
  if String.eqb k' k then filter (fun c => negb (String.eqb (fst c) k)) cs
  else put k' s (filter (fun c => negb (String.eqb (fst c) k)) cs).
Proof.
  induction cs as [|[k0 s0] cs IH]; simpl.
  - destruct (String.eqb k' k); reflexivity.
  - destruct (String.eqb k' k0) eqn:E0; simpl.
    + apply String.eqb_eq in E0. subst k0.
      destruct (String.eqb k' k) eqn:E; simpl; [reflexivity|].
      rewrite String.eqb_refl. reflexivity.
    + rewrite IH.
      destruct (String.eqb k' k) eqn:E; destruct (String.eqb k0 k) eqn:E1;
        simpl; try reflexivity.
      rewrite E0. reflexivity.
Qed.

Lemma drop_column_setitem k k' s df :
  Ritik.drop_column k (setitem df k' s) =
  if String.eqb k' k then Ritik.drop_column k df
  else setitem (Ritik.drop_column k df) k' s.
Proof.
  unfold Ritik.drop_column, setitem. simpl. rewrite drop_put.
  destruct (String.eqb k' k); reflexivity.
Qed.

End PandasFacts.

(** ** The minimal analyzer *)

Module LogGeneratorFacts.

Import Re ReFacts Pandas PandasFacts LogGenerator.

Lemma classify_spec : forall stream access_logs fticks_logs,
  classify stream access_logs fticks_logs =
  (access_logs ++ records_of access_record stream,
   fticks_logs ++ records_of fticks_record stream)%list.
Proof.
  induction stream as [|line rest IH]; intros a f; simpl.
  - rewrite !app_nil_r. reflexivity.
  - rewrite IH. unfold append.
    destruct (access_record line), (fticks_record line); simpl;
      rewrite <- ?app_assoc; reflexivity.
Qed.

Lemma records_of_none f stream :
  (forall line, In line stream -> f line = None) -> records_of f stream = [].
Proof.
  induction stream as [|line rest IH]; intros H; simpl; [reflexivity|].
  rewrite (H line (or_introl eq_refl)). simpl. apply IH.
  intros l Hl. apply H. now right.
Qed.

(** A table without a row has no column to read. *)
Lemma getitem_no_records k : getitem (from_records []) k = Raise (KeyError k).
Proof. reflexivity. Qed.

(** On a stream without a line of either grammar, line 56 raises. *)
Lemma no_match_raises parse stream :
  (forall line, In line stream ->
     access_record line = None /\ fticks_record line = None) ->
  extract_summary_tables_from_stream parse stream = Raise (KeyError "Timestamp").
Proof.
  intros H. unfold extract_summary_tables_from_stream.
  rewrite classify_spec. cbn [app].
  rewrite (records_of_none access_record stream)
    by (intros l Hl; apply H, Hl).
  reflexivity.
Qed.

(** On a stream without an F-TICKS line, line 56 or line 57 raises. *)
Lemma no_fticks_raises parse stream :
  (forall line, In line stream -> fticks_record line = None) ->
  extract_summary_tables_from_stream parse stream = Raise (KeyError "Timestamp").
Proof.
  intros H. unfold extract_summary_tables_from_stream.
  rewrite classify_spec. cbn [app].
  rewrite (records_of_none fticks_record stream) by exact H.
  destruct (getitem (from_records (records_of access_record stream)) "Timestamp")
    eqn:E; cbn [bind].
  - reflexivity.
  - unfold getitem in E.
    destruct (assoc "Timestamp" _); [discriminate|]. inversion E. reflexivity.
Qed.

(** C1: on a stream without a line of either grammar the minimal analyzer
    raises [KeyError] when it reads the [Timestamp] column of the empty
    Access table, where the specification has two empty tables and no
    error; the extended analyzer returns the empty table and reports the
    condition with [st.error]. *)
Theorem garbage_raises_key_error :
  extract_summary_tables_from_stream Strptime.strptime Examples.garbage =
    Raise (KeyError "Timestamp") /\
  fst (Ritik.parse_eduroam_log Strptime.strptime Examples.garbage_text
         Examples.still) = Ok empty_frame /\
  Ritik.messages
    (snd (Ritik.parse_eduroam_log Strptime.strptime Examples.garbage_text
            Examples.still)) = [Ritik.no_entries].
Proof. repeat split; vm_compute; reflexivity. Qed.

(** With [errors="coerce"] every Access record is retained: the table has
    one row per record, with the timestamp converted or [NaT], and the
    other cells as extracted. *)
Lemma timestamps_coerced parse stream df_access df_fticks i d :
  extract_summary_tables_from_stream parse stream = Ok (df_access, df_fticks) ->
  nth_error (records_of access_record stream) i = Some d ->
  nrows df_access = length (records_of access_record stream) /\
  cell (row df_access i) "Timestamp" = coerce parse (cell d "Timestamp") /\
  forall k, k <> "Timestamp" -> cell (row df_access i) k = cell d k.
Proof.
  unfold extract_summary_tables_from_stream.
  rewrite classify_spec. cbn [app]. intros H Hd.
  destruct (getitem (from_records (records_of access_record stream)) "Timestamp")
    as [ts|] eqn:Ea; [|discriminate].
  cbn [bind] in H.
  destruct (getitem (from_records (records_of fticks_record stream)) "Timestamp")
    as [ts'|] eqn:Ef; [|discriminate].
  cbn [bind] in H. inversion H; subst; clear H.
  apply getitem_from_records in Ea. subst ts.
  split; [reflexivity|]. split.
  - rewrite cell_row_setitem. cbn [String.eqb Ascii.eqb Bool.eqb].
    unfold to_datetime_coerce.
    rewrite nth_as_error, !nth_error_map, Hd. reflexivity.
  - intros k Hk. rewrite cell_row_setitem.
    apply String.eqb_neq in Hk. rewrite Hk.
    now apply cell_row_from_records.
Qed.

(** The results of the specification's list: "OK", "FAIL", "" and "ok". *)
Lemma reason_examples :
  option_map (fun d => (dict_get d "RESULT", dict_get d "Reason"))
    (fticks_record (Examples.fticks_with "OK")) =
    Some (Some (VStr "OK"), Some (VStr "Authentication successful")) /\
  option_map (fun d => (dict_get d "RESULT", dict_get d "Reason"))
    (fticks_record (Examples.fticks_with "FAIL")) =
    Some (Some (VStr "FAIL"), Some (VStr "Authentication failed")) /\
  option_map (fun d => (dict_get d "RESULT", dict_get d "Reason"))
    (fticks_record (Examples.fticks_with "")) =
    Some (Some (VStr ""), Some (VStr "Authentication failed")) /\
  option_map (fun d => (dict_get d "RESULT", dict_get d "Reason"))
    (fticks_record (Examples.fticks_with "ok")) =
    Some (Some (VStr "ok"), Some (VStr "Authentication failed")).
Proof. repeat split; vm_compute; reflexivity. Qed.

(** The Access records of a stream do not depend on the lines the Access
    pattern does not find, nor the F-TICKS records on the lines the F-TICKS
    pattern does not find. *)
Lemma records_ignore_other_lines f before line after :
  f line = None ->
  records_of f (before ++ line :: after) = records_of f (before ++ after).
Proof.
  intros H. unfold records_of. rewrite !flat_map_app. simpl.
  rewrite H. reflexivity.
Qed.

(** C8: the line of Example 1, with or without its end of line, yields
    exactly one Access record, with the fields of the example and no CUI,
    and no F-TICKS record; in a run with the line of Example 2 it is the
    only row of the Access table. *)
Theorem example_1_record :
  classify [Examples.access_line] [] [] = ([Examples.access_dict], []) /\
  classify [Examples.access_line ++ Examples.nl] [] [] =
    ([Examples.access_dict], []) /\
  map_fst_records
    (extract_summary_tables_from_stream Strptime.strptime
       [Examples.access_line; Examples.fticks_line]) =
    Ok [dict_set Examples.access_dict "Timestamp"
          (VTime (mkDatetime 2024 7 25 9 3 0))] /\
  Examples.access_dict =
    [("Timestamp", VStr "Thu Jul 25 09:03:00 2024");
     ("Event", VStr "Access-Accept");
     ("Username", VStr "alice@iitd.ac.in");
     ("StationID", VStr "AA:BB:CC:DD:EE:FF");
     ("Source", VStr "sp1.example");
     ("Destination", VStr "sp2.example");
     ("ServerIP", VStr "10.0.0.5");
     ("CUI", VNone)].
Proof. repeat split; vm_compute; reflexivity. Qed.

End LogGeneratorFacts.

(** ** The extended analyzer *)

Module RitikFacts.

Import Re Pandas PandasFacts Ritik.

(** [enrich_log_data] raises [KeyError] for the first of the five columns
    the table lacks, and builds [enriched] otherwise; it leaves the
    messages alone and takes two draws per row. *)
Lemma enrich_run df st user from_inst to_inst ip status :
  getitem df "user" = Ok user ->
  getitem df "from_inst" = Ok from_inst ->
  getitem df "to_inst" = Ok to_inst ->
  getitem df "ip" = Ok ip ->
  getitem df "status" = Ok status ->
  enrich_log_data df st =
  (Ok (enriched df user from_inst to_inst ip status (gen st)),
   mkState (messages st) (fun i => gen st (nrows df + (nrows df + i)))).
Proof.
  intros Hu Hf Ht Hi Hs.
  unfold enrich_log_data, enriched, mbind, lift, ret, uniform.
  repeat (rewrite ?getitem_setitem, ?get_setitem, ?nrows_setitem;
          cbn [String.eqb Ascii.eqb Bool.eqb messages gen];
          rewrite ?Hu, ?Hf, ?Ht, ?Hi, ?Hs).
  reflexivity.
Qed.

Lemma nth_error_zip_with (A B C : Type) (f : A -> B -> C) :
  forall l l' i,
    nth_error (zip_with f l l') i =
    match nth_error l i, nth_error l' i with
    | Some a, Some b => Some (f a b)
    | _, _ => None
    end.
Proof.
  induction l as [|a l IH]; intros [|b l'] [|i]; simpl; auto.
  destruct (nth_error l i); reflexivity.
Qed.

Lemma length_zip_with (A B C : Type) (f : A -> B -> C) :
  forall l l', length (zip_with f l l') = Nat.min (length l) (length l').
Proof.
  induction l as [|a l IH]; intros [|b l']; simpl; auto.
Qed.

(** The result of [enrich_log_data], whatever the state. *)
Lemma enrich_result df st :
  fst (enrich_log_data df st) =
  (user <- getitem df "user" ;;
   from_inst <- getitem df "from_inst" ;;
   to_inst <- getitem df "to_inst" ;;
   ip <- getitem df "ip" ;;
   status <- getitem df "status" ;;
   Ok (enriched df user from_inst to_inst ip status (gen st))).
Proof.
  destruct (getitem df "user") as [user|e] eqn:Hu;
    [|unfold enrich_log_data, mbind, lift; rewrite Hu; reflexivity].
  destruct (getitem df "from_inst") as [from_inst|e] eqn:Hf;
    [|unfold enrich_log_data, mbind, lift;
      rewrite Hu, ?getitem_setitem; cbn [String.eqb Ascii.eqb Bool.eqb];
      rewrite Hf; reflexivity].
  destruct (getitem df "to_inst") as [to_inst|e] eqn:Ht;
    [|unfold enrich_log_data, mbind, lift;
      repeat (rewrite ?getitem_setitem; cbn [String.eqb Ascii.eqb Bool.eqb];
              rewrite ?Hu, ?Hf, ?Ht); reflexivity].
  destruct (getitem df "ip") as [ip|e] eqn:Hi;
    [|unfold enrich_log_data, mbind, lift;
      repeat (rewrite ?getitem_setitem; cbn [String.eqb Ascii.eqb Bool.eqb];
              rewrite ?Hu, ?Hf, ?Ht, ?Hi); reflexivity].
  destruct (getitem df "status") as [status|e] eqn:Hs;
    [|unfold enrich_log_data, mbind, lift, uniform;
      repeat (rewrite ?getitem_setitem; cbn [String.eqb Ascii.eqb Bool.eqb];
              rewrite ?Hu, ?Hf, ?Ht, ?Hi, ?Hs); reflexivity].
  rewrite (enrich_run df st _ _ _ _ _ Hu Hf Ht Hi Hs). reflexivity.
Qed.

Lemma enrich_messages df st :
  messages (snd (enrich_log_data df st)) = messages st.
Proof.
  unfold enrich_log_data, mbind, lift, ret, uniform.
  repeat match goal with
  | |- context [getitem ?d ?k] =>
      destruct (getitem d k); cbn [messages snd]; try reflexivity
  end.
Qed.

Lemma enrich_ok df st df' st' :
  enrich_log_data df st = (Ok df', st') ->
  exists user from_inst to_inst ip status,
    getitem df "user" = Ok user /\ getitem df "from_inst" = Ok from_inst /\
    getitem df "to_inst" = Ok to_inst /\ getitem df "ip" = Ok ip /\
    getitem df "status" = Ok status /\
    df' = enriched df user from_inst to_inst ip status (gen st).
Proof.
  intros H. pose proof (enrich_result df st) as R. rewrite H in R. simpl in R.
  destruct (getitem df "user") as [user|]; [|discriminate].
  destruct (getitem df "from_inst") as [from_inst|]; [|discriminate].
  destruct (getitem df "to_inst") as [to_inst|]; [|discriminate].
  destruct (getitem df "ip") as [ip|]; [|discriminate].
  destruct (getitem df "status") as [status|]; [|discriminate].
  simpl in R. inversion R. exists user, from_inst, to_inst, ip, status.
  repeat split; reflexivity.
Qed.

Ltac column :=
  unfold enriched; cbv zeta;
  repeat (rewrite getitem_setitem; cbn [String.eqb Ascii.eqb Bool.eqb]);
  try reflexivity.

Lemma roaming_true home visiting :
  roaming home visiting = true -> home <> "Unknown" /\ home <> visiting.
Proof.
  unfold roaming. intros H. apply andb_prop in H. destruct H as [H1 H2].
  apply negb_true_iff in H1, H2. apply String.eqb_neq in H1, H2. auto.
Qed.

(** The generator state shows in the coordinates only. *)
Lemma drop_coordinates_enriched df user from_inst to_inst ip status g g' :
  drop_coordinates (enriched df user from_inst to_inst ip status g) =
  drop_coordinates (enriched df user from_inst to_inst ip status g').
Proof.
  unfold drop_coordinates, enriched. cbv zeta.
  repeat (rewrite drop_column_setitem; cbn [String.eqb Ascii.eqb Bool.eqb]).
  reflexivity.
Qed.

Lemma enrich_deterministic df msgs g g' :
  map_result drop_coordinates (fst (enrich_log_data df (mkState msgs g))) =
  map_result drop_coordinates (fst (enrich_log_data df (mkState msgs g'))).
Proof.
  rewrite !enrich_result. cbn [gen].
  destruct (getitem df "user"); [|reflexivity].
  destruct (getitem df "from_inst"); [|reflexivity].
  destruct (getitem df "to_inst"); [|reflexivity].
  destruct (getitem df "ip"); [|reflexivity].
  destruct (getitem df "status"); [|reflexivity].
  simpl. f_equal. apply drop_coordinates_enriched.
Qed.

(** C5: in every record of an enriched table, a true roaming flag comes
    with a home jurisdiction that is not "Unknown" and differs from the
    visiting jurisdiction; a record whose home jurisdiction is "Unknown"
    is not flagged, whatever its visiting jurisdiction. *)
Theorem roaming_invariant df st df' st' d :
  enrich_log_data df st = (Ok df', st') ->
  In d (to_records df') ->
  (cell d "is_roaming" = VBool true ->
   exists home visiting,
     cell d "home_country" = VStr home /\
     cell d "visiting_country" = VStr visiting /\
     home <> "Unknown" /\ home <> visiting) /\
  (cell d "home_country" = VStr "Unknown" -> cell d "is_roaming" <> VBool true).
Proof.
  intros H Hd.
  destruct (enrich_ok df st df' st' H)
    as (user & from_inst & to_inst & ip & status & _ & _ & _ & _ & _ & ->).
  destruct (in_to_records _ _ Hd) as (i & _ & ->).
  match goal with
  | |- (?P -> ?Q) /\ _ => assert (G : P -> Q)
  end.
  { erewrite !cell_row_getitem by column.
    rewrite !nth_as_error, !nth_error_zip_with, !nth_error_map.
    destruct (nth_error (fillna _ _) i) as [r|]; [|discriminate].
    cbn [option_map].
    destruct (nth_error (combine _ _) i) as [ft|]; [|discriminate].
    destruct (nth_error ip i) as [a|]; [|discriminate].
    intros R. injection R as R'.
    apply roaming_true in R'. destruct R' as [R1 R2].
    cbn [str_of py_str] in R1, R2.
    eexists. eexists. split; [reflexivity|]. split; [reflexivity|].
    split; assumption. }
  split; [exact G|].
  intros Hh R. destruct (G R) as (home & visiting & E & _ & N & _).
  rewrite Hh in E. inversion E. congruence.
Qed.

Lemma roaming_invariant_witness :
  let df' :=
    Examples.from_ok (fst (enrich_log_data Examples.access_table Examples.still)) in
  In (row df' 0) (to_records df') /\
  cell (row df' 0) "is_roaming" = VBool true /\
  exists home visiting,
    cell (row df' 0) "home_country" = VStr home /\
    cell (row df' 0) "visiting_country" = VStr visiting /\
    home <> "Unknown" /\ home <> visiting.
Proof.
  intros df'.
  assert (H1 : In (row df' 0) (to_records df')) by (vm_compute; left; reflexivity).
  assert (H2 : cell (row df' 0) "is_roaming" = VBool true) by (vm_compute; reflexivity).
  split; [exact H1|]. split; [exact H2|].
  refine (proj1 (roaming_invariant Examples.access_table Examples.still df'
                   (snd (enrich_log_data Examples.access_table Examples.still))
                   (row df' 0) _ H1) H2).
  vm_compute. reflexivity.
Defined.

(** Without [errors="coerce"], one record whose timestamp does not parse
    makes the whole run raise. *)
Lemma unparseable_aborts parse input st d t :
  In d (collect (Py.split Py.newline (Py.strip input)) []) ->
  dict_get d "timestamp" = Some (VStr t) ->
  parse t = None ->
  fst (parse_eduroam_log parse input st) =
  Raise (ValueError "time data doesn't match format").
Proof.
  intros Hd Ht Hp. unfold parse_eduroam_log.
  destruct (collect _ []) as [|d0 ds] eqn:E; [destruct Hd|].
  unfold mbind, lift.
  rewrite (getitem_from_records_present (d0 :: ds) d "timestamp" Hd)
    by (rewrite Ht; discriminate).
  rewrite (to_datetime_raise_fails parse _ (VStr t)).
  - reflexivity.
  - apply in_map_iff. exists d. split; [|exact Hd].
    unfold cell. rewrite Ht. reflexivity.
  - simpl. rewrite Hp. reflexivity.
Qed.

(** C4: a timestamp with hour 25 matches both Access grammars and does not
    parse.  The minimal analyzer retains the record with a null
    timestamp; the extended analyzer raises [ValueError] and returns no
    table, where the specification has the record retained and the batch
    processed. *)
Theorem unparseable_timestamp_aborts :
  Strptime.strptime "Thu Jul 25 25:03:00 2024" = None /\
  option_map (fun d => dict_get d "timestamp")
    (access_record Examples.bad_hour_line) =
    Some (Some (VStr "Thu Jul 25 25:03:00 2024")) /\
  fst (parse_eduroam_log Strptime.strptime
         (Examples.access_line ++ Examples.nl ++ Examples.bad_hour_line)
         Examples.still) =
    Raise (ValueError "time data doesn't match format") /\
  LogGenerator.map_fst_records
    (LogGenerator.extract_summary_tables_from_stream Strptime.strptime
       [Examples.bad_hour_line; Examples.fticks_line]) =
    Ok [[("Timestamp", VNaT);
         ("Event", VStr "Access-Accept");
         ("Username", VStr "alice@iitd.ac.in");
         ("StationID", VStr "AA:BB:CC:DD:EE:FF");
         ("Source", VStr "sp1.example");
         ("Destination", VStr "sp2.example");
         ("ServerIP", VStr "10.0.0.5");
         ("CUI", VNone)]].
Proof. repeat split; vm_compute; reflexivity. Qed.

(** C7: an F-TICKS line added to the input changes the Access record of
    the extended analyzer: alone, its realm is taken from the user name;
    with an F-TICKS record in the table, the [realm] column exists, the
    realm of the Access record is empty, and user type, home country and
    roaming flag follow.  Without an Access line the extended analyzer
    raises [KeyError], and without an F-TICKS line the minimal one does. *)
Theorem fticks_line_changes_access_record :
  let alone :=
    Examples.from_ok
      (fst (parse_eduroam_log Strptime.strptime Examples.access_line
              Examples.still)) in
  let mixed :=
    Examples.from_ok
      (fst (parse_eduroam_log Strptime.strptime
              (Examples.access_line ++ Examples.nl ++ Examples.fticks_line)
              Examples.still)) in
  map (cell (row alone 0))
    ["log_type"; "user"; "realm"; "user_type"; "home_country"; "is_roaming"] =
    [VStr "access"; VStr "alice@iitd.ac.in"; VStr "iitd.ac.in"; VStr "Indian";
     VStr "India"; VBool true] /\
  map (cell (row mixed 0))
    ["log_type"; "user"; "realm"; "user_type"; "home_country"; "is_roaming"] =
    [VStr "access"; VStr "alice@iitd.ac.in"; VStr ""; VStr "Foreign";
     VStr "Unknown"; VBool false] /\
  fst (parse_eduroam_log Strptime.strptime Examples.fticks_line Examples.still) =
    Raise (KeyError "user") /\
  LogGenerator.extract_summary_tables_from_stream Strptime.strptime
    [Examples.access_line] = Raise (KeyError "Timestamp").
Proof. repeat split; vm_compute; reflexivity. Qed.

(** C6, as stated, fails in the extended analyzer: the second of two runs
    on the same input starts from the generator state the first has left,
    and returns other coordinates. *)
Lemma jitter_breaks_determinism :
  ~ (forall input st,
       fst (parse_eduroam_log Strptime.strptime input st) =
       fst (parse_eduroam_log Strptime.strptime input
              (snd (parse_eduroam_log Strptime.strptime input st)))).
Proof.
  intros H. specialize (H Examples.access_line Examples.drifting).
  vm_compute in H. discriminate.
Qed.

(** C6, amended: in the extended analyzer two runs on the same input raise
    the same error or return tables equal in every column but [latitude]
    and [longitude], and show the same messages, whatever the states of
    the generator; the minimal analyzer has no state to depend on. *)
Theorem deterministic_up_to_jitter parse input msgs g g' :
  map_result drop_coordinates
    (fst (parse_eduroam_log parse input (mkState msgs g))) =
  map_result drop_coordinates
    (fst (parse_eduroam_log parse input (mkState msgs g'))) /\
  messages (snd (parse_eduroam_log parse input (mkState msgs g))) =
  messages (snd (parse_eduroam_log parse input (mkState msgs g'))).
Proof.
  unfold parse_eduroam_log.
  destruct (collect _ []) as [|d ds]; [split; reflexivity|].
  unfold mbind, lift.
  destruct (getitem _ "timestamp") as [ts|e]; [|split; reflexivity].
  destruct (to_datetime_raise parse ts) as [ts'|e]; [|split; reflexivity].
  split; [apply enrich_deterministic|].
  rewrite !enrich_messages. reflexivity.
Qed.

(** *** Home country *)

Lemma startswith_lower : forall p s,
  Py.startswith p s = true -> Py.startswith (Py.lower p) (Py.lower s) = true.
Proof.
  induction p as [|a p IH]; intros [|b s] H; simpl in *; auto; try discriminate.
  apply andb_prop in H. destruct H as [H1 H2].
  apply Ascii.eqb_eq in H1. subst b. rewrite Ascii.eqb_refl. simpl. auto.
Qed.

Lemma contains_lower p : forall s,
  Py.contains p s = true -> Py.contains (Py.lower p) (Py.lower s) = true.
Proof.
  induction s as [|b s IH]; intros H.
  - simpl in *. rewrite orb_false_r in *.
    now apply (startswith_lower p EmptyString).
  - cbn [Py.contains] in H. apply orb_prop in H.
    cbn [Py.lower Py.contains]. apply orb_true_iff.
    destruct H as [H|H].
    + left. now apply (startswith_lower p (String b s)).
    + right. now apply IH.
Qed.

Lemma contains_nonempty p s :
  p <> EmptyString -> Py.contains p s = true -> s <> EmptyString.
Proof.
  intros Hp H ->. destruct p; [congruence | discriminate].
Qed.

Lemma any_in_app ps qs s :
  Py.any_in (ps ++ qs) s = Py.any_in ps s || Py.any_in qs s.
Proof. unfold Py.any_in. apply existsb_app. Qed.

(** *** Records of the table and the counters of the analysis *)

Lemma collect_shape : forall lines records,
  Forall (fun d => is_access_record d \/ is_fticks_record d) records ->
  Forall (fun d => is_access_record d \/ is_fticks_record d)
         (collect lines records).
Proof.
  induction lines as [|line rest IH]; intros records H; simpl; [exact H|].
  destruct (Py.strip line) as [|a l] eqn:E; [now apply IH|].
  apply IH. unfold append, access_record, fticks_record.
  destruct (re_match access_pattern (String a l)) as [m|];
    destruct (re_match fticks_pattern (String a l)) as [m'|];
    repeat (apply Forall_app; split); auto;
    constructor; auto; [left | right | left | right]; eexists; reflexivity.
Qed.

Lemma fticks_record_cells d :
  is_fticks_record d ->
  cell d "log_type" = VStr "fticks" /\ cell d "status" = VNaN /\
  cell d "user" = VNaN.
Proof. intros (m & ->). repeat split; reflexivity. Qed.

Lemma access_record_cells d :
  is_access_record d -> cell d "log_type" = VStr "access".
Proof. intros (m & ->). reflexivity. Qed.

(** What [parse_eduroam_log] returns when it returns a table. *)
Lemma parse_ok parse input st df st' :
  parse_eduroam_log parse input st = (Ok df, st') ->
  let records := collect (Py.split Py.newline (Py.strip input)) [] in
  (records = [] /\ df = empty_frame) \/
  (exists df0 from_inst to_inst ip,
     (forall i d k, k <> "timestamp" -> nth_error records i = Some d ->
                    cell (row df0 i) k = cell d k) /\
     nrows df0 = length records /\
     getitem df0 "user" = Ok (map (fun d => cell d "user") records) /\
     getitem df0 "status" = Ok (map (fun d => cell d "status") records) /\
     df = enriched df0
            (map (fun d => cell d "user") records) from_inst to_inst ip
            (map (fun d => cell d "status") records) (gen st)).
Proof.
  intros H. cbv zeta. unfold parse_eduroam_log in H.
  destruct (collect _ []) as [|d0 ds]; [left|right].
  - unfold mbind, st_error, ret in H. inversion H. auto.
  - unfold mbind, lift in H.
    destruct (getitem _ "timestamp") as [ts|]; [|discriminate].
    destruct (to_datetime_raise parse ts) as [ts'|]; [|discriminate].
    destruct (enrich_ok _ _ _ _ H)
      as (user & from_inst & to_inst & ip & status & Hu & _ & _ & _ & Hs & ->).
    assert (Hu' := Hu). assert (Hs' := Hs).
    rewrite getitem_setitem in Hu', Hs'.
    cbn [String.eqb Ascii.eqb Bool.eqb] in Hu', Hs'.
    apply getitem_from_records in Hu', Hs'. subst user status.
    exists (setitem (from_records (d0 :: ds)) "timestamp" ts'),
           from_inst, to_inst, ip.
    repeat split; auto.
    intros i d k Hk Hd. rewrite cell_row_setitem.
    apply String.eqb_neq in Hk. rewrite Hk.
    now apply cell_row_from_records.
Qed.

Lemma map_nth_seq (A : Type) (d : A) : forall l,
  map (fun i => nth i l d) (List.seq 0 (length l)) = l.
Proof.
  induction l as [|a l IH]; simpl; [reflexivity|].
  rewrite <- seq_shift, map_map. simpl. now rewrite IH.
Qed.

(** The cells of a column, read row by row. *)
Lemma column_of_rows df k col :
  getitem df k = Ok col -> length col = nrows df ->
  map (fun d => cell d k) (to_records df) = col.
Proof.
  intros H L. unfold to_records. rewrite map_map, <- L.
  rewrite <- (map_nth_seq _ VNaN col) at 2.
  apply map_ext. intros i. now apply cell_row_getitem.
Qed.

Lemma count_filter (A : Type) (P : A -> bool) l :
  count (map P l) = length (filter P l).
Proof.
  unfold count. induction l as [|a l IH]; simpl; [reflexivity|].
  destruct (P a); simpl; now rewrite IH.
Qed.

(** [len(df[df[k] == lit])] counts the records whose cell is [lit]. *)
Lemma count_rows df k col lit :
  getitem df k = Ok col -> length col = nrows df ->
  count (mask_str col lit) =
  length (filter (fun d => eq_str (cell d k) lit) (to_records df)).
Proof.
  intros H L. rewrite <- count_filter.
  rewrite <- (column_of_rows df k col H L) at 1.
  unfold mask_str. now rewrite map_map.
Qed.

Lemma exclusive_filters (A : Type) (P Q R : A -> bool) l :
  (forall d, In d l ->
     (P d = true -> Q d = false /\ R d = false) /\
     (Q d = true -> R d = false)) ->
  length (filter P l) + length (filter Q l) + length (filter R l) <= length l.
Proof.
  induction l as [|a l IH]; intros H; simpl; [lia|].
  assert (IH' := IH (fun d Hd => H d (or_intror Hd))).
  destruct (H a (or_introl eq_refl)) as [H1 H2].
  destruct (P a) eqn:EP.
  - destruct (H1 eq_refl) as [-> ->]. simpl. lia.
  - destruct (Q a) eqn:EQ.
    + rewrite (H2 eq_refl). simpl. lia.
    + destruct (R a); simpl; lia.
Qed.

Lemma py_str_not_unknown v : eq_str v "unknown" = false -> py_str v <> "unknown".
Proof.
  destruct v as [| |s|t| |[|]|q]; simpl; intros H; try discriminate.
  now apply String.eqb_neq.
Qed.

(** The users with a summary: never ['unknown'], each with the number of
    rows that carry its name. *)
Lemma movements_spec df users : forall us ms,
  getitem df "user" = Ok users ->
  movements df us = Ok ms ->
  forall u s, In (u, s) ms ->
    u <> "unknown" /\ u_total_connections s = count (mask_str users u).
Proof.
  induction us as [|v us IH]; intros ms Hu H u s Hin; simpl in H.
  - inversion H; subst. destruct Hin.
  - destruct (eq_str v "unknown") eqn:E; [now apply (IH ms)|].
    destruct (summarize_user df (py_str v)) as [sv|] eqn:Es; [|discriminate].
    cbn [bind] in H.
    destruct (movements df us) as [ms'|] eqn:Em; [|discriminate].
    cbn [bind] in H. inversion H; subst ms; clear H.
    destruct Hin as [Hin|Hin]; [|now apply (IH ms')].
    inversion Hin; subst u s; clear Hin.
    split; [now apply py_str_not_unknown|].
    unfold summarize_user in Es. rewrite Hu in Es. cbn [bind] in Es.
    repeat match type of Es with
    | context [getitem df ?k] =>
        destruct (getitem df k); [cbn [bind] in Es | discriminate]
    end.
    inversion Es. reflexivity.
Qed.

Lemma length_to_records df : length (to_records df) = nrows df.
Proof. unfold to_records. now rewrite length_map, length_seq. Qed.

Lemma cell_row_enriched df0 user from_inst to_inst ip status g i k :
  In k ["log_type"; "status"] ->
  cell (row (enriched df0 user from_inst to_inst ip status g) i) k =
  cell (row df0 i) k.
Proof.
  intros [<-|[<-|[]]]; unfold enriched; cbv zeta;
    repeat (rewrite cell_row_setitem; cbn [String.eqb Ascii.eqb Bool.eqb]);
    reflexivity.
Qed.

(** C10, as stated, fails: the F-TICKS record of the input is in no
    per-user count, since its user is ['unknown'] and the loop skips that
    name, and [failed_connections] does not count it. *)
Lemma fticks_not_in_user_counts :
  ~ (forall input df st' a d,
       parse_eduroam_log Strptime.strptime input Examples.still = (Ok df, st') ->
       analyze_movements df = Ok (Some a) ->
       In d (to_records df) -> cell d "log_type" = VStr "fticks" ->
       exists s, In (py_str (cell d "user"), s) (user_movements a)).
Proof.
  intros H.
  pose (input := Examples.access_line ++ Examples.nl ++ Examples.fticks_line).
  pose (run := parse_eduroam_log Strptime.strptime input Examples.still).
  pose (df := Examples.from_ok (fst run)).
  pose (a := mkAnalysis 2 1 1 2 1 0 1 2
               [("alice@iitd.ac.in", mkUserSummary 1 1 false 0)]).
  assert (E : analyze_movements df = Ok (Some a)) by (vm_compute; reflexivity).
  destruct (H input df (snd run) a (row df 1)) as (s & Hs).
  - vm_compute. reflexivity.
  - exact E.
  - vm_compute. right. left. reflexivity.
  - vm_compute. reflexivity.
  - vm_compute in Hs. destruct Hs as [Hs|[]]. discriminate.
Qed.

(** C10, amended: in a table the extended analyzer returns, every record
    of an F-TICKS line has no status, the connection result 'Failed' and
    the user 'unknown'; [total_connections] counts it, and neither
    [successful_connections] nor [failed_connections] does; no per-user
    summary counts it, since there is none for 'unknown'. *)
Theorem fticks_records_in_totals parse input st df st' a :
  parse_eduroam_log parse input st = (Ok df, st') ->
  analyze_movements df = Ok (Some a) ->
  let recs := to_records df in
  let is_fticks := fun d => eq_str (cell d "log_type") "fticks" in
  (forall d, In d recs -> is_fticks d = true ->
     cell d "status" = VNaN /\
     cell d "connection_success" = VStr "Failed" /\
     cell d "user" = VStr "unknown") /\
  total_connections a = length recs /\
  successful_connections a =
    length (filter (fun d => eq_str (cell d "status") "Accept") recs) /\
  failed_connections a =
    length (filter (fun d => eq_str (cell d "status") "Reject") recs) /\
  successful_connections a + failed_connections a
    + length (filter is_fticks recs) <= total_connections a /\
  (forall u s, In (u, s) (user_movements a) ->
     u <> "unknown" /\
     u_total_connections s =
       length (filter (fun d => eq_str (cell d "user") u) recs)).
Proof.
  intros Hp Ha recs is_fticks.
  destruct (parse_ok _ _ _ _ _ Hp)
    as [[_ ->] | (df0 & from_inst & to_inst & ip & Hrow & Hn & Hu0 & Hs0 & Hdf)];
    [discriminate|].
  pose proof (collect_shape (Py.split Py.newline (Py.strip input)) []
                (Forall_nil _)) as Shape.
  set (records := collect (Py.split Py.newline (Py.strip input)) []) in *.
  set (status := map (fun d => cell d "status") records) in *.
  set (user := map (fun d => cell d "user") records) in *.
  assert (Nr : nrows df = length records) by (rewrite Hdf; exact Hn).
  assert (Gs : getitem df "status" = Ok status) by (rewrite Hdf; column; exact Hs0).
  assert (Gu : getitem df "user" = Ok (fillna (VStr "unknown") user))
    by (rewrite Hdf; column).
  assert (Gc : getitem df "connection_success" =
               Ok (map (fun x => VStr (connection_success x)) status))
    by (rewrite Hdf; column).
  assert (Ls : length status = nrows df)
    by (unfold status; rewrite length_map; auto).
  assert (Lu : length (fillna (VStr "unknown") user) = nrows df)
    by (unfold fillna, user; rewrite !length_map; auto).
  (* the records of F-TICKS lines *)
  assert (F : forall d, In d recs -> is_fticks d = true ->
                cell d "status" = VNaN /\
                cell d "connection_success" = VStr "Failed" /\
                cell d "user" = VStr "unknown").
  { intros d Hd Hf. destruct (in_to_records _ _ Hd) as (i & Hi & ->).
    rewrite Nr in Hi.
    destruct (nth_error records i) as [di|] eqn:Ei;
      [|apply nth_error_None in Ei; lia].
    assert (Sh := proj1 (Forall_forall _ _) Shape di (nth_error_In _ _ Ei)).
    unfold is_fticks in Hf. rewrite Hdf in Hf.
    rewrite cell_row_enriched in Hf by (simpl; auto).
    rewrite (Hrow i di) in Hf by (auto; discriminate).
    destruct Sh as [Sh|Sh];
      [rewrite (access_record_cells _ Sh) in Hf; discriminate|].
    destruct (fticks_record_cells _ Sh) as (_ & Hst & Hus).
    rewrite (cell_row_getitem _ _ _ _ Gs), (cell_row_getitem _ _ _ _ Gc),
            (cell_row_getitem _ _ _ _ Gu).
    unfold fillna, status, user.
    rewrite !nth_as_error, !nth_error_map, Ei. cbn [option_map].
    rewrite Hst, Hus. repeat split; reflexivity. }
  (* the counters *)
  unfold analyze_movements in Ha.
  destruct (empty df); [discriminate|].
  rewrite Gu, Gs in Ha. cbn [bind] in Ha.
  destruct (getitem df "user_type") as [user_type|]; [cbn [bind] in Ha | discriminate].
  destruct (getitem df "is_roaming") as [is_roaming|]; [cbn [bind] in Ha | discriminate].
  destruct (getitem df "home_country") as [home|]; [cbn [bind] in Ha | discriminate].
  destruct (movements df (unique (fillna (VStr "unknown") user))) as [ms|] eqn:Em;
    [cbn [bind] in Ha | discriminate].
  inversion Ha; subst a; clear Ha.
  cbn [total_connections successful_connections failed_connections user_movements].
  assert (A1 := count_rows df "status" status "Accept" Gs Ls).
  assert (A2 := count_rows df "status" status "Reject" Gs Ls).
  fold recs in A1, A2.
  split; [exact F|]. split; [unfold recs; now rewrite length_to_records|].
  split; [exact A1|]. split; [exact A2|]. split.
  - rewrite A1, A2, <- (length_to_records df). fold recs.
    apply exclusive_filters. intros d Hd. split.
    + intros P. split.
      * destruct (cell d "status") as [| |x| | | |]; try discriminate.
        simpl in P. apply String.eqb_eq in P. subst x. reflexivity.
      * destruct (is_fticks d) eqn:R; [|reflexivity].
        destruct (F d Hd R) as (Hst & _). rewrite Hst in P. discriminate.
    + intros Q.
      destruct (is_fticks d) eqn:R; [|reflexivity].
      destruct (F d Hd R) as (Hst & _). rewrite Hst in Q. discriminate.
  - intros u s Hin.
    destruct (movements_spec df _ _ ms Gu Em u s Hin) as [N T].
    split; [exact N|]. rewrite T.
    now apply count_rows.
Qed.

Lemma fticks_records_in_totals_witness :
  let run :=
    parse_eduroam_log Strptime.strptime
      (Examples.access_line ++ Examples.nl ++ Examples.fticks_line)
      Examples.still in
  let df := Examples.from_ok (fst run) in
  let a := mkAnalysis 2 1 1 2 1 0 1 2
             [("alice@iitd.ac.in", mkUserSummary 1 1 false 0)] in
  run = (Ok df, snd run) /\
  analyze_movements df = Ok (Some a) /\
  successful_connections a + failed_connections a
    + length (filter (fun d => eq_str (cell d "log_type") "fticks")
                (to_records df)) <= total_connections a.
Proof.
  intros run df a.
  assert (H1 : run = (Ok df, snd run)) by (vm_compute; reflexivity).
  assert (H2 : analyze_movements df = Ok (Some a)) by (vm_compute; reflexivity).
  split; [exact H1|]. split; [exact H2|].
  exact (proj1 (proj2 (proj2 (proj2 (proj2
           (fticks_records_in_totals Strptime.strptime _ _ _ _ _ H1 H2)))))).
Defined.

End RitikFacts.


(** ** The texts of the groups *)

Module CapturedFacts.

Import Re ReFacts Pandas Captured.

Lemma substring_append u v : substring 0 (String.length u) (u ++ v) = u.
Proof. induction u as [|a u IH]; simpl; [now destruct v | now rewrite IH]. Qed.

Lemma taken_append u s : taken (u ++ s) s = u.
Proof.
  unfold taken. rewrite length_append.
  replace (String.length u + String.length s - String.length s)
    with (String.length u) by lia.
  apply substring_append.
Qed.

Lemma caps_ok_cons P c n v : caps_ok P c -> P n v -> caps_ok P ((n, v) :: c).
Proof.
  intros H Hv n' v' L. simpl in L.
  destruct (String.eqb n' n) eqn:E.
  - apply String.eqb_eq in E. subst n'. inversion L. subst v'. exact Hv.
  - now apply H.
Qed.

(** A result of [exec] comes from a match whose groups hold admissible
    texts. *)
Lemma exec_values (A : Type) (P : string -> string -> Prop) (subj : string) :
  forall r s c (k : string -> caps -> option A) x,
    groups_ok P r -> caps_ok P c ->
    exec r subj s c k = Some x ->
    exists s' c', matches subj r s s' /\ caps_ok P c' /\ k s' c' = Some x.
Proof.
  induction r as [| |p|r1 IH1 r2 IH2|r1 IH1 r2 IH2|n r1 IH1|r1 IH1|g p lo hi];
    intros s c k x G C H; simpl in H, G.
  - exists s, c. repeat split; auto. constructor.
  - destruct (Nat.eqb (String.length s) (String.length subj)) eqn:E;
      [|discriminate].
    apply Nat.eqb_eq in E. exists s, c. repeat split; auto. now constructor.
  - destruct s as [|a s]; [discriminate|].
    destruct (p a) eqn:Ha; [|discriminate].
    exists s, c. repeat split; auto. now constructor.
  - destruct G as [G1 G2].
    apply IH1 in H; auto. destruct H as (s1 & c1 & M1 & C1 & H).
    apply IH2 in H; auto. destruct H as (s2 & c2 & M2 & C2 & H).
    exists s2, c2. repeat split; auto. econstructor; eauto.
  - destruct G as [G1 G2]. unfold orelse in H.
    destruct (exec r1 subj s c k) eqn:E.
    + inversion H; subst. apply IH1 in E; auto.
      destruct E as (s1 & c1 & M1 & C1 & E).
      exists s1, c1. repeat split; auto. now apply M_AltL.
    + apply IH2 in H; auto. destruct H as (s1 & c1 & M1 & C1 & H).
      exists s1, c1. repeat split; auto. now apply M_AltR.
  - destruct G as [G1 G2].
    apply IH1 in H; auto. destruct H as (s1 & c1 & M1 & C1 & H).
    exists s1, ((n, taken s s1) :: c1). repeat split; auto.
    + now constructor.
    + apply caps_ok_cons; auto. eapply G1; eauto.
  - unfold orelse in H. destruct (exec r1 subj s c k) eqn:E.
    + inversion H; subst. apply IH1 in E; auto.
      destruct E as (s1 & c1 & M1 & C1 & E).
      exists s1, c1. repeat split; auto. now apply M_OptSome.
    + exists s, c. repeat split; auto. apply M_OptNone.
  - assert (D : consumed p (fun s1 => k s1 c) lo hi s x).
    { destruct g; [now apply rep_greedy_sound | now apply rep_lazy_sound]. }
    destruct D as (u & s' & -> & Hu & Hlo & Hhi & Hk).
    exists s', c. repeat split; auto. now constructor.
Qed.

Lemma caps_ok_nil P : caps_ok P [].
Proof. intros n v L. discriminate. Qed.

Lemma match_at_values P r subj s m :
  groups_ok P r -> match_at r subj s = Some m -> caps_ok P m.
Proof.
  unfold match_at. intros G E.
  destruct (exec_values _ P subj r s [] _ m G (caps_ok_nil P) E)
    as (s' & c' & _ & C & E').
  inversion E'; subst. exact C.
Qed.

Lemma search_from_values P r subj : forall s m,
  groups_ok P r -> search_from r subj s = Some m -> caps_ok P m.
Proof.
  induction s as [|a s IH]; intros m G H; simpl in H.
  - destruct (match_at r subj EmptyString) eqn:E; [|discriminate].
    inversion H; subst. eapply match_at_values; eauto.
  - destruct (match_at r subj (String a s)) eqn:E.
    + inversion H; subst. eapply match_at_values; eauto.
    + now apply IH.
Qed.

(** *** What a literal and a quantified class consume *)

Lemma matches_lit subj : forall w s s',
  matches subj (lit w) s s' -> s = w ++ s'.
Proof.
  induction w as [|a w IH]; intros s s' M; simpl in M.
  - now apply eps_inv in M.
  - apply cat_inv in M. destruct M as (s1 & M1 & M2).
    inversion M1; subst. unfold lit_c in *.
    match goal with E : Ascii.eqb _ _ = true |- _ => apply Ascii.eqb_eq in E; subst end.
    simpl. f_equal. now apply IH.
Qed.

Lemma matches_liti subj : forall w s s',
  matches subj (liti w) s s' ->
  exists u, s = u ++ s' /\ Py.lower u = Py.lower w.
Proof.
  induction w as [|a w IH]; intros s s' M; simpl in M.
  - apply eps_inv in M. subst. exists EmptyString. auto.
  - apply cat_inv in M. destruct M as (s1 & M1 & M2).
    inversion M1; subst. unfold lit_ci in *.
    match goal with E : Ascii.eqb _ _ = true |- _ => apply Ascii.eqb_eq in E end.
    destruct (IH _ _ M2) as (u & -> & Hu).
    eexists (String _ u). split; [reflexivity|]. simpl. now rewrite Hu, H0.
Qed.

Lemma matches_rep subj g p lo hi s s' :
  matches subj (Rep g p lo hi) s s' ->
  exists u, s = u ++ s' /\ all_in p u /\ lo <= String.length u /\
            within (String.length u) hi.
Proof. intros M. inversion M; subst. exists u. auto. Qed.

Lemma lower_append u v : Py.lower (u ++ v) = Py.lower u ++ Py.lower v.
Proof. induction u as [|a u IH]; simpl; [reflexivity | now rewrite IH]. Qed.

Lemma all_in_inside p q v : inside p q = true -> all_in p v -> all_in q v.
Proof.
  unfold all_in. intros I H. apply forallb_forall. intros a Ha.
  rewrite forallb_forall in H. eapply inside_spec; eauto.
Qed.

Lemma nonempty_length v : 1 <= String.length v -> v <> "".
Proof. intros H ->. simpl in H. lia. Qed.

(** A pattern of fixed width consumes that many characters. *)
Lemma matches_width subj : forall r s s' n,
  matches subj r s s' -> width r = Some n ->
  exists u, s = u ++ s' /\ String.length u = n.
Proof.
  intros r s s' n M. revert n. induction M; intros w W; simpl in W.
  - inversion W. exists EmptyString. auto.
  - inversion W. exists EmptyString. auto.
  - inversion W. exists (String a EmptyString). auto.
  - destruct (width r1) as [a|]; [|discriminate].
    destruct (width r2) as [b|]; [|discriminate]. inversion W; subst.
    destruct (IHM1 _ eq_refl) as (u1 & -> & L1).
    destruct (IHM2 _ eq_refl) as (u2 & -> & L2).
    exists (u1 ++ u2). rewrite append_assoc, length_append. auto.
  - destruct (width r1) as [a|]; [|discriminate].
    destruct (width r2) as [b|]; [|discriminate].
    destruct (Nat.eqb a b); inversion W; subst. now apply IHM.
  - destruct (width r1) as [a|]; [|discriminate].
    destruct (width r2) as [b|]; [|discriminate].
    destruct (Nat.eqb a b) eqn:E; inversion W; subst.
    apply Nat.eqb_eq in E. subst. now apply IHM.
  - now apply IHM.
  - discriminate.
  - discriminate.
  - destruct hi as [h|]; [|discriminate].
    destruct (Nat.eqb lo h) eqn:E; inversion W; subst.
    apply Nat.eqb_eq in E. subst h. simpl in *.
    exists u. split; [reflexivity | lia].
Qed.

Lemma alt_inv subj r1 r2 s s' :
  matches subj (Alt r1 r2) s s' -> matches subj r1 s s' \/ matches subj r2 s s'.
Proof. intros M. inversion M; subst; auto. Qed.

Lemma groups_ok_lit P : forall w, groups_ok P (lit w).
Proof. induction w; simpl; auto. Qed.

Lemma groups_ok_liti P : forall w, groups_ok P (liti w).
Proof. induction w; simpl; auto. Qed.

Ltac open_groups :=
  unfold Ritik.timestamp_re, LogGenerator.timestamp_re;
  cbn [seq groups_ok plus star exactly star_lazy];
  repeat match goal with
  | |- _ /\ _ => split
  | |- True => exact I
  | |- groups_ok _ (lit _) => apply groups_ok_lit
  | |- groups_ok _ (liti _) => apply groups_ok_liti
  end.

(** A group the predicate says nothing about. *)
Ltac free_group :=
  repeat match goal with |- _ /\ _ => split end;
  let E := fresh "E" in intros E; discriminate E.

Lemma taken_rep subj g p lo hi s s1 :
  matches subj (Rep g p lo hi) s s1 ->
  all_in p (taken s s1) /\ lo <= String.length (taken s s1).
Proof.
  intros M. destruct (matches_rep _ _ _ _ _ _ _ M) as (u & -> & A & L & _).
  rewrite taken_append. auto.
Qed.

Lemma extended_access_groups : groups_ok extended_access_text Ritik.access_pattern.
Proof.
  unfold Ritik.access_pattern. open_groups;
    intros subj s s1 M; unfold extended_access_text;
    try free_group.
  - (* timestamp *)
    split; [intros _ | free_group].
    destruct (matches_width subj _ _ _ 24 M eq_refl) as (u & -> & L).
    now rewrite taken_append.
  - (* status *)
    split; [free_group|]. split; [intros _ | free_group].
    destruct (alt_inv _ _ _ _ _ M) as [H|H];
      apply matches_lit in H; subst; rewrite taken_append; auto.
  - (* ip *)
    split; [free_group|]. split; [free_group | intros _].
    destruct (taken_rep _ _ _ _ _ _ _ M) as [A L].
    now apply nonempty_length.
Qed.

Lemma taken_plus_ci subj p s s1 :
  inside (ci p) p = true ->
  matches subj (plus (ci p)) s s1 ->
  taken s s1 <> "" /\ all_in p (taken s s1).
Proof.
  intros I M. destruct (taken_rep _ _ _ _ _ _ _ M) as [A L].
  split; [now apply nonempty_length | now apply (all_in_inside (ci p))].
Qed.

Lemma minimal_access_groups :
  groups_ok minimal_access_text LogGenerator.access_pattern.
Proof.
  unfold LogGenerator.access_pattern. open_groups;
    intros subj s s1 M; unfold minimal_access_text;
    try free_group.
  - (* event *)
    split; [intros _ | free_group].
    destruct (matches_width subj _ _ _ 13 M eq_refl) as (u & -> & L).
    now rewrite taken_append.
  - (* stationid *)
    split; [free_group|]. split; [intros _ | free_group].
    apply (taken_plus_ci subj); [vm_compute; reflexivity | exact M].
  - (* source *)
    split; [free_group|]. split; [free_group|]. split; [intros _ | free_group].
    apply (taken_plus_ci subj); [vm_compute; reflexivity | exact M].
  - (* ip *)
    split; [free_group|]. split; [free_group|]. split; [free_group | intros _].
    destruct (taken_rep _ _ _ _ _ _ _ M) as [A L].
    now apply nonempty_length.
Qed.

Lemma fticks_star subj s s1 n :
  matches subj (star (not_char "#")) s s1 -> fticks_text n (taken s s1).
Proof. intros M _. now apply (taken_rep _ _ _ _ _ _ _ M). Qed.

Lemma extended_fticks_groups : groups_ok fticks_text Ritik.fticks_pattern.
Proof.
  unfold Ritik.fticks_pattern. open_groups;
    intros subj s s1 M; try (now apply (fticks_star subj)).
  intros E. congruence.
Qed.

Lemma minimal_fticks_groups : groups_ok fticks_text LogGenerator.fticks_pattern.
Proof.
  unfold LogGenerator.fticks_pattern. open_groups;
    intros subj s s1 M; try (now apply (fticks_star subj)).
  intros E. congruence.
Qed.

(** A group that every match sets, with the property of its text. *)
Lemma group_value P m ns n :
  sets ns m -> caps_ok P m -> In n ns ->
  exists v, group m n = Some v /\ P n v.
Proof.
  intros S C Hn. unfold group. specialize (S n Hn).
  destruct (lookup n m) as [v|] eqn:E; [|congruence].
  exists v. split; [reflexivity | now apply C].
Qed.

(** In the extended analyzer an Access record has a timestamp of 24
    characters, the status "Accept" or "Reject" in exactly this spelling,
    an address that is not empty, and the record kind 'access'. *)
Theorem extended_access_fields line d :
  Ritik.access_record line = Some d ->
  exists ts status ip,
    dict_get d "timestamp" = Some (VStr ts) /\ String.length ts = 24 /\
    dict_get d "status" = Some (VStr status) /\
    (status = "Accept" \/ status = "Reject") /\
    dict_get d "ip" = Some (VStr ip) /\ ip <> "" /\
    dict_get d "log_type" = Some (VStr "access").
Proof.
  unfold Ritik.access_record, re_match. intros H.
  destruct (match_at Ritik.access_pattern line line) as [m|] eqn:E;
    [|discriminate].
  inversion H; subst d; clear H.
  pose proof (match_at_sets _ _ _ E) as S.
  pose proof (match_at_values _ _ _ _ _ extended_access_groups E) as C.
  destruct (group_value _ m _ "timestamp" S C) as (ts & Et & Pt & _);
    [vm_compute; tauto|].
  destruct (group_value _ m _ "status" S C) as (st & Es & _ & Ps & _);
    [vm_compute; tauto|].
  destruct (group_value _ m _ "ip" S C) as (ip & Ei & _ & _ & Pi);
    [vm_compute; tauto|].
  exists ts, st, ip.
  cbn [Ritik.groupdict Ritik.access_groups map dict_set dict_get
       String.eqb Ascii.eqb Bool.eqb].
  rewrite Et, Es, Ei. cbn [of_opt]. repeat split; auto.
Qed.

Lemma extended_access_fields_witness :
  Ritik.access_record Examples.access_line = Some Records.access_dict /\
  exists ts status ip,
    dict_get Records.access_dict "timestamp" = Some (VStr ts) /\
    String.length ts = 24 /\
    dict_get Records.access_dict "status" = Some (VStr status) /\
    (status = "Accept" \/ status = "Reject") /\
    dict_get Records.access_dict "ip" = Some (VStr ip) /\ ip <> "" /\
    dict_get Records.access_dict "log_type" = Some (VStr "access").
Proof.
  assert (E : Ritik.access_record Examples.access_line = Some Records.access_dict)
    by (vm_compute; reflexivity).
  split; [exact E|].
  exact (extended_access_fields Examples.access_line Records.access_dict E).
Defined.

(** In the minimal analyzer the event of an Access record has the 13
    characters of the keyword, the station identifier is made of
    hexadecimal digits, colons and hyphens, and the source holds no white
    space; station, source and address are not empty. *)
Theorem minimal_access_fields line d :
  LogGenerator.access_record line = Some d ->
  exists event stationid source ip,
    dict_get d "Event" = Some (VStr event) /\ String.length event = 13 /\
    dict_get d "StationID" = Some (VStr stationid) /\ stationid <> "" /\
    all_in (union (range "0" "9")
           (union (range "a" "f") (union (range "A" "F") (one_of ":-"))))
           stationid /\
    dict_get d "Source" = Some (VStr source) /\ source <> "" /\
    all_in non_space source /\
    dict_get d "ServerIP" = Some (VStr ip) /\ ip <> "".
Proof.
  unfold LogGenerator.access_record, re_search. intros H.
  destruct (search_from LogGenerator.access_pattern line line) as [m|] eqn:E;
    [|discriminate].
  inversion H; subst d; clear H.
  pose proof (search_from_sets _ _ _ E) as S.
  pose proof (search_from_values _ _ _ _ _ minimal_access_groups E) as C.
  destruct (group_value _ m _ "event" S C) as (ev & Ee & Pe & _);
    [vm_compute; tauto|].
  destruct (group_value _ m _ "stationid" S C) as (sid & Es & _ & Ps & _);
    [vm_compute; tauto|].
  destruct (group_value _ m _ "source" S C) as (src & Er & _ & _ & Pr & _);
    [vm_compute; tauto|].
  destruct (group_value _ m _ "ip" S C) as (ip & Ei & _ & _ & _ & Pi);
    [vm_compute; tauto|].
  destruct (Ps eq_refl) as [Ps1 Ps2]. destruct (Pr eq_refl) as [Pr1 Pr2].
  exists ev, sid, src, ip.
  cbn [dict_get String.eqb Ascii.eqb Bool.eqb].
  rewrite Ee, Es, Er, Ei. cbn [of_opt]. repeat split; auto.
Qed.

Lemma minimal_access_fields_witness :
  LogGenerator.access_record Examples.access_line = Some Examples.access_dict /\
  exists event stationid source ip,
    dict_get Examples.access_dict "Event" = Some (VStr event) /\
    String.length event = 13 /\
    dict_get Examples.access_dict "StationID" = Some (VStr stationid) /\
    stationid <> "" /\
    all_in (union (range "0" "9")
           (union (range "a" "f") (union (range "A" "F") (one_of ":-"))))
           stationid /\
    dict_get Examples.access_dict "Source" = Some (VStr source) /\
    source <> "" /\ all_in non_space source /\
    dict_get Examples.access_dict "ServerIP" = Some (VStr ip) /\ ip <> "".
Proof.
  assert (E : LogGenerator.access_record Examples.access_line =
              Some Examples.access_dict) by (vm_compute; reflexivity).
  split; [exact E|].
  exact (minimal_access_fields Examples.access_line Examples.access_dict E).
Defined.

(** In the extended analyzer the five fields of an F-TICKS record are
    strings, possibly empty, and none of them holds a [#]. *)
Theorem extended_fticks_fields line d k :
  Ritik.fticks_record line = Some d ->
  In k ["realm"; "viscountry"; "visinst"; "csi"; "result"] ->
  exists v, dict_get d k = Some (VStr v) /\ all_in (not_char "#") v.
Proof.
  unfold Ritik.fticks_record, re_match. intros H Hk.
  destruct (match_at Ritik.fticks_pattern line line) as [m|] eqn:E;
    [|discriminate].
  inversion H; subst d; clear H.
  pose proof (match_at_sets _ _ _ E) as S.
  pose proof (match_at_values _ _ _ _ _ extended_fticks_groups E) as C.
  assert (G : forall n, In n ["realm"; "viscountry"; "visinst"; "csi"; "result"] ->
                exists v, group m n = Some v /\ all_in (not_char "#") v).
  { intros n Hn.
    destruct (group_value _ m _ n S C) as (v & Ev & Pv).
    - vm_compute. simpl in Hn. tauto.
    - exists v. split; [exact Ev|]. apply Pv.
      simpl in Hn. intuition (subst; discriminate). }
  simpl in Hk.
  destruct Hk as [<-|[<-|[<-|[<-|[<-|[]]]]]];
    cbn [Ritik.groupdict Ritik.fticks_groups map dict_set dict_get
         String.eqb Ascii.eqb Bool.eqb];
    match goal with
    | |- exists v, Some (of_opt (group m ?n)) = _ /\ _ =>
        destruct (G n) as (v & -> & A); [simpl; tauto | exists v; auto]
    end.
Qed.

Lemma extended_fticks_fields_witness :
  Ritik.fticks_record Examples.fticks_line = Some Records.fticks_dict /\
  In "result" ["realm"; "viscountry"; "visinst"; "csi"; "result"] /\
  exists v, dict_get Records.fticks_dict "result" = Some (VStr v) /\
            all_in (not_char "#") v.
Proof.
  assert (E : Ritik.fticks_record Examples.fticks_line = Some Records.fticks_dict)
    by (vm_compute; reflexivity).
  assert (I : In "result" ["realm"; "viscountry"; "visinst"; "csi"; "result"])
    by (simpl; tauto).
  split; [exact E|]. split; [exact I|].
  exact (extended_fticks_fields Examples.fticks_line Records.fticks_dict
           "result" E I).
Defined.

(** In the minimal analyzer the four fields of an F-TICKS record are
    strings, possibly empty, and none of them holds a [#]. *)
Theorem minimal_fticks_fields line d k :
  LogGenerator.fticks_record line = Some d ->
  In k ["VISCOUNTRY"; "VISINST"; "CSI"; "RESULT"] ->
  exists v, dict_get d k = Some (VStr v) /\ all_in (not_char "#") v.
Proof.
  unfold LogGenerator.fticks_record, re_search. intros H Hk.
  destruct (search_from LogGenerator.fticks_pattern line line) as [m|] eqn:E;
    [|discriminate].
  inversion H; subst d; clear H.
  pose proof (search_from_sets _ _ _ E) as S.
  pose proof (search_from_values _ _ _ _ _ minimal_fticks_groups E) as C.
  assert (G : forall n, In n ["country"; "inst"; "csi"; "result"] ->
                exists v, group m n = Some v /\ all_in (not_char "#") v).
  { intros n Hn.
    destruct (group_value _ m _ n S C) as (v & Ev & Pv).
    - vm_compute. simpl in Hn. tauto.
    - exists v. split; [exact Ev|]. apply Pv.
      simpl in Hn. intuition (subst; discriminate). }
  simpl in Hk.
  destruct Hk as [<-|[<-|[<-|[<-|[]]]]];
    cbn [dict_get String.eqb Ascii.eqb Bool.eqb];
    match goal with
    | |- exists v, Some (of_opt (group m ?n)) = _ /\ _ =>
        destruct (G n) as (v & -> & A); [simpl; tauto | exists v; auto]
    end.
Qed.

Lemma minimal_fticks_fields_witness :
  LogGenerator.fticks_record Examples.fticks_line = Some Examples.fticks_dict /\
  In "VISINST" ["VISCOUNTRY"; "VISINST"; "CSI"; "RESULT"] /\
  exists v, dict_get Examples.fticks_dict "VISINST" = Some (VStr v) /\
            all_in (not_char "#") v.
Proof.
  assert (E : LogGenerator.fticks_record Examples.fticks_line =
              Some Examples.fticks_dict) by (vm_compute; reflexivity).
  assert (I : In "VISINST" ["VISCOUNTRY"; "VISINST"; "CSI"; "RESULT"])
    by (simpl; tauto).
  split; [exact E|]. split; [exact I|].
  exact (minimal_fticks_fields Examples.fticks_line Examples.fticks_dict
           "VISINST" E I).
Defined.

End CapturedFacts.

(** ** Runs of the minimal analyzer *)

Module MinimalRuns.

Import Re ReFacts Pandas PandasFacts LogGenerator LogGeneratorFacts.

Lemma in_records_of f stream d :
  In d (records_of f stream) -> exists line, In line stream /\ f line = Some d.
Proof.
  unfold records_of. rewrite in_flat_map. intros (line & Hl & Hd).
  exists line. split; [exact Hl|].
  destruct (f line) as [d'|]; [|destruct Hd].
  destruct Hd as [->|[]]. reflexivity.
Qed.

Lemma length_records_of f stream :
  length (records_of f stream) <= length stream.
Proof.
  induction stream as [|line rest IH]; simpl; [lia|].
  rewrite length_app. destruct (f line); simpl; lia.
Qed.

Lemma access_record_timestamp line d :
  access_record line = Some d -> dict_get d "Timestamp" <> None.
Proof.
  unfold access_record. destruct (re_search access_pattern line);
    intros H; inversion H. discriminate.
Qed.

Lemma fticks_record_timestamp line d :
  fticks_record line = Some d -> dict_get d "Timestamp" <> None.
Proof.
  unfold fticks_record. destruct (re_search fticks_pattern line);
    intros H; inversion H. discriminate.
Qed.

Lemma timestamp_column rs :
  rs <> [] ->
  (forall d, In d rs -> dict_get d "Timestamp" <> None) ->
  getitem (from_records rs) "Timestamp" =
  Ok (map (fun d => cell d "Timestamp") rs).
Proof.
  intros N H. destruct rs as [|d rs]; [congruence|].
  apply (getitem_from_records_present (d :: rs) d); [now left|].
  apply H. now left.
Qed.

(** The minimal analyzer returns its two tables exactly when the stream
    has a line of each grammar, and raises [KeyError] for [Timestamp]
    otherwise; the tables have one row per record and no more rows than
    the stream has lines. *)
Theorem extract_outcome parse stream :
  let access_logs := records_of access_record stream in
  let fticks_logs := records_of fticks_record stream in
  (access_logs <> [] /\ fticks_logs <> [] ->
   exists df_access df_fticks,
     extract_summary_tables_from_stream parse stream = Ok (df_access, df_fticks) /\
     nrows df_access = length access_logs /\
     nrows df_fticks = length fticks_logs /\
     nrows df_access <= length stream /\ nrows df_fticks <= length stream) /\
  (access_logs = [] \/ fticks_logs = [] ->
   extract_summary_tables_from_stream parse stream =
   Raise (KeyError "Timestamp")).
Proof.
  intros access_logs fticks_logs.
  unfold extract_summary_tables_from_stream. rewrite classify_spec.
  cbn [app]. fold access_logs fticks_logs. split.
  - intros [Na Nf].
    rewrite (timestamp_column access_logs Na).
    2:{ intros d Hd. destruct (in_records_of _ _ _ Hd) as (l & _ & E).
        now apply (access_record_timestamp l). }
    cbn [bind].
    rewrite (timestamp_column fticks_logs Nf).
    2:{ intros d Hd. destruct (in_records_of _ _ _ Hd) as (l & _ & E).
        now apply (fticks_record_timestamp l). }
    cbn [bind]. eexists. eexists. split; [reflexivity|].
    cbn [nrows setitem from_records].
    repeat split; auto; apply length_records_of.
  - intros [E|E].
    + rewrite E. reflexivity.
    + rewrite E.
      destruct (getitem (from_records access_logs) "Timestamp") eqn:G;
        cbn [bind]; [reflexivity|].
      unfold getitem in G.
      destruct (assoc "Timestamp" _); [discriminate|]. inversion G.
      reflexivity.
Qed.

Lemma extract_outcome_witness :
  let stream := [Examples.access_line; Examples.fticks_line] in
  (records_of access_record stream <> [] /\
   records_of fticks_record stream <> []) /\
  exists df_access df_fticks,
    extract_summary_tables_from_stream Strptime.strptime stream =
      Ok (df_access, df_fticks) /\
    nrows df_access = length (records_of access_record stream) /\
    nrows df_fticks = length (records_of fticks_record stream) /\
    nrows df_access <= length stream /\ nrows df_fticks <= length stream.
Proof.
  intros stream.
  assert (H : records_of access_record stream <> [] /\
              records_of fticks_record stream <> [])
    by (split; vm_compute; discriminate).
  split; [exact H|].
  exact (proj1 (extract_outcome Strptime.strptime stream) H).
Defined.

(** When the minimal analyzer returns, each of its two tables has one row
    per record, in the order of the stream; the [Timestamp] of a row is a
    timestamp or [NaT], and every other cell is the text of the field of
    the record, and null where the field is. *)
Theorem rows_retained parse stream df_access df_fticks :
  extract_summary_tables_from_stream parse stream = Ok (df_access, df_fticks) ->
  (nrows df_access = length (records_of access_record stream) /\
   forall i d,
     nth_error (records_of access_record stream) i = Some d ->
     (cell (row df_access i) "Timestamp" = VNaT \/
      exists t, cell (row df_access i) "Timestamp" = VTime t) /\
     forall k, k <> "Timestamp" ->
       (forall v, cell d k = VStr v -> cell (row df_access i) k = VStr v) /\
       (isna (cell d k) = true -> isna (cell (row df_access i) k) = true)) /\
  (nrows df_fticks = length (records_of fticks_record stream) /\
   forall i d,
     nth_error (records_of fticks_record stream) i = Some d ->
     (cell (row df_fticks i) "Timestamp" = VNaT \/
      exists t, cell (row df_fticks i) "Timestamp" = VTime t) /\
     forall k, k <> "Timestamp" ->
       (forall v, cell d k = VStr v -> cell (row df_fticks i) k = VStr v) /\
       (isna (cell d k) = true -> isna (cell (row df_fticks i) k) = true)).
Proof.
  unfold extract_summary_tables_from_stream.
  rewrite classify_spec. cbn [app]. intros H.
  destruct (getitem (from_records (records_of access_record stream)) "Timestamp")
    as [ts|] eqn:Ea; [|discriminate].
  cbn [bind] in H.
  destruct (getitem (from_records (records_of fticks_record stream)) "Timestamp")
    as [ts'|] eqn:Ef; [|discriminate].
  cbn [bind] in H. inversion H; subst; clear H.
  apply getitem_from_records in Ea, Ef. subst ts ts'.
  assert (T : forall v, coerce parse v = VNaT \/ exists t, coerce parse v = VTime t).
  { intros v. unfold coerce, convert.
    destruct v as [| |x|t| | |]; auto; [|right; eauto].
    destruct (parse x) as [t|]; cbn [option_map]; [right; eauto | auto]. }
  split; (split; [reflexivity|]); intros i d Hd; split.
  - rewrite cell_row_setitem. cbn [String.eqb Ascii.eqb Bool.eqb].
    unfold to_datetime_coerce.
    rewrite nth_as_error, !nth_error_map, Hd. cbn [option_map]. apply T.
  - intros k Hk. rewrite cell_row_setitem.
    apply String.eqb_neq in Hk. rewrite Hk.
    rewrite (cell_row_from_records _ _ _ _ Hd). auto.
  - rewrite cell_row_setitem. cbn [String.eqb Ascii.eqb Bool.eqb].
    unfold to_datetime_coerce.
    rewrite nth_as_error, !nth_error_map, Hd. cbn [option_map]. apply T.
  - intros k Hk. rewrite cell_row_setitem.
    apply String.eqb_neq in Hk. rewrite Hk.
    rewrite (cell_row_from_records _ _ _ _ Hd). auto.
Qed.

Lemma rows_retained_witness :
  let stream := [Examples.bad_hour_line; Examples.fticks_line] in
  let run := extract_summary_tables_from_stream Strptime.strptime stream in
  let df_access := match run with Ok (a, _) => a | Raise _ => empty_frame end in
  let df_fticks := match run with Ok (_, f) => f | Raise _ => empty_frame end in
  let d := dict_set Examples.access_dict "Timestamp"
             (VStr "Thu Jul 25 25:03:00 2024") in
  run = Ok (df_access, df_fticks) /\
  nth_error (records_of access_record stream) 0 = Some d /\
  nth_error (records_of fticks_record stream) 0 = Some Examples.fticks_dict /\
  nrows df_access = 1 /\ nrows df_fticks = 1 /\
  (cell (row df_access 0) "Timestamp" = VNaT \/
   exists t, cell (row df_access 0) "Timestamp" = VTime t) /\
  (forall k, k <> "Timestamp" ->
     (forall v, cell d k = VStr v -> cell (row df_access 0) k = VStr v) /\
     (isna (cell d k) = true -> isna (cell (row df_access 0) k) = true)) /\
  (cell (row df_fticks 0) "Timestamp" = VNaT \/
   exists t, cell (row df_fticks 0) "Timestamp" = VTime t) /\
  (forall k, k <> "Timestamp" ->
     (forall v, cell Examples.fticks_dict k = VStr v ->
        cell (row df_fticks 0) k = VStr v) /\
     (isna (cell Examples.fticks_dict k) = true ->
      isna (cell (row df_fticks 0) k) = true)).
Proof.
  intros stream run df_access df_fticks d.
  assert (H1 : run = Ok (df_access, df_fticks)) by (vm_compute; reflexivity).
  assert (H2 : nth_error (records_of access_record stream) 0 = Some d)
    by (vm_compute; reflexivity).
  assert (H3 : nth_error (records_of fticks_record stream) 0 =
               Some Examples.fticks_dict) by (vm_compute; reflexivity).
  split; [exact H1|]. split; [exact H2|]. split; [exact H3|].
  destruct (rows_retained Strptime.strptime stream df_access df_fticks H1)
    as ((Na & Ra) & (Nf & Rf)).
  split; [exact Na|]. split; [exact Nf|].
  destruct (Ra 0 d H2) as (Ta & Ca). destruct (Rf 0 _ H3) as (Tf & Cf).
  auto.
Defined.

End MinimalRuns.

(** ** Lines and records of the extended analyzer *)

Module ExtendedLines.

Import Re ReFacts AccessGrammar Pandas Captured CapturedFacts Ritik.

Lemma append_inj u : forall u' v v',
  u ++ v = u' ++ v' -> String.length u = String.length u' ->
  u = u' /\ v = v'.
Proof.
  induction u as [|a u IH]; intros [|a' u'] v v' E L; simpl in *;
    try discriminate; auto.
  inversion E; subst. destruct (IH u' v v') as [-> ->]; auto.
Qed.

Lemma bol_inv subj s s' : matches subj Bol s s' -> s = s'.
Proof. intros M. now inversion M. Qed.

(** Where the text after the timestamp and [": "] starts. *)
Lemma after_timestamp subj s1 s2 :
  matches subj (Grp "timestamp" timestamp_re) subj s1 ->
  matches subj (lit ": ") s1 s2 ->
  exists u, subj = u ++ ": " ++ s2 /\ String.length u = 24.
Proof.
  intros M1 M2. apply grp_inv in M1.
  destruct (matches_width subj _ _ _ 24 M1 eq_refl) as (u & E & L).
  apply matches_lit in M2. subst s1. exists u. auto.
Qed.

(** No line is a record of both kinds: after the timestamp an Access line
    goes on with [Access-] and an F-TICKS line with [F-TICKS/]; so the
    table has at most one record per line. *)
Theorem at_most_one_record :
  (forall line, access_record line = None \/ fticks_record line = None) /\
  (forall lines, length (collect lines []) <= length lines).
Proof.
  assert (X : forall line,
             access_record line = None \/ fticks_record line = None).
  { intros line. unfold access_record, fticks_record.
    destruct (re_match access_pattern line) as [m|] eqn:Ea; [|now left].
    destruct (re_match fticks_pattern line) as [m'|] eqn:Ef; [|now right].
    exfalso.
    assert (Ha : is_some (re_match access_pattern line) = true)
      by (rewrite Ea; reflexivity).
    assert (Hf : is_some (re_match fticks_pattern line) = true)
      by (rewrite Ef; reflexivity).
    apply re_match_matches in Ha, Hf.
    destruct Ha as (sa & Ha). destruct Hf as (sf & Hf).
    unfold access_pattern in Ha. cbn [seq] in Ha. split_cats Ha.
    unfold fticks_pattern in Hf. cbn [seq] in Hf. split_cats Hf.
    repeat match goal with
    | H : matches _ Bol _ _ |- _ => apply bol_inv in H; subst
    end.
    repeat match goal with
    | H1 : matches _ (Grp "timestamp" _) _ ?a, H2 : matches _ (lit ": ") ?a _ |- _ =>
        let u := fresh "u" in
        let E := fresh "E" in
        let L := fresh "L" in
        destruct (after_timestamp _ _ _ H1 H2) as (u & E & L);
        clear H1 H2
    end.
    match goal with
    | E1 : ?l = ?u1 ++ ": " ++ ?a, E2 : ?l = ?u2 ++ ": " ++ ?b,
      A : matches _ (lit "Access-") ?a _,
      F : matches _ (lit "F-TICKS/eduroam/") ?b _ |- _ =>
        rewrite E1 in E2;
        destruct (append_inj _ _ _ _ E2) as [_ E3]; [congruence|];
        apply matches_lit in A; apply matches_lit in F;
        rewrite A, F in E3; discriminate E3
    end. }
  split; [exact X|].
  assert (G : forall lines records,
             length (collect lines records) <= length records + length lines).
  { induction lines as [|line rest IH]; intros records; simpl; [lia|].
    destruct (Py.strip line) as [|a l] eqn:E.
    - specialize (IH records). lia.
    - etransitivity; [apply IH|]. unfold append.
      destruct (X (String a l)) as [-> | ->];
        [destruct (fticks_record (String a l)) |
         destruct (access_record (String a l))];
        rewrite ?length_app; simpl; lia. }
  intros lines. apply (G lines []).
Qed.

End ExtendedLines.

(** ** Runs of the extended analyzer *)

Module ExtendedRuns.

Import Re ReFacts Pandas PandasFacts Ritik RitikFacts.

(** *** The records of a text *)

Lemma collect_spec : forall lines records,
  collect lines records =
  (records ++ flat_map Lines.records_of_line lines)%list.
Proof.
  induction lines as [|line rest IH]; intros records; simpl.
  - now rewrite app_nil_r.
  - unfold Lines.records_of_line at 1.
    destruct (Py.strip line) as [|a l]; [apply IH|].
    rewrite IH. unfold append.
    destruct (access_record (String a l)), (fticks_record (String a l));
      simpl; rewrite <- ?app_assoc; reflexivity.
Qed.

Lemma collect_nothing lines :
  (forall line, In line lines ->
     access_record (Py.strip line) = None /\
     fticks_record (Py.strip line) = None) ->
  collect lines [] = [].
Proof.
  intros H. rewrite collect_spec. simpl.
  induction lines as [|line rest IH]; simpl; [reflexivity|].
  destruct (H line (or_introl eq_refl)) as [Ha Hf].
  rewrite IH by (intros l Hl; apply H; now right).
  unfold Lines.records_of_line.
  destruct (Py.strip line) as [|a l]; [reflexivity|].
  rewrite Ha, Hf. reflexivity.
Qed.

(** On a text without a line of either grammar, and so on the empty text,
    the extended analyzer returns the empty table, shows one message and
    draws nothing from the generator. *)
Theorem parse_without_records parse input st :
  (forall line, In line (Py.split Py.newline (Py.strip input)) ->
     access_record (Py.strip line) = None /\
     fticks_record (Py.strip line) = None) ->
  parse_eduroam_log parse input st =
  (Ok empty_frame, mkState (messages st ++ [no_entries]) (gen st)).
Proof.
  intros H. unfold parse_eduroam_log. rewrite (collect_nothing _ H).
  reflexivity.
Qed.

Lemma parse_without_records_witness :
  (forall line, In line (Py.split Py.newline (Py.strip "")) ->
     access_record (Py.strip line) = None /\
     fticks_record (Py.strip line) = None) /\
  parse_eduroam_log Strptime.strptime "" Examples.still =
  (Ok empty_frame,
   mkState (messages Examples.still ++ [no_entries]) (gen Examples.still)).
Proof.
  assert (H : forall line, In line (Py.split Py.newline (Py.strip "")) ->
                access_record (Py.strip line) = None /\
                fticks_record (Py.strip line) = None).
  { intros line [<-|[]]. split; reflexivity. }
  split; [exact H|].
  exact (parse_without_records Strptime.strptime "" Examples.still H).
Defined.

(** *** A text with F-TICKS lines only *)

Lemma mem_concat_false k (ls : list (list string)) :
  (forall l, In l ls -> mem k l = false) -> mem k (concat ls) = false.
Proof.
  induction ls as [|l ls IH]; intros H; simpl; [reflexivity|].
  unfold mem in *. rewrite existsb_app.
  rewrite (H l (or_introl eq_refl)), IH; auto.
  intros l' Hl'. apply H. now right.
Qed.

Lemma getitem_from_records_absent rs k :
  (forall d, In d rs -> mem k (map fst d) = false) ->
  getitem (from_records rs) k = Raise (KeyError k).
Proof.
  intros H. unfold getitem, from_records. simpl. rewrite assoc_tabulate.
  unfold keys_of. rewrite mem_union_keys. simpl.
  rewrite mem_concat_false; [reflexivity|].
  intros l Hl. apply in_map_iff in Hl. destruct Hl as (d & <- & Hd). auto.
Qed.

Lemma fticks_record_keys d :
  is_fticks_record d ->
  mem "user" (map fst d) = false /\ dict_get d "timestamp" <> None.
Proof. intros (m & ->). split; [reflexivity | discriminate]. Qed.

Lemma collect_fticks_only lines :
  (forall line, In line lines -> access_record (Py.strip line) = None) ->
  Forall is_fticks_record (collect lines []).
Proof.
  intros H. rewrite collect_spec. simpl.
  induction lines as [|line rest IH]; simpl; [constructor|].
  apply Forall_app. split; [|apply IH; intros l Hl; apply H; now right].
  unfold Lines.records_of_line.
  destruct (Py.strip line) as [|a l] eqn:E; [constructor|].
  specialize (H line (or_introl eq_refl)). rewrite E in H. rewrite H.
  unfold append, fticks_record. simpl.
  destruct (re_match fticks_pattern (String a l)) as [m|]; constructor;
    [eexists; reflexivity | constructor].
Qed.

Lemma collect_some_fticks lines line :
  In line lines -> fticks_record (Py.strip line) <> None ->
  collect lines [] <> [].
Proof.
  intros Hl Hf. rewrite collect_spec. simpl. intros E.
  assert (X : forall d, ~ In d (flat_map Lines.records_of_line lines))
    by (rewrite E; auto).
  destruct (fticks_record (Py.strip line)) as [d|] eqn:Ef; [|congruence].
  apply (X d). apply in_flat_map. exists line. split; [exact Hl|].
  unfold Lines.records_of_line.
  destruct (Py.strip line) as [|a l] eqn:Es; [discriminate Ef|].
  rewrite Ef. unfold append.
  destruct (access_record (String a l)); simpl; auto.
Qed.

Lemma to_datetime_raise_error parse s e :
  to_datetime_raise parse s = Raise e ->
  e = ValueError "time data doesn't match format".
Proof.
  induction s as [|v s IH]; simpl; [discriminate|].
  destruct (convert parse v); [|intros H; now inversion H].
  destruct (to_datetime_raise parse s); simpl; [discriminate|].
  intros H. inversion H; subst. now apply IH.
Qed.

(** A text with F-TICKS lines and no Access line never yields a table:
    the run raises [KeyError] for the [user] column the table lacks, or
    [ValueError] before that when a timestamp does not parse. *)
Theorem fticks_only_raises parse input st line :
  (forall l, In l (Py.split Py.newline (Py.strip input)) ->
     access_record (Py.strip l) = None) ->
  In line (Py.split Py.newline (Py.strip input)) ->
  fticks_record (Py.strip line) <> None ->
  fst (parse_eduroam_log parse input st) = Raise (KeyError "user") \/
  fst (parse_eduroam_log parse input st) =
    Raise (ValueError "time data doesn't match format").
Proof.
  intros Ha Hl Hf. unfold parse_eduroam_log.
  pose proof (collect_fticks_only _ Ha) as Sh.
  pose proof (collect_some_fticks _ _ Hl Hf) as Ne.
  destruct (collect (Py.split Py.newline (Py.strip input)) []) as [|d0 ds];
    [congruence|].
  clear Ne. unfold mbind, lift.
  destruct (getitem (from_records (d0 :: ds)) "timestamp") as [ts|e] eqn:G.
  2:{ exfalso.
      rewrite (getitem_from_records_present (d0 :: ds) d0 "timestamp") in G;
        [discriminate | now left |].
      apply fticks_record_keys. now inversion Sh. }
  destruct (to_datetime_raise parse ts) as [ts'|e] eqn:T.
  - left. rewrite enrich_result, getitem_setitem.
    cbn [String.eqb Ascii.eqb Bool.eqb].
    rewrite getitem_from_records_absent; [reflexivity|].
    intros d Hd. apply fticks_record_keys.
    now apply (proj1 (Forall_forall _ _) Sh).
  - right. simpl. now rewrite (to_datetime_raise_error _ _ _ T).
Qed.

Lemma fticks_only_raises_witness :
  (forall l, In l (Py.split Py.newline (Py.strip Examples.fticks_line)) ->
     access_record (Py.strip l) = None) /\
  In Examples.fticks_line (Py.split Py.newline (Py.strip Examples.fticks_line)) /\
  fticks_record (Py.strip Examples.fticks_line) <> None /\
  (fst (parse_eduroam_log Strptime.strptime Examples.fticks_line Examples.still) =
     Raise (KeyError "user") \/
   fst (parse_eduroam_log Strptime.strptime Examples.fticks_line Examples.still) =
     Raise (ValueError "time data doesn't match format")).
Proof.
  assert (H1 : forall l,
             In l (Py.split Py.newline (Py.strip Examples.fticks_line)) ->
             access_record (Py.strip l) = None).
  { intros l Hl. vm_compute in Hl. destruct Hl as [<-|[]].
    vm_compute. reflexivity. }
  assert (H2 : In Examples.fticks_line
                 (Py.split Py.newline (Py.strip Examples.fticks_line)))
    by (vm_compute; left; reflexivity).
  assert (H3 : fticks_record (Py.strip Examples.fticks_line) <> None)
    by (vm_compute; discriminate).
  split; [exact H1|]. split; [exact H2|]. split; [exact H3|].
  exact (fticks_only_raises Strptime.strptime Examples.fticks_line
           Examples.still Examples.fticks_line H1 H2 H3).
Defined.

(** *** What enrichment leaves alone and what it fills *)




Lemma fillna_filled v s :
  isna v = false -> Forall (fun x => isna x = false) (fillna v s).
Proof.
  intros Hv. unfold fillna. apply Forall_forall. intros x Hx.
  apply in_map_iff in Hx. destruct Hx as (y & <- & _).
  destruct (isna y) eqn:E; assumption.
Qed.

(** After enrichment no cell of the columns [user], [from_inst], [to_inst]
    and [realm] is null. *)
Theorem enrich_fills df st df' st' k col :
  enrich_log_data df st = (Ok df', st') ->
  In k ["user"; "from_inst"; "to_inst"; "realm"] ->
  getitem df' k = Ok col ->
  Forall (fun v => isna v = false) col.
Proof.
  intros H Hk.
  destruct (enrich_ok _ _ _ _ H)
    as (user & from_inst & to_inst & ip & status & _ & _ & _ & _ & _ & ->).
  simpl in Hk.
  destruct Hk as [<-|[<-|[<-|[<-|[]]]]]; unfold enriched; cbv zeta;
    repeat (rewrite getitem_setitem; cbn [String.eqb Ascii.eqb Bool.eqb]);
    intros E; inversion E; now apply fillna_filled.
Qed.

Lemma enrich_fills_witness :
  let run := enrich_log_data Examples.access_table Examples.still in
  let df' := Examples.from_ok (fst run) in
  run = (Ok df', snd run) /\
  In "realm" ["user"; "from_inst"; "to_inst"; "realm"] /\
  getitem df' "realm" = Ok [VStr "iitd.ac.in"] /\
  Forall (fun v => isna v = false) [VStr "iitd.ac.in"].
Proof.
  intros run df'.
  assert (H1 : run = (Ok df', snd run)) by (vm_compute; reflexivity).
  assert (H2 : In "realm" ["user"; "from_inst"; "to_inst"; "realm"])
    by (simpl; tauto).
  assert (H3 : getitem df' "realm" = Ok [VStr "iitd.ac.in"])
    by (vm_compute; reflexivity).
  split; [exact H1|]. split; [exact H2|]. split; [exact H3|].
  exact (enrich_fills Examples.access_table Examples.still df' (snd run)
           "realm" [VStr "iitd.ac.in"] H1 H2 H3).
Defined.

(** *** Substrings *)

Lemma startswith_iff p : forall s,
  Py.startswith p s = true <-> exists b, s = p ++ b.
Proof.
  induction p as [|a p IH]; intros s; simpl.
  - split; eauto.
  - destruct s as [|c s].
    + split; [discriminate | intros (b & E); discriminate E].
    + rewrite andb_true_iff, Ascii.eqb_eq, IH. split.
      * intros (-> & b & ->). eauto.
      * intros (b & E). inversion E; subst. eauto.
Qed.

Lemma contains_iff p : forall s,
  Py.contains p s = true <-> exists a b, s = a ++ p ++ b.
Proof.
  induction s as [|c s IH]; cbn [Py.contains]; rewrite orb_true_iff.
  - rewrite startswith_iff. split.
    + intros [(b & E)|E]; [|discriminate]. exists EmptyString, b. exact E.
    + intros (a & b & E). left.
      destruct a as [|x a]; [eauto | discriminate E].
  - rewrite startswith_iff, IH. split.
    + intros [(b & E)|(a & b & E)].
      * exists EmptyString, b. exact E.
      * exists (String c a), b. simpl. now rewrite E.
    + intros (a & b & E). destruct a as [|x a].
      * left. eauto.
      * right. inversion E; subst. eauto.
Qed.

(** [q in p] and [p in s] give [q in s]. *)
Lemma contains_trans q p s :
  Py.contains q p = true -> Py.contains p s = true -> Py.contains q s = true.
Proof.
  rewrite !contains_iff. intros (a & b & ->) (c & d & ->).
  exists (c ++ a), (b ++ d). now rewrite !append_assoc.
Qed.

(** A realm that holds one of the Indian domains, in any case, makes the
    user 'Indian' and the home country 'India', whatever the user name and
    the institutions; every such realm holds '.in', so the test of the
    domains on line 255 adds nothing to the test of '.in'. *)
Theorem indian_realm realm user from_inst to_inst :
  Py.any_in indian_institutions (Py.lower realm) = true ->
  classify_user_type user (VStr realm) from_inst to_inst = "Indian" /\
  get_country_from_realm (VStr realm) = "India" /\
  Py.contains ".in" (Py.lower realm) = true.
Proof.
  intros H.
  assert (N : String.eqb realm "" = false).
  { destruct realm; [discriminate H | reflexivity]. }
  assert (D : Py.contains ".in" (Py.lower realm) = true).
  { unfold Py.any_in in H. apply existsb_exists in H.
    destruct H as (p & Hp & Hc).
    apply (contains_trans ".in" p); [|exact Hc].
    simpl in Hp.
    repeat (destruct Hp as [<-|Hp]; [vm_compute; reflexivity|]).
    destruct Hp. }
  split; [|split; [|exact D]].
  - unfold classify_user_type. cbn [isna eq_str orb]. rewrite N.
    cbn [py_str]. rewrite H. reflexivity.
  - unfold get_country_from_realm. cbn [isna eq_str orb]. rewrite N.
    cbn [py_str]. rewrite D. reflexivity.
Qed.

Lemma indian_realm_witness :
  Py.any_in indian_institutions (Py.lower "CSE.IITD.AC.IN") = true /\
  classify_user_type VNone (VStr "CSE.IITD.AC.IN") (VStr "etlr1.eduroam.org")
    (VStr "uni.example") = "Indian" /\
  get_country_from_realm (VStr "CSE.IITD.AC.IN") = "India" /\
  Py.contains ".in" (Py.lower "CSE.IITD.AC.IN") = true.
Proof.
  assert (H : Py.any_in indian_institutions (Py.lower "CSE.IITD.AC.IN") = true)
    by (vm_compute; reflexivity).
  split; [exact H|].
  exact (indian_realm "CSE.IITD.AC.IN" VNone (VStr "etlr1.eduroam.org")
           (VStr "uni.example") H).
Defined.

Lemma unparseable_aborts_witness :
  let input := Examples.access_line ++ Examples.nl ++ Examples.bad_hour_line in
  let d := dict_set Records.access_dict "timestamp"
             (VStr "Thu Jul 25 25:03:00 2024") in
  In d (collect (Py.split Py.newline (Py.strip input)) []) /\
  dict_get d "timestamp" = Some (VStr "Thu Jul 25 25:03:00 2024") /\
  Strptime.strptime "Thu Jul 25 25:03:00 2024" = None /\
  fst (parse_eduroam_log Strptime.strptime input Examples.still) =
    Raise (ValueError "time data doesn't match format").
Proof.
  intros input d.
  assert (H1 : In d (collect (Py.split Py.newline (Py.strip input)) []))
    by (vm_compute; right; left; reflexivity).
  assert (H2 : dict_get d "timestamp" = Some (VStr "Thu Jul 25 25:03:00 2024"))
    by (vm_compute; reflexivity).
  assert (H3 : Strptime.strptime "Thu Jul 25 25:03:00 2024" = None)
    by (vm_compute; reflexivity).
  split; [exact H1|]. split; [exact H2|]. split; [exact H3|].
  exact (unparseable_aborts Strptime.strptime input Examples.still d
           "Thu Jul 25 25:03:00 2024" H1 H2 H3).
Defined.

(** *** The table of a run *)

Lemma cell_row_of_getitem df df0 i k :
  getitem df k = getitem df0 k -> cell (row df i) k = cell (row df0 i) k.
Proof.
  unfold getitem. rewrite !cell_row.
  destruct (assoc k (columns df)), (assoc k (columns df0));
    intros H; inversion H; reflexivity.
Qed.

Lemma to_datetime_raise_nth parse : forall s ts i t,
  to_datetime_raise parse s = Ok ts ->
  nth_error s i = Some (VStr t) ->
  exists t', parse t = Some t' /\ nth_error ts i = Some (VTime t').
Proof.
  induction s as [|v s IH]; intros ts i t H Hi; [destruct i; discriminate|].
  simpl in H. destruct (convert parse v) as [c|] eqn:C; [|discriminate].
  destruct (to_datetime_raise parse s) as [ts'|] eqn:T; [|discriminate].
  simpl in H. inversion H; subst ts; clear H.
  destruct i as [|i]; simpl in *.
  - inversion Hi; subst v. simpl in C.
    destruct (parse t) as [t'|]; [|discriminate]. inversion C. eauto.
  - eapply IH; eauto.
Qed.

(** A table the extended analyzer returns for a text with records has one
    row per record, in the order of the lines; in each row the timestamp
    is the parsed timestamp of the record, and for status, station, CUI,
    address, operator, record kind and the F-TICKS fields other than the
    realm the cell is the text of the record, and null where the record
    has none; no message is shown. *)
Theorem parse_table parse input st df st' :
  parse_eduroam_log parse input st = (Ok df, st') ->
  collect (Py.split Py.newline (Py.strip input)) [] <> [] ->
  let records := collect (Py.split Py.newline (Py.strip input)) [] in
  nrows df = length records /\
  messages st' = messages st /\
  (forall i d k,
     nth_error records i = Some d ->
     In k ["status"; "stationid"; "cui"; "ip"; "operator"; "log_type";
           "viscountry"; "visinst"; "csi"; "result"] ->
     (forall v, cell d k = VStr v -> cell (row df i) k = VStr v) /\
     (isna (cell d k) = true -> isna (cell (row df i) k) = true)) /\
  (forall i d t,
     nth_error records i = Some d ->
     dict_get d "timestamp" = Some (VStr t) ->
     exists t', parse t = Some t' /\ cell (row df i) "timestamp" = VTime t').
Proof.
  intros H N records. unfold parse_eduroam_log in H. fold records in H.
  assert (N' : records <> []) by exact N.
  destruct records as [|d0 ds] eqn:R; [congruence|]. rewrite <- R in *.
  clear N N'. unfold mbind, lift in H.
  destruct (getitem (from_records records) "timestamp") as [ts0|] eqn:G;
    [|discriminate].
  destruct (to_datetime_raise parse ts0) as [ts|] eqn:T; [|discriminate].
  apply getitem_from_records in G. subst ts0.
  set (df0 := setitem (from_records records) "timestamp" ts) in *.
  pose proof (enrich_messages df0 st) as Hm. rewrite H in Hm.
  destruct (enrich_ok _ _ _ _ H)
    as (user & from_inst & to_inst & ip & status & _ & _ & _ & _ & _ & ->).
  split; [reflexivity|]. split; [exact Hm|]. split.
  - intros i d k Hd Hk.
    match goal with
    | |- (forall v, _ -> cell ?r k = _) /\ _ =>
        assert (X : cell r k = cell d k);
          [|rewrite X; split; [intros v E; exact E | intros E; exact E]]
    end.
    transitivity (cell (row df0 i) k).
    + apply cell_row_of_getitem. unfold enriched. cbv zeta.
      simpl in Hk.
      repeat (destruct Hk as [<-|Hk];
              [repeat (rewrite getitem_setitem;
                       cbn [String.eqb Ascii.eqb Bool.eqb]);
               reflexivity|]).
      destruct Hk.
    + unfold df0. rewrite cell_row_setitem.
      replace (String.eqb k "timestamp") with false.
      * now apply cell_row_from_records.
      * symmetry. apply String.eqb_neq. intros ->. simpl in Hk.
        repeat (destruct Hk as [Hk|Hk]; [discriminate Hk|]). exact Hk.
  - intros i d t Hd Ht.
    destruct (to_datetime_raise_nth parse _ ts i t T) as (t' & Hp & Hn).
    { rewrite nth_error_map, Hd. cbn [option_map]. unfold cell.
      rewrite Ht. reflexivity. }
    exists t'. split; [exact Hp|].
    transitivity (cell (row df0 i) "timestamp").
    + apply cell_row_of_getitem. unfold enriched. cbv zeta.
      repeat (rewrite getitem_setitem; cbn [String.eqb Ascii.eqb Bool.eqb]).
      reflexivity.
    + unfold df0. rewrite cell_row_setitem.
      cbn [String.eqb Ascii.eqb Bool.eqb].
      now rewrite nth_as_error, Hn.
Qed.

Lemma parse_table_witness :
  let input := Examples.access_line ++ Examples.nl ++ Examples.fticks_line in
  let run := parse_eduroam_log Strptime.strptime input Examples.still in
  let df := Examples.from_ok (fst run) in
  let records := collect (Py.split Py.newline (Py.strip input)) [] in
  run = (Ok df, snd run) /\ records <> [] /\
  nth_error records 0 = Some Records.access_dict /\
  dict_get Records.access_dict "timestamp" =
    Some (VStr "Thu Jul 25 09:03:00 2024") /\
  nrows df = length records /\
  messages (snd run) = messages Examples.still /\
  cell (row df 0) "ip" = VStr "10.0.0.5" /\
  isna (cell (row df 0) "cui") = true /\
  exists t', Strptime.strptime "Thu Jul 25 09:03:00 2024" = Some t' /\
             cell (row df 0) "timestamp" = VTime t'.
Proof.
  intros input run df records.
  assert (H1 : run = (Ok df, snd run)) by (vm_compute; reflexivity).
  assert (H2 : records <> []) by (vm_compute; discriminate).
  assert (H3 : nth_error records 0 = Some Records.access_dict)
    by (vm_compute; reflexivity).
  assert (H4 : dict_get Records.access_dict "timestamp" =
               Some (VStr "Thu Jul 25 09:03:00 2024")) by reflexivity.
  split; [exact H1|]. split; [exact H2|]. split; [exact H3|].
  split; [exact H4|].
  destruct (parse_table Strptime.strptime input Examples.still df (snd run)
              H1 H2) as (A & B & C & D).
  split; [exact A|]. split; [exact B|].
  split; [|split].
  - apply (proj1 (C 0 Records.access_dict "ip" H3 ltac:(simpl; tauto))).
    reflexivity.
  - apply (proj2 (C 0 Records.access_dict "cui" H3 ltac:(simpl; tauto))).
    reflexivity.
  - exact (D 0 Records.access_dict _ H3 H4).
Defined.

End ExtendedRuns.

(** ** The domain filter of the dashboard *)

Module AppFacts.

Import Re ReFacts Pandas Captured CapturedFacts App.

Lemma split_head_plain sep : forall s,
  exists w ws, Py.split sep s = w :: ws /\ all_in (not_char sep) w /\
               (Py.contains (String sep "") s = true -> ws <> []) /\
               Forall (all_in (not_char sep)) ws.
Proof.
  induction s as [|a s IH]; simpl.
  - exists EmptyString, []. repeat split; auto. discriminate.
  - destruct IH as (w & ws & E & Hw & Hc & Hws).
    destruct (Ascii.eqb a sep) eqn:Ea.
    + exists EmptyString, (w :: ws). rewrite E.
      split; [reflexivity|]. split; [reflexivity|].
      split; [intros _; discriminate | now constructor].
    + rewrite E. exists (String a w), ws. repeat split; auto.
      * unfold all_in, not_char in *. simpl. now rewrite Ea, Hw.
      * intros C. apply Hc. rewrite Ascii.eqb_sym in Ea.
        cbn [Py.contains Py.startswith] in C. rewrite Ea in C.
        exact C.
Qed.

Lemma all_in_lstrip p : forall s, all_in p s -> all_in p (Py.lstrip s).
Proof.
  induction s as [|a s IH]; intros H; simpl; [exact H|].
  destruct (Py.is_space a); [|exact H].
  apply IH. unfold all_in in *. simpl in H. apply andb_prop in H. tauto.
Qed.

Lemma all_in_rstrip p : forall s, all_in p s -> all_in p (Py.rstrip s).
Proof.
  induction s as [|a s IH]; intros H; simpl; [exact H|].
  unfold all_in in H. simpl in H. apply andb_prop in H. destruct H as [Ha Hs].
  specialize (IH Hs).
  destruct (Py.rstrip s) as [|b t].
  - destruct (Py.is_space a); [reflexivity|].
    unfold all_in. simpl. now rewrite Ha.
  - unfold all_in in *. simpl in *. now rewrite Ha.
Qed.

Lemma to_lower_at a : Py.to_lower a = "@"%char -> a = "@"%char.
Proof.
  assert (H : forallb (fun a => implb (Ascii.eqb (Py.to_lower a) "@")
                                      (Ascii.eqb a "@")) all_ascii = true)
    by (vm_compute; reflexivity).
  rewrite forallb_forall in H. specialize (H a (all_ascii_complete a)).
  intros E. rewrite E in H. simpl in H. now apply Ascii.eqb_eq.
Qed.

Lemma all_in_lower : forall s,
  all_in (not_char "@") s -> all_in (not_char "@") (Py.lower s).
Proof.
  induction s as [|a s IH]; intros H; simpl; [exact H|].
  unfold all_in, not_char in *. simpl in *.
  apply andb_prop in H. destruct H as [Ha Hs]. rewrite (IH Hs), andb_true_r.
  apply negb_true_iff. apply negb_true_iff in Ha.
  destruct (Ascii.eqb (Py.to_lower a) "@") eqn:E; [|reflexivity].
  apply Ascii.eqb_eq, to_lower_at in E. subst a. discriminate Ha.
Qed.

Lemma to_lower_idem a : Py.to_lower (Py.to_lower a) = Py.to_lower a.
Proof.
  assert (H : forallb (fun a => Ascii.eqb (Py.to_lower (Py.to_lower a))
                                          (Py.to_lower a)) all_ascii = true)
    by (vm_compute; reflexivity).
  rewrite forallb_forall in H. apply Ascii.eqb_eq, H, all_ascii_complete.
Qed.

Lemma lower_idem : forall s, Py.lower (Py.lower s) = Py.lower s.
Proof.
  induction s as [|a s IH]; simpl; [reflexivity|].
  now rewrite to_lower_idem, IH.
Qed.

Lemma extract_domain_never_index email :
  (forall e, email = VStr e -> extract_domain email <> IndexError) /\
  (forall e, email = VStr e -> extract_domain email <> TypeError).
Proof.
  split; intros e ->; unfold extract_domain; cbn [isna].
  - destruct (split_head_plain "@" e) as (w & ws & E & _ & Hc & _).
    rewrite E. destruct (Py.contains "@" e); [|discriminate].
    destruct ws; [now destruct (Hc eq_refl) | discriminate].
  - destruct (Py.contains "@" e); [|discriminate].
    destruct (Py.split "@" e) as [|? [|? ?]]; discriminate.
Qed.

(** [extract_domain] never subscripts out of range; it returns [None]
    exactly for a null user name and for a string without ['@'], and the
    domain it returns otherwise holds no ['@'] and is in lower case
    already. *)
Theorem extract_domain_result email :
  extract_domain email <> IndexError /\
  (extract_domain email = Returned VNone <->
   isna email = true \/
   exists e, email = VStr e /\ Py.contains "@" e = false) /\
  (forall d, extract_domain email = Returned (VStr d) ->
     all_in (not_char "@") d /\ Py.lower d = d).
Proof.
  destruct email as [| |e| | | |];
    try (split; [discriminate|]; split;
         [split; [intros _; left; reflexivity | reflexivity] | discriminate]);
    try (split; [discriminate|]; split;
         [split; [discriminate | intros [H|(e & H & _)]; discriminate H]
         | discriminate]).
  unfold extract_domain. cbn [isna].
  destruct (split_head_plain "@" e) as (w & ws & E & _ & Hc & Hws).
  rewrite E.
  destruct (Py.contains "@" e) eqn:C.
  - destruct ws as [|domain ws]; [now destruct (Hc eq_refl)|].
    split; [discriminate|]. split.
    + split; [discriminate|].
      intros [H|(e' & H & C')]; [discriminate H|].
      inversion H; subst e'. congruence.
    + intros d H. inversion H; subst d. split.
      * apply all_in_lower, all_in_rstrip, all_in_lstrip. now inversion Hws.
      * apply lower_idem.
  - split; [discriminate|]. split.
    + split; [|reflexivity]. intros _. right. exists e. auto.
    + discriminate.
Qed.

Lemma extract_domain_result_witness :
  extract_domain (VStr "Alice@IITD.ac.in ") = Returned (VStr "iitd.ac.in") /\
  all_in (not_char "@") "iitd.ac.in" /\ Py.lower "iitd.ac.in" = "iitd.ac.in".
Proof.
  assert (H : extract_domain (VStr "Alice@IITD.ac.in ") =
              Returned (VStr "iitd.ac.in")) by (vm_compute; reflexivity).
  split; [exact H|].
  exact (proj2 (proj2 (extract_domain_result (VStr "Alice@IITD.ac.in ")))
           "iitd.ac.in" H).
Defined.

(** *** Line 20: the domains of a table of the minimal analyzer *)

(** On every row of an Access table the minimal analyzer returns,
    [extract_domain] returns for the user name: the cell is a string or
    [None], so neither the test ['@' in email] nor the subscript raises. *)
Theorem domain_of_usernames parse stream df_access df_fticks d :
  LogGenerator.extract_summary_tables_from_stream parse stream =
    Ok (df_access, df_fticks) ->
  In d (to_records df_access) ->
  exists v, extract_domain (cell d "Username") = Returned v.
Proof.
  unfold LogGenerator.extract_summary_tables_from_stream.
  rewrite LogGeneratorFacts.classify_spec. cbn [app]. intros H Hd.
  destruct (getitem (from_records
              (LogGenerator.records_of LogGenerator.access_record stream))
              "Timestamp") as [ts|] eqn:Ea; [|discriminate].
  cbn [bind] in H.
  destruct (getitem (from_records
              (LogGenerator.records_of LogGenerator.fticks_record stream))
              "Timestamp") as [ts'|] eqn:Ef; [|discriminate].
  cbn [bind] in H. inversion H; subst; clear H.
  destruct (PandasFacts.in_to_records _ _ Hd) as (i & Hi & ->).
  rewrite PandasFacts.cell_row_setitem. cbn [String.eqb Ascii.eqb Bool.eqb].
  change (i < length (LogGenerator.records_of LogGenerator.access_record stream))
    in Hi.
  destruct (nth_error (LogGenerator.records_of LogGenerator.access_record stream) i)
    as [r|] eqn:Er; [|apply nth_error_None in Er; lia].
  rewrite (PandasFacts.cell_row_from_records _ _ _ _ Er).
  destruct (MinimalRuns.in_records_of _ _ _ (nth_error_In _ _ Er))
    as (line & _ & El).
  unfold LogGenerator.access_record in El.
  destruct (re_search LogGenerator.access_pattern line) as [m|];
    inversion El; subst r.
  change (cell _ "Username") with (of_opt (group m "user")).
  destruct (group m "user") as [u|]; cbn [of_opt].
  - destruct (extract_domain (VStr u)) as [v| |] eqn:E.
    + now exists v.
    + now destruct (proj1 (extract_domain_never_index (VStr u)) u eq_refl).
    + now destruct (proj2 (extract_domain_never_index (VStr u)) u eq_refl).
  - exists VNone. reflexivity.
Qed.

Lemma domain_of_usernames_witness :
  let stream := [Examples.access_line; Examples.fticks_line] in
  let run := LogGenerator.extract_summary_tables_from_stream
               Strptime.strptime stream in
  let df_access := match run with Ok (a, _) => a | Raise _ => empty_frame end in
  let df_fticks := match run with Ok (_, f) => f | Raise _ => empty_frame end in
  run = Ok (df_access, df_fticks) /\
  In (row df_access 0) (to_records df_access) /\
  exists v, extract_domain (cell (row df_access 0) "Username") = Returned v.
Proof.
  intros stream run df_access df_fticks.
  assert (H1 : run = Ok (df_access, df_fticks)) by (vm_compute; reflexivity).
  assert (H2 : In (row df_access 0) (to_records df_access))
    by (vm_compute; left; reflexivity).
  split; [exact H1|]. split; [exact H2|].
  exact (domain_of_usernames Strptime.strptime stream df_access df_fticks _
           H1 H2).
Defined.

End AppFacts.

(** ** The counters of the extended analyzer *)

Module ExtendedTotals.

Import Re ReFacts Pandas PandasFacts Captured CapturedFacts Ritik RitikFacts
       ExtendedRuns.

Lemma access_record_status line d :
  access_record line = Some d ->
  (cell d "status" = VStr "Accept" \/ cell d "status" = VStr "Reject") /\
  cell d "log_type" = VStr "access".
Proof.
  unfold access_record, re_match. intros H.
  destruct (match_at access_pattern line line) as [m|] eqn:E; [|discriminate].
  inversion H; subst d; clear H.
  pose proof (match_at_sets _ _ _ E) as S.
  pose proof (match_at_values _ _ _ _ _ extended_access_groups E) as C.
  destruct (group_value _ m _ "status" S C) as (st & Es & _ & Ps & _);
    [vm_compute; tauto|].
  unfold cell.
  cbn [groupdict access_groups map dict_set dict_get
       String.eqb Ascii.eqb Bool.eqb].
  rewrite Es. cbn [of_opt]. split; [|reflexivity].
  destruct (Ps eq_refl) as [-> | ->]; auto.
Qed.

Lemma collect_origin lines :
  Forall (fun d => (exists line, access_record line = Some d) \/
                   is_fticks_record d)
         (collect lines []).
Proof.
  rewrite collect_spec. simpl.
  induction lines as [|line rest IH]; simpl; [constructor|].
  apply Forall_app. split; [|exact IH].
  unfold Lines.records_of_line.
  destruct (Py.strip line) as [|a l]; [constructor|].
  unfold append.
  assert (F : forall ds, Forall (fun d => (exists line, access_record line = Some d)
                                      \/ is_fticks_record d) ds ->
              Forall (fun d => (exists line, access_record line = Some d)
                               \/ is_fticks_record d)
                (match fticks_record (String a l) with
                 | Some d => ds ++ [d]
                 | None => ds
                 end)%list).
  { intros ds Hds. unfold fticks_record.
    destruct (re_match fticks_pattern (String a l)) as [m|]; [|exact Hds].
    apply Forall_app. split; [exact Hds|].
    constructor; [|constructor]. right. eexists. reflexivity. }
  apply F.
  destruct (access_record (String a l)) as [d|] eqn:Ea; simpl.
  - constructor; [|constructor]. left. eauto.
  - constructor.
Qed.

Lemma partition_filters (A : Type) (P Q R : A -> bool) l :
  (forall d, In d l ->
     (P d = true /\ Q d = false /\ R d = false) \/
     (P d = false /\ Q d = true /\ R d = false) \/
     (P d = false /\ Q d = false /\ R d = true)) ->
  length l = length (filter P l) + length (filter Q l) + length (filter R l).
Proof.
  induction l as [|a l IH]; intros H; simpl; [reflexivity|].
  rewrite (IH (fun d Hd => H d (or_intror Hd))).
  destruct (H a (or_introl eq_refl))
    as [(-> & -> & ->)|[(-> & -> & ->)|(-> & -> & ->)]]; simpl; lia.
Qed.

(** In the analysis of a table the extended analyzer returns, every
    connection is counted once: as successful, as failed, or as the record
    of an F-TICKS line, which is neither. *)
Theorem connections_partition parse input st df st' a :
  parse_eduroam_log parse input st = (Ok df, st') ->
  analyze_movements df = Ok (Some a) ->
  total_connections a =
  successful_connections a + failed_connections a
  + length (filter (fun d => eq_str (cell d "log_type") "fticks")
                   (to_records df)).
Proof.
  intros Hp Ha.
  destruct (parse_ok _ _ _ _ _ Hp)
    as [[_ ->] | (df0 & from_inst & to_inst & ip & Hrow & Hn & Hu0 & Hs0 & Hdf)];
    [discriminate|].
  pose proof (collect_origin (Py.split Py.newline (Py.strip input))) as Or.
  set (records := collect (Py.split Py.newline (Py.strip input)) []) in *.
  set (status := map (fun d => cell d "status") records) in *.
  assert (Nr : nrows df = length records) by (rewrite Hdf; exact Hn).
  assert (Gs : getitem df "status" = Ok status)
    by (rewrite Hdf; column; exact Hs0).
  assert (Ls : length status = nrows df)
    by (unfold status; rewrite length_map; auto).
  set (recs := to_records df).
  assert (K : forall d, In d recs ->
    (eq_str (cell d "status") "Accept" = true /\
     eq_str (cell d "status") "Reject" = false /\
     eq_str (cell d "log_type") "fticks" = false) \/
    (eq_str (cell d "status") "Accept" = false /\
     eq_str (cell d "status") "Reject" = true /\
     eq_str (cell d "log_type") "fticks" = false) \/
    (eq_str (cell d "status") "Accept" = false /\
     eq_str (cell d "status") "Reject" = false /\
     eq_str (cell d "log_type") "fticks" = true)).
  { intros d Hd. destruct (in_to_records _ _ Hd) as (i & Hi & ->).
    rewrite Nr in Hi.
    destruct (nth_error records i) as [di|] eqn:Ei;
      [|apply nth_error_None in Ei; lia].
    assert (O := proj1 (Forall_forall _ _) Or di (nth_error_In _ _ Ei)).
    rewrite Hdf, !cell_row_enriched by (simpl; auto).
    rewrite !(Hrow i di) by (auto; discriminate).
    destruct O as [(line & O)|O].
    - destruct (access_record_status _ _ O) as [[-> | ->] ->]; auto.
    - destruct (fticks_record_cells _ O) as (-> & -> & _). auto. }
  unfold analyze_movements in Ha.
  destruct (empty df); [discriminate|].
  destruct (getitem df "user") as [user|]; [cbn [bind] in Ha | discriminate].
  destruct (getitem df "user_type") as [ut|]; [cbn [bind] in Ha | discriminate].
  rewrite Gs in Ha. cbn [bind] in Ha.
  destruct (getitem df "is_roaming") as [ir|]; [cbn [bind] in Ha | discriminate].
  destruct (getitem df "home_country") as [hc|]; [cbn [bind] in Ha | discriminate].
  destruct (movements df (unique user)) as [ms|]; [cbn [bind] in Ha | discriminate].
  inversion Ha; subst a; clear Ha.
  cbn [total_connections successful_connections failed_connections].
  rewrite (count_rows df "status" status "Accept" Gs Ls),
          (count_rows df "status" status "Reject" Gs Ls).
  rewrite <- (length_to_records df). fold recs.
  now apply partition_filters.
Qed.

Lemma connections_partition_witness :
  let run :=
    parse_eduroam_log Strptime.strptime
      (Examples.access_line ++ Examples.nl ++ Examples.fticks_line)
      Examples.still in
  let df := Examples.from_ok (fst run) in
  let a := mkAnalysis 2 1 1 2 1 0 1 2
             [("alice@iitd.ac.in", mkUserSummary 1 1 false 0)] in
  run = (Ok df, snd run) /\
  analyze_movements df = Ok (Some a) /\
  total_connections a =
  successful_connections a + failed_connections a
  + length (filter (fun d => eq_str (cell d "log_type") "fticks")
                   (to_records df)).
Proof.
  intros run df a.
  assert (H1 : run = (Ok df, snd run)) by (vm_compute; reflexivity).
  assert (H2 : analyze_movements df = Ok (Some a)) by (vm_compute; reflexivity).
  split; [exact H1|]. split; [exact H2|].
  exact (connections_partition Strptime.strptime _ _ _ _ _ H1 H2).
Defined.

(** *** Per-user summaries *)

Lemma count_mask_and_le : forall m x, count (mask_and m x) <= count m.
Proof.
  unfold count, mask_and.
  induction m as [|b m IH]; intros [|c x]; simpl; try lia.
  specialize (IH x). destruct b, c; simpl; lia.
Qed.

Lemma existsb_count l : existsb (fun b => b) l = true <-> 0 < count l.
Proof.
  unfold count. induction l as [|b l IH].
  - simpl. split; [discriminate | intros H; inversion H].
  - destruct b; cbn [existsb filter orb length].
    + split; [intros _; apply Nat.lt_0_succ | reflexivity].
    + exact IH.
Qed.

Lemma movements_fields df : forall us ms u s,
  movements df us = Ok ms -> In (u, s) ms ->
  exists m st r,
    s = mkUserSummary (count m) (count (mask_and m st))
          (existsb (fun b => b) (mask_and m r)) (count (mask_and m r)).
Proof.
  induction us as [|v us IH]; intros ms u s H Hin; simpl in H.
  - inversion H; subst. destruct Hin.
  - destruct (eq_str v "unknown"); [now apply (IH ms u s)|].
    destruct (summarize_user df (py_str v)) as [sv|] eqn:Es; [|discriminate].
    cbn [bind] in H.
    destruct (movements df us) as [ms'|] eqn:Em; [|discriminate].
    cbn [bind] in H. inversion H; subst ms; clear H.
    destruct Hin as [Hin|Hin]; [|now apply (IH ms' u s)].
    inversion Hin; subst u s; clear Hin.
    unfold summarize_user in Es.
    repeat match type of Es with
    | context [getitem df ?k] =>
        destruct (getitem df k); [cbn [bind] in Es | discriminate]
    end.
    inversion Es. eauto.
Qed.

Lemma movements_named df : forall us ms u s,
  movements df us = Ok ms -> In (u, s) ms -> u <> "unknown".
Proof.
  induction us as [|v us IH]; intros ms u s H Hin; simpl in H.
  - inversion H; subst. destruct Hin.
  - destruct (eq_str v "unknown") eqn:E; [now apply (IH ms u s)|].
    destruct (summarize_user df (py_str v)) as [sv|]; [|discriminate].
    cbn [bind] in H.
    destruct (movements df us) as [ms'|] eqn:Em; [|discriminate].
    cbn [bind] in H. inversion H; subst ms; clear H.
    destruct Hin as [Hin|Hin]; [|now apply (IH ms' u s)].
    inversion Hin; subst. now apply py_str_not_unknown.
Qed.

(** In the analysis of a table the extended analyzer returns, a user with
    a summary is not 'unknown'; the successful connections and the roaming
    sessions of the summary are among its connections, and the roaming
    flag of the user is set exactly when there is a roaming session. *)
Theorem user_summary_consistent parse input st0 df st' a u s :
  parse_eduroam_log parse input st0 = (Ok df, st') ->
  analyze_movements df = Ok (Some a) ->
  In (u, s) (user_movements a) ->
  u <> "unknown" /\
  u_successful_connections s <= u_total_connections s /\
  u_roaming_sessions s <= u_total_connections s /\
  (u_is_roaming s = true <-> 0 < u_roaming_sessions s).
Proof.
  intros _ Ha Hin. unfold analyze_movements in Ha.
  destruct (empty df); [discriminate|].
  repeat match type of Ha with
  | context [getitem df ?k] =>
      destruct (getitem df k); [cbn [bind] in Ha | discriminate]
  end.
  match type of Ha with
  | context [movements df ?us] =>
      destruct (movements df us) as [ms|] eqn:Em; [cbn [bind] in Ha | discriminate]
  end.
  inversion Ha; subst a; clear Ha. cbn [user_movements] in Hin.
  split; [eapply movements_named; eauto|].
  destruct (movements_fields _ _ _ _ _ Em Hin) as (m & st & r & ->).
  cbn [u_successful_connections u_total_connections u_roaming_sessions
       u_is_roaming].
  split; [apply count_mask_and_le|]. split; [apply count_mask_and_le|].
  apply existsb_count.
Qed.

Lemma user_summary_consistent_witness :
  let run :=
    parse_eduroam_log Strptime.strptime
      (Examples.access_line ++ Examples.nl ++ Examples.fticks_line)
      Examples.still in
  let df := Examples.from_ok (fst run) in
  let s := mkUserSummary 1 1 false 0 in
  let a := mkAnalysis 2 1 1 2 1 0 1 2 [("alice@iitd.ac.in", s)] in
  run = (Ok df, snd run) /\
  analyze_movements df = Ok (Some a) /\
  In ("alice@iitd.ac.in", s) (user_movements a) /\
  "alice@iitd.ac.in" <> "unknown" /\
  u_successful_connections s <= u_total_connections s /\
  u_roaming_sessions s <= u_total_connections s /\
  (u_is_roaming s = true <-> 0 < u_roaming_sessions s).
Proof.
  intros run df s a.
  assert (H0 : run = (Ok df, snd run)) by (vm_compute; reflexivity).
  assert (H1 : analyze_movements df = Ok (Some a)) by (vm_compute; reflexivity).
  assert (H2 : In ("alice@iitd.ac.in", s) (user_movements a))
    by (left; reflexivity).
  split; [exact H0|]. split; [exact H1|]. split; [exact H2|].
  exact (user_summary_consistent Strptime.strptime _ _ df _ a
           "alice@iitd.ac.in" s H0 H1 H2).
Defined.

End ExtendedTotals.

(** ** The realm of an Access record *)

Module ExtendedRealm.

Import Re ReFacts Pandas PandasFacts Ritik RitikFacts ExtendedRuns.

(** The table of a run that returns one with a row. *)
Lemma parse_run parse input st df st' d :
  parse_eduroam_log parse input st = (Ok df, st') ->
  In d (to_records df) ->
  let records := collect (Py.split Py.newline (Py.strip input)) [] in
  exists ts,
    df = enriched (setitem (from_records records) "timestamp" ts)
           (map (fun r => cell r "user") records)
           (map (fun r => cell r "from_inst") records)
           (map (fun r => cell r "to_inst") records)
           (map (fun r => cell r "ip") records)
           (map (fun r => cell r "status") records) (gen st).
Proof.
  intros H Hd records. unfold parse_eduroam_log in H. fold records in H.
  destruct records as [|d0 ds] eqn:R.
  - unfold mbind, st_error, ret in H. inversion H; subst. destruct Hd.
  - rewrite <- R in *. unfold mbind, lift in H.
    destruct (getitem (from_records records) "timestamp") as [ts0|];
      [|discriminate].
    destruct (to_datetime_raise parse ts0) as [ts|]; [|discriminate].
    destruct (enrich_ok _ _ _ _ H)
      as (user & from_inst & to_inst & ip & status
          & Hu & Hf & Ht & Hi & Hs & ->).
    rewrite getitem_setitem in Hu, Hf, Ht, Hi, Hs.
    cbn [String.eqb Ascii.eqb Bool.eqb] in Hu, Hf, Ht, Hi, Hs.
    apply getitem_from_records in Hu, Hf, Ht, Hi, Hs. subst.
    exists ts. reflexivity.
Qed.

Lemma get_getitem df k default :
  get df k default =
  match getitem df k with Ok s => s | Raise _ => default end.
Proof. unfold get, getitem. destruct (assoc k (columns df)); reflexivity. Qed.

Lemma access_record_no_realm d :
  is_access_record d ->
  mem "realm" (map fst d) = false /\ cell d "realm" = VNaN.
Proof. intros (m & ->). split; reflexivity. Qed.

Lemma fticks_record_realm d :
  is_fticks_record d -> dict_get d "realm" <> None.
Proof. intros (m & ->). discriminate. Qed.

Lemma record_kind lines d :
  In d (collect lines []) ->
  (cell d "log_type" = VStr "access" -> is_access_record d) /\
  (cell d "log_type" = VStr "fticks" -> is_fticks_record d).
Proof.
  intros Hd.
  pose proof (collect_shape lines [] (Forall_nil _)) as Sh.
  destruct (proj1 (Forall_forall _ _) Sh d Hd) as [A|F].
  - split; [auto|]. rewrite (access_record_cells _ A). discriminate.
  - split; [|auto]. destruct (fticks_record_cells _ F) as (-> & _).
    discriminate.
Qed.

(** The kind of row [i] is the kind of record [i]. *)
Lemma row_kind records ts user from_inst to_inst ip status g i d :
  nth_error records i = Some d ->
  cell (row (enriched (setitem (from_records records) "timestamp" ts)
                user from_inst to_inst ip status g) i) "log_type" =
  cell d "log_type".
Proof.
  intros Hd. rewrite cell_row_enriched by (simpl; auto).
  rewrite cell_row_setitem. cbn [String.eqb Ascii.eqb Bool.eqb].
  now apply cell_row_from_records.
Qed.

Lemma nth_error_fillna v s i :
  nth_error (fillna v s) i =
  option_map (fun x => if isna x then v else x) (nth_error s i).
Proof. unfold fillna. apply nth_error_map. Qed.

(** In a table with the record of an F-TICKS line, the realm of every
    Access record is empty, whatever its user name: the [realm] column of
    the F-TICKS records takes the place of the realms of the user names.
    The home country of the Access record is then 'Unknown' and it is not
    flagged as roaming. *)
Theorem mixed_table_realm parse input st df st' f d :
  parse_eduroam_log parse input st = (Ok df, st') ->
  In f (to_records df) -> cell f "log_type" = VStr "fticks" ->
  In d (to_records df) -> cell d "log_type" = VStr "access" ->
  cell d "realm" = VStr "" /\
  cell d "home_country" = VStr "Unknown" /\
  cell d "is_roaming" <> VBool true.
Proof.
  intros H Hf Kf Hd Kd.
  destruct (parse_run _ _ _ _ _ _ H Hd) as (ts & Hdf).
  set (records := collect (Py.split Py.newline (Py.strip input)) []) in *.
  assert (Nr : nrows df = length records) by (rewrite Hdf; reflexivity).
  destruct (in_to_records _ _ Hf) as (j & Hj & ->).
  destruct (in_to_records _ _ Hd) as (i & Hi & ->).
  rewrite Nr in Hi, Hj.
  destruct (nth_error records j) as [dj|] eqn:Ej;
    [|apply nth_error_None in Ej; lia].
  destruct (nth_error records i) as [di|] eqn:Ei;
    [|apply nth_error_None in Ei; lia].
  rewrite Hdf in Kf, Kd.
  rewrite (row_kind _ _ _ _ _ _ _ _ _ _ Ej) in Kf.
  rewrite (row_kind _ _ _ _ _ _ _ _ _ _ Ei) in Kd.
  apply (proj2 (record_kind _ _ (nth_error_In _ _ Ej))) in Kf.
  apply (proj1 (record_kind _ _ (nth_error_In _ _ Ei))) in Kd.
  assert (G : getitem (from_records records) "realm" =
              Ok (map (fun r => cell r "realm") records)).
  { apply (getitem_from_records_present records dj);
      [eapply nth_error_In; eauto | now apply fticks_record_realm]. }
  assert (R : getitem df "realm" =
              Ok (fillna (VStr "") (map (fun r => cell r "realm") records))).
  { rewrite Hdf. unfold enriched. cbv zeta.
    repeat (rewrite getitem_setitem; cbn [String.eqb Ascii.eqb Bool.eqb]).
    rewrite get_getitem, getitem_setitem.
    cbn [String.eqb Ascii.eqb Bool.eqb]. rewrite G. reflexivity. }
  assert (Rc : nth_error
                 (fillna (VStr "") (map (fun r => cell r "realm") records)) i
               = Some (VStr "")).
  { rewrite nth_error_fillna, nth_error_map, Ei. cbn [option_map].
    rewrite (proj2 (access_record_no_realm _ Kd)). reflexivity. }
  assert (Hh : getitem df "home_country" =
               Ok (map (fun r => VStr (get_country_from_realm r))
                     (fillna (VStr "")
                        (map (fun r => cell r "realm") records)))).
  { rewrite Hdf. unfold enriched. cbv zeta.
    repeat (rewrite getitem_setitem; cbn [String.eqb Ascii.eqb Bool.eqb]).
    rewrite get_getitem, getitem_setitem.
    cbn [String.eqb Ascii.eqb Bool.eqb]. rewrite G. reflexivity. }
  assert (C1 : cell (row df i) "realm" = VStr "").
  { rewrite (cell_row_getitem _ _ _ _ R), nth_as_error, Rc. reflexivity. }
  assert (C2 : cell (row df i) "home_country" = VStr "Unknown").
  { rewrite (cell_row_getitem _ _ _ _ Hh), nth_as_error, nth_error_map, Rc.
    reflexivity. }
  split; [exact C1|]. split; [exact C2|].
  assert (Hr : exists visiting,
             getitem df "is_roaming" =
             Ok (zip_with (fun h v => VBool (roaming (str_of h) (str_of v)))
                   (map (fun r => VStr (get_country_from_realm r))
                      (fillna (VStr "")
                         (map (fun r => cell r "realm") records)))
                   visiting)).
  { eexists. rewrite Hdf. unfold enriched. cbv zeta.
    repeat (rewrite getitem_setitem; cbn [String.eqb Ascii.eqb Bool.eqb]).
    rewrite get_getitem, getitem_setitem.
    cbn [String.eqb Ascii.eqb Bool.eqb]. rewrite G. reflexivity. }
  destruct Hr as (visiting & Hr).
  rewrite (cell_row_getitem _ _ _ _ Hr), nth_as_error, nth_error_zip_with,
          nth_error_map, Rc.
  cbn [option_map]. destruct (nth_error visiting i) as [v|]; [|discriminate].
  unfold roaming.
  replace (get_country_from_realm (VStr "")) with "Unknown" by reflexivity.
  cbn [str_of py_str]. rewrite String.eqb_refl, andb_false_r. discriminate.
Qed.

Lemma mixed_table_realm_witness :
  let run :=
    parse_eduroam_log Strptime.strptime
      (Examples.access_line ++ Examples.nl ++ Examples.fticks_line)
      Examples.still in
  let df := Examples.from_ok (fst run) in
  run = (Ok df, snd run) /\
  In (row df 1) (to_records df) /\ cell (row df 1) "log_type" = VStr "fticks" /\
  In (row df 0) (to_records df) /\ cell (row df 0) "log_type" = VStr "access" /\
  cell (row df 0) "user" = VStr "alice@iitd.ac.in" /\
  cell (row df 0) "realm" = VStr "" /\
  cell (row df 0) "home_country" = VStr "Unknown" /\
  cell (row df 0) "is_roaming" <> VBool true.
Proof.
  intros run df.
  assert (H1 : run = (Ok df, snd run)) by (vm_compute; reflexivity).
  assert (H2 : In (row df 1) (to_records df))
    by (vm_compute; right; left; reflexivity).
  assert (H3 : cell (row df 1) "log_type" = VStr "fticks")
    by (vm_compute; reflexivity).
  assert (H4 : In (row df 0) (to_records df))
    by (vm_compute; left; reflexivity).
  assert (H5 : cell (row df 0) "log_type" = VStr "access")
    by (vm_compute; reflexivity).
  assert (H6 : cell (row df 0) "user" = VStr "alice@iitd.ac.in")
    by (vm_compute; reflexivity).
  split; [exact H1|]. split; [exact H2|]. split; [exact H3|].
  split; [exact H4|]. split; [exact H5|]. split; [exact H6|].
  exact (mixed_table_realm Strptime.strptime _ _ _ _ _ _ H1 H2 H3 H4 H5).
Defined.

(** In a table of Access records only, the realm of a record is the part
    of its user name between the first ['@'] and the second, if there is
    one, and empty when the user name has no ['@'] or is missing. *)
Theorem access_table_realm parse input st df st' d :
  parse_eduroam_log parse input st = (Ok df, st') ->
  (forall f, In f (to_records df) -> cell f "log_type" = VStr "access") ->
  In d (to_records df) ->
  cell d "realm" =
  (if isna (realm_of_user (cell d "user")) then VStr ""
   else realm_of_user (cell d "user")).
Proof.
  intros H Ha Hd.
  destruct (parse_run _ _ _ _ _ _ H Hd) as (ts & Hdf).
  set (records := collect (Py.split Py.newline (Py.strip input)) []) in *.
  assert (Nr : nrows df = length records) by (rewrite Hdf; reflexivity).
  assert (A : forall r, In r records -> mem "realm" (map fst r) = false).
  { intros r Hr. destruct (In_nth_error _ _ Hr) as (j & Ej).
    assert (Hj : j < length records) by (apply nth_error_Some; congruence).
    assert (Hrow : In (row df j) (to_records df)).
    { unfold to_records. apply in_map, in_seq. lia. }
    specialize (Ha _ Hrow). rewrite Hdf in Ha.
    rewrite (row_kind _ _ _ _ _ _ _ _ _ _ Ej) in Ha.
    apply access_record_no_realm.
    now apply (proj1 (record_kind _ _ Hr)). }
  destruct (in_to_records _ _ Hd) as (i & Hi & ->). rewrite Nr in Hi.
  destruct (nth_error records i) as [di|] eqn:Ei;
    [|apply nth_error_None in Ei; lia].
  assert (U : getitem df "user" =
              Ok (fillna (VStr "unknown")
                    (map (fun r => cell r "user") records)))
    by (rewrite Hdf; column).
  assert (R : getitem df "realm" =
              Ok (fillna (VStr "")
                    (map realm_of_user
                       (fillna (VStr "unknown")
                          (map (fun r => cell r "user") records))))).
  { rewrite Hdf. unfold enriched. cbv zeta.
    repeat (rewrite getitem_setitem; cbn [String.eqb Ascii.eqb Bool.eqb]).
    rewrite get_getitem, getitem_setitem.
    cbn [String.eqb Ascii.eqb Bool.eqb].
    rewrite (getitem_from_records_absent records "realm" A). reflexivity. }
  rewrite (cell_row_getitem _ _ _ _ R), (cell_row_getitem _ _ _ _ U).
  rewrite !nth_as_error, !nth_error_fillna, !nth_error_map, nth_error_fillna,
          nth_error_map, Ei.
  reflexivity.
Qed.

Lemma access_table_realm_witness :
  let run :=
    parse_eduroam_log Strptime.strptime Examples.access_line Examples.still in
  let df := Examples.from_ok (fst run) in
  run = (Ok df, snd run) /\
  (forall f, In f (to_records df) -> cell f "log_type" = VStr "access") /\
  In (row df 0) (to_records df) /\
  cell (row df 0) "realm" =
  (if isna (realm_of_user (cell (row df 0) "user")) then VStr ""
   else realm_of_user (cell (row df 0) "user")).
Proof.
  intros run df.
  assert (H1 : run = (Ok df, snd run)) by (vm_compute; reflexivity).
  assert (H2 : forall f, In f (to_records df) ->
                         cell f "log_type" = VStr "access").
  { intros f Hf. vm_compute in Hf. destruct Hf as [<-|[]].
    vm_compute. reflexivity. }
  assert (H3 : In (row df 0) (to_records df))
    by (vm_compute; left; reflexivity).
  split; [exact H1|]. split; [exact H2|]. split; [exact H3|].
  exact (access_table_realm Strptime.strptime _ _ _ _ _ H1 H2 H3).
Defined.

(** *** The enrichment of an F-TICKS record *)

Lemma fticks_record_blank d :
  is_fticks_record d ->
  cell d "from_inst" = VNaN /\ cell d "to_inst" = VNaN /\ cell d "ip" = VNaN.
Proof. intros (m & ->). repeat split; reflexivity. Qed.

Lemma nth_error_combine (A B : Type) : forall (l : list A) (l' : list B) i,
  nth_error (combine l l') i =
  match nth_error l i, nth_error l' i with
  | Some a, Some b => Some (a, b)
  | _, _ => None
  end.
Proof.
  induction l as [|a l IH]; intros [|b l'] [|i]; simpl; auto.
  destruct (nth_error l i); reflexivity.
Qed.

(** In a table the extended analyzer returns, the record of an F-TICKS
    line has the institutions 'unknown' and the visiting country
    'Unknown'; so it is flagged as roaming exactly when its realm gives a
    home country. *)
Theorem fticks_row_enrichment parse input st df st' d :
  parse_eduroam_log parse input st = (Ok df, st') ->
  In d (to_records df) -> cell d "log_type" = VStr "fticks" ->
  cell d "from_inst" = VStr "unknown" /\ cell d "to_inst" = VStr "unknown" /\
  cell d "visiting_country" = VStr "Unknown" /\
  cell d "is_roaming" =
    VBool (negb (eq_str (cell d "home_country") "Unknown")).
Proof.
  intros H Hd Kd.
  destruct (parse_run _ _ _ _ _ _ H Hd) as (ts & Hdf).
  set (records := collect (Py.split Py.newline (Py.strip input)) []) in *.
  assert (Nr : nrows df = length records) by (rewrite Hdf; reflexivity).
  destruct (in_to_records _ _ Hd) as (i & Hi & ->). rewrite Nr in Hi.
  destruct (nth_error records i) as [di|] eqn:Ei;
    [|apply nth_error_None in Ei; lia].
  rewrite Hdf in Kd. rewrite (row_kind _ _ _ _ _ _ _ _ _ _ Ei) in Kd.
  apply (proj2 (record_kind _ _ (nth_error_In _ _ Ei))) in Kd.
  destruct (fticks_record_blank _ Kd) as (Bf & Bt & Bi).
  assert (Gf : getitem df "from_inst" =
               Ok (fillna (VStr "unknown")
                     (map (fun r => cell r "from_inst") records)))
    by (rewrite Hdf; column).
  assert (Gt : getitem df "to_inst" =
               Ok (fillna (VStr "unknown")
                     (map (fun r => cell r "to_inst") records)))
    by (rewrite Hdf; column).
  assert (Gv : getitem df "visiting_country" =
               Ok (zip_with
                     (fun ft i => VStr (get_visiting_location (fst ft) (snd ft) i))
                     (combine
                        (fillna (VStr "unknown")
                           (map (fun r => cell r "from_inst") records))
                        (fillna (VStr "unknown")
                           (map (fun r => cell r "to_inst") records)))
                     (map (fun r => cell r "ip") records)))
    by (rewrite Hdf; column).
  assert (Gh : exists home, getitem df "home_country" = Ok home /\
             getitem df "is_roaming" =
             Ok (zip_with (fun h v => VBool (roaming (str_of h) (str_of v)))
                   home
                   (zip_with
                     (fun ft i => VStr (get_visiting_location (fst ft) (snd ft) i))
                     (combine
                        (fillna (VStr "unknown")
                           (map (fun r => cell r "from_inst") records))
                        (fillna (VStr "unknown")
                           (map (fun r => cell r "to_inst") records)))
                     (map (fun r => cell r "ip") records))) /\
             exists realm, home = map (fun r => VStr (get_country_from_realm r)) realm /\
                           length realm = length records).
  { eexists. split; [rewrite Hdf; column|]. split; [rewrite Hdf; column|].
    eexists. split; [reflexivity|].
    unfold fillna. rewrite length_map, get_getitem, getitem_setitem.
    cbn [String.eqb Ascii.eqb Bool.eqb].
    destruct (getitem (from_records records) "realm") as [r|] eqn:G.
    - apply getitem_from_records in G. subst r. now rewrite length_map.
    - now rewrite !length_map. }
  destruct Gh as (home & Gh & Gr & realm & -> & Lr).
  assert (Nf : nth_error (fillna (VStr "unknown")
                 (map (fun r => cell r "from_inst") records)) i =
               Some (VStr "unknown")).
  { rewrite nth_error_fillna, nth_error_map, Ei. cbn [option_map].
    rewrite Bf. reflexivity. }
  assert (Nt : nth_error (fillna (VStr "unknown")
                 (map (fun r => cell r "to_inst") records)) i =
               Some (VStr "unknown")).
  { rewrite nth_error_fillna, nth_error_map, Ei. cbn [option_map].
    rewrite Bt. reflexivity. }
  assert (Nv : nth_error
                 (zip_with
                    (fun ft i => VStr (get_visiting_location (fst ft) (snd ft) i))
                    (combine
                       (fillna (VStr "unknown")
                          (map (fun r => cell r "from_inst") records))
                       (fillna (VStr "unknown")
                          (map (fun r => cell r "to_inst") records)))
                    (map (fun r => cell r "ip") records)) i =
               Some (VStr "Unknown")).
  { rewrite nth_error_zip_with, nth_error_combine, Nf, Nt, nth_error_map, Ei.
    cbn [option_map]. rewrite Bi. reflexivity. }
  destruct (nth_error realm i) as [r|] eqn:Er;
    [|apply nth_error_None in Er; lia].
  rewrite (cell_row_getitem _ _ _ _ Gf), (cell_row_getitem _ _ _ _ Gt),
          (cell_row_getitem _ _ _ _ Gv), (cell_row_getitem _ _ _ _ Gr),
          (cell_row_getitem _ _ _ _ Gh).
  rewrite !nth_as_error, Nf, Nt, Nv, nth_error_zip_with, Nv, nth_error_map, Er.
  cbn [option_map]. repeat split. unfold roaming. cbn [str_of py_str eq_str].
  destruct (String.eqb (get_country_from_realm r) "Unknown"); reflexivity.
Qed.

Lemma fticks_row_enrichment_witness :
  let run :=
    parse_eduroam_log Strptime.strptime
      (Examples.access_line ++ Examples.nl ++ Examples.fticks_line)
      Examples.still in
  let df := Examples.from_ok (fst run) in
  run = (Ok df, snd run) /\
  In (row df 1) (to_records df) /\ cell (row df 1) "log_type" = VStr "fticks" /\
  cell (row df 1) "from_inst" = VStr "unknown" /\
  cell (row df 1) "to_inst" = VStr "unknown" /\
  cell (row df 1) "visiting_country" = VStr "Unknown" /\
  cell (row df 1) "is_roaming" =
    VBool (negb (eq_str (cell (row df 1) "home_country") "Unknown")).
Proof.
  intros run df.
  assert (H1 : run = (Ok df, snd run)) by (vm_compute; reflexivity).
  assert (H2 : In (row df 1) (to_records df))
    by (vm_compute; right; left; reflexivity).
  assert (H3 : cell (row df 1) "log_type" = VStr "fticks")
    by (vm_compute; reflexivity).
  split; [exact H1|]. split; [exact H2|]. split; [exact H3|].
  exact (fticks_row_enrichment Strptime.strptime _ _ _ _ _ H1 H2 H3).
Defined.

End ExtendedRealm.

(** ** Matches with their groups: the matcher *)

Module DerivationFacts.

Import Re ReFacts Captured CapturedFacts Derivation.

Lemma exec_runs (A : Type) (subj : string) :
  forall r s c (k : string -> caps -> option A) x,
    exec r subj s c k = Some x ->
    exists s' c', runs subj r s c s' c' /\ k s' c' = Some x.
Proof.
  induction r as [| |p|r1 IH1 r2 IH2|r1 IH1 r2 IH2|n r1 IH1|r1 IH1|g p lo hi];
    intros s c k x H; simpl in H.
  - exists s, c. split; [constructor | exact H].
  - destruct (Nat.eqb (String.length s) (String.length subj)) eqn:E;
      [|discriminate].
    apply Nat.eqb_eq in E. exists s, c. split; [now constructor | exact H].
  - destruct s as [|a s]; [discriminate|].
    destruct (p a) eqn:Ha; [|discriminate].
    exists s, c. split; [now constructor | exact H].
  - apply IH1 in H. destruct H as (s1 & c1 & R1 & H).
    apply IH2 in H. destruct H as (s2 & c2 & R2 & H).
    exists s2, c2. split; [econstructor; eauto | exact H].
  - unfold orelse in H. destruct (exec r1 subj s c k) eqn:E.
    + inversion H; subst. apply IH1 in E. destruct E as (s1 & c1 & R1 & E).
      exists s1, c1. split; [now apply R_AltL | exact E].
    + apply IH2 in H. destruct H as (s1 & c1 & R1 & H).
      exists s1, c1. split; [now apply R_AltR | exact H].
  - apply IH1 in H. destruct H as (s1 & c1 & R1 & H).
    exists s1, ((n, taken s s1) :: c1). split; [now constructor | exact H].
  - unfold orelse in H. destruct (exec r1 subj s c k) eqn:E.
    + inversion H; subst. apply IH1 in E. destruct E as (s1 & c1 & R1 & E).
      exists s1, c1. split; [now apply R_OptSome | exact E].
    + exists s, c. split; [apply R_OptNone | exact H].
  - assert (D : consumed p (fun s1 => k s1 c) lo hi s x).
    { destruct g; [now apply rep_greedy_sound | now apply rep_lazy_sound]. }
    destruct D as (u & s' & -> & Hu & Hlo & Hhi & Hk).
    exists s', c. split; [now constructor | exact Hk].
Qed.

Lemma match_at_runs r subj s m :
  match_at r subj s = Some m -> exists s', runs subj r s [] s' m.
Proof.
  unfold match_at. intros E. apply exec_runs in E.
  destruct E as (s' & c' & R & E). inversion E; subst. eauto.
Qed.


Lemma search_from_runs r subj : forall s m,
  search_from r subj s = Some m ->
  exists pre t s', s = pre ++ t /\ runs subj r t [] s' m.
Proof.
  induction s as [|a s IH]; intros m H; simpl in H.
  - destruct (match_at r subj EmptyString) eqn:E; [|discriminate].
    inversion H; subst. apply match_at_runs in E. destruct E as (s' & R).
    exists EmptyString, EmptyString, s'. auto.
  - destruct (match_at r subj (String a s)) eqn:E.
    + inversion H; subst. apply match_at_runs in E. destruct E as (s' & R).
      exists EmptyString, (String a s), s'. auto.
    + destruct (IH _ H) as (pre & t & s' & -> & R).
      exists (String a pre), t, s'. auto.
Qed.

(** A derivation without its groups is a match of the language. *)
Lemma runs_matches subj r s c s' c' :
  runs subj r s c s' c' -> matches subj r s s'.
Proof.
  induction 1;
    [ apply M_Eps | now apply M_Bol | now apply M_Chr
    | eapply M_Cat; eauto | now apply M_AltL | now apply M_AltR
    | now apply M_Grp | now apply M_OptSome | apply M_OptNone
    | now apply M_Rep ].
Qed.


Lemma runs_cat subj r1 r2 s c s2 c2 :
  runs subj (Cat r1 r2) s c s2 c2 ->
  exists s1 c1, runs subj r1 s c s1 c1 /\ runs subj r2 s1 c1 s2 c2.
Proof. intros R. inversion R; subst. eauto. Qed.

Lemma runs_eps subj s c s' c' : runs subj Eps s c s' c' -> s' = s /\ c' = c.
Proof. intros R. inversion R; subst. auto. Qed.

Lemma runs_grp subj n r s c s' c' :
  runs subj (Grp n r) s c s' c' ->
  exists c1, runs subj r s c s' c1 /\ c' = (n, taken s s') :: c1.
Proof. intros R. inversion R; subst. eauto. Qed.


Lemma runs_alt subj r1 r2 s c s' c' :
  runs subj (Alt r1 r2) s c s' c' ->
  runs subj r1 s c s' c' \/ runs subj r2 s c s' c'.
Proof. intros R. inversion R; subst; auto. Qed.

Lemma runs_same subj r s c s' c' :
  runs subj r s c s' c' -> groups r = [] -> c' = c.
Proof.
  induction 1; intros G; simpl in G; auto.
  - apply app_eq_nil in G. destruct G as [G1 G2].
    rewrite IHruns2, IHruns1; auto.
  - apply app_eq_nil in G. tauto.
  - apply app_eq_nil in G. tauto.
  - discriminate.
Qed.

Lemma groups_lit : forall w, groups (lit w) = [].
Proof. induction w; simpl; auto. Qed.

Lemma groups_liti : forall w, groups (liti w) = [].
Proof. induction w; simpl; auto. Qed.

Lemma runs_lit subj w s c s' c' :
  runs subj (lit w) s c s' c' -> s = w ++ s' /\ c' = c.
Proof.
  intros R. split.
  - eapply matches_lit, runs_matches; eauto.
  - eapply runs_same; eauto using groups_lit.
Qed.

Lemma runs_rep subj g p lo hi s c s' c' :
  runs subj (Rep g p lo hi) s c s' c' ->
  exists u, s = u ++ s' /\ all_in p u /\ lo <= String.length u /\
            within (String.length u) hi /\ c' = c.
Proof. intros R. inversion R; subst. exists u. repeat split; auto. Qed.

(** A group around a quantified class holds what the class has taken. *)
Lemma runs_grp_rep subj n g p lo hi s c s' c' :
  runs subj (Grp n (Rep g p lo hi)) s c s' c' ->
  exists u, s = u ++ s' /\ all_in p u /\ lo <= String.length u /\
            within (String.length u) hi /\ c' = (n, u) :: c.
Proof.
  intros R. apply runs_grp in R. destruct R as (c1 & R & ->).
  apply runs_rep in R. destruct R as (u & -> & A & L & W & ->).
  exists u. rewrite taken_append. repeat split; auto.
Qed.

(** Every match consumes a prefix of what is left of the subject. *)
Lemma matches_consumes subj r s s' :
  matches subj r s s' -> exists u, s = u ++ s'.
Proof.
  induction 1; try (exists EmptyString; reflexivity); auto.
  - exists (String a EmptyString). reflexivity.
  - destruct IHmatches1 as (u1 & ->). destruct IHmatches2 as (u2 & ->).
    exists (u1 ++ u2). now rewrite append_assoc.
  - exists u. reflexivity.
Qed.

End DerivationFacts.

(** ** The reason of an F-TICKS record *)

Module FticksReason.

Import Re ReFacts Pandas Captured CapturedFacts Derivation DerivationFacts
       Grammar LogGenerator.

Lemma append_cancel w : forall a b, w ++ a = w ++ b -> a = b.
Proof.
  induction w as [|c w IH]; simpl; intros a b E; [exact E|].
  inversion E. auto.
Qed.

Lemma all_in_cons p a v : all_in p (String a v) -> p a = true /\ all_in p v.
Proof. unfold all_in. simpl. intros H. now apply andb_prop in H. Qed.

(** Two runs of a class that end before the same character, which is not
    of the class, are the same run. *)
Lemma split_unique p c : forall u u' s s',
  all_in p u -> all_in p u' -> p c = false ->
  u ++ String c s = u' ++ String c s' -> u = u' /\ s = s'.
Proof.
  induction u as [|a u IH]; intros [|a' u'] s s' A A' C E; simpl in E.
  - inversion E. auto.
  - inversion E; subst. apply all_in_cons in A'. destruct A' as [A' _].
    congruence.
  - inversion E; subst. apply all_in_cons in A. destruct A as [A _].
    congruence.
  - inversion E; subst. apply all_in_cons in A, A'.
    destruct (IH u' s s') as [-> ->]; tauto.
Qed.

Lemma matches_lit_intro subj : forall w s, matches subj (lit w) (w ++ s) s.
Proof.
  induction w as [|a w IH]; intros s; simpl; [constructor|].
  eapply M_Cat; [|apply IH]. constructor. unfold lit_c. apply Ascii.eqb_refl.
Qed.

Lemma matches_chars subj g p n v s :
  chars p n v -> matches subj (Rep g p n (Some n)) (v ++ s) s.
Proof. intros [A L]. apply M_Rep; [exact A | lia | simpl; lia]. Qed.

Lemma matches_star subj p v s :
  all_in p v -> matches subj (star p) (v ++ s) s.
Proof. intros A. apply M_Rep; [exact A | lia | exact I]. Qed.

(** A timestamp is matched by the pattern of lines 13 and 19, when what
    follows it is not taken for part of the day. *)
Lemma timestamp_matches subj ts s :
  timestamp_text ts -> matches subj (timestamp_re false) (ts ++ s) s.
Proof.
  intros [wd mo day hh mm ss yyyy Hwd Hmo Hday Nday Hhh Hmm Hss Hyy].
  unfold timestamp_re. cbn [seq].
  rewrite !append_assoc.
  eapply M_Cat; [now apply matches_chars|].
  eapply M_Cat; [apply matches_lit_intro|].
  eapply M_Cat; [now apply matches_chars|].
  eapply M_Cat; [apply matches_lit_intro|].
  eapply M_Cat.
  { apply M_Rep; [exact Hday | | exact I].
    destruct day; [congruence | simpl; lia]. }
  eapply M_Cat; [apply matches_lit_intro|].
  eapply M_Cat; [now apply matches_chars|].
  eapply M_Cat; [apply matches_lit_intro|].
  eapply M_Cat; [now apply matches_chars|].
  eapply M_Cat; [apply matches_lit_intro|].
  eapply M_Cat; [now apply matches_chars|].
  eapply M_Cat; [apply matches_lit_intro|].
  eapply M_Cat; [now apply matches_chars|].
  constructor.
Qed.

Ltac split_matches H :=
  repeat match type of H with
  | matches _ (Cat _ _) _ _ =>
      let s := fresh "s" in
      let M := fresh "M" in
      apply cat_inv in H; destruct H as (s & M & H)
  end;
  apply eps_inv in H; subst.

(** The pattern reads a timestamp in one way only. *)
Lemma timestamp_unique subj ts s s' :
  timestamp_text ts ->
  matches subj (timestamp_re false) (ts ++ s) s' -> s' = s.
Proof.
  intros [wd mo day hh mm ss yyyy Hwd Hmo Hday Nday Hhh Hmm Hss Hyy] M.
  unfold timestamp_re in M. cbn [seq] in M. split_matches M.
  unfold exactly, plus in *.
  repeat match goal with
  | H : matches _ (lit _) _ _ |- _ => apply matches_lit in H
  | H : matches _ (Rep _ _ _ _) _ _ |- _ =>
      let u := fresh "u" in
      let A := fresh "A" in
      let L := fresh "L" in
      let W := fresh "W" in
      apply matches_rep in H; destruct H as (u & H & A & L & W)
  end.
  subst. simpl in *. repeat rewrite append_assoc in *. simpl in *.
  repeat match goal with
  | E : ?a ++ _ = ?b ++ _, C : chars _ _ ?a |- _ =>
      let E' := fresh "E" in
      destruct (ExtendedLines.append_inj _ _ _ _ E) as [? E'];
        [destruct C; lia|]; subst b; clear E; simpl in E';
        try (injection E' as E');
        repeat rewrite append_assoc in E'; simpl in E'
  | E : day ++ _ = ?b ++ _ |- _ =>
      let E' := fresh "E" in
      destruct (split_unique digit " " day b _ _ Hday ltac:(assumption)
                  eq_refl E) as [? E']; subst b; clear E;
        repeat rewrite append_assoc in E'; simpl in E'
  end.
  congruence.
Qed.

Lemma search_from_first r subj s m :
  match_at r subj s = Some m -> search_from r subj s = Some m.
Proof. intros E. destruct s; simpl; rewrite E; reflexivity. Qed.

Ltac split_runs H :=
  repeat match type of H with
  | runs _ (Cat _ _) _ _ _ _ =>
      let s := fresh "s" in
      let c := fresh "c" in
      let R := fresh "R" in
      apply runs_cat in H; destruct H as (s & c & R & H)
  end;
  apply runs_eps in H; destruct H; subst.

(** What the groups of the F-TICKS pattern hold after a match at [t]. *)
Lemma fticks_runs subj t s' m :
  runs subj fticks_pattern t [] s' m ->
  exists ts v realm country inst csi result,
    t = fticks_line ts v realm country inst csi result s' /\
    matches subj (timestamp_re false)
      (fticks_line ts v realm country inst csi result s')
      (": F-TICKS/eduroam/1"
         ++ String v ("0#REALM=" ++ realm ++ "#VISCOUNTRY=" ++ country
                      ++ "#VISINST=" ++ inst ++ "#CSI=" ++ csi
                      ++ "#RESULT=" ++ result ++ "#" ++ s')) /\
    any_char v = true /\
    all_in (not_char "#") realm /\ all_in (not_char "#") country /\
    all_in (not_char "#") inst /\ all_in (not_char "#") csi /\
    all_in (not_char "#") result /\
    m = [("result", result); ("csi", csi); ("inst", inst);
         ("country", country); ("timestamp", ts)].
Proof.
  intros R. unfold fticks_pattern in R. cbn [seq] in R. split_runs R.
  unfold star in *.
  repeat match goal with
  | H : runs _ (lit _) _ _ _ _ |- _ => apply runs_lit in H; destruct H
  | H : runs _ (Grp _ (Rep _ _ _ _)) _ _ _ _ |- _ =>
      let u := fresh "u" in
      let A := fresh "A" in
      apply runs_grp_rep in H; destruct H as (u & H & A & _ & _ & ?)
  | H : runs _ (Rep _ _ _ _) _ _ _ _ |- _ =>
      let u := fresh "u" in
      let A := fresh "A" in
      apply runs_rep in H; destruct H as (u & H & A & _ & _ & ?)
  | H : runs _ (Chr _) _ _ _ _ |- _ => inversion H; subst; clear H
  end.
  apply runs_grp in R0. destruct R0 as (c' & R0 & ->).
  pose proof (runs_same _ _ _ _ _ _ R0 eq_refl) as ->.
  apply runs_matches in R0.
  destruct (matches_consumes _ _ _ _ R0) as (ts & ->).
  exists ts, a, u3, u2, u1, u0, u. unfold fticks_line. simpl in *.
  rewrite taken_append. repeat split; auto.
Qed.

Lemma append_cancel_r (a b s : string) : a ++ s = b ++ s -> a = b.
Proof.
  intros E. apply (ExtendedLines.append_inj _ _ _ _ E).
  apply (f_equal String.length) in E. rewrite !length_append in E. lia.
Qed.

Lemma fticks_line_matches subj ts v realm country inst csi result rest :
  timestamp_text ts -> any_char v = true ->
  all_in (not_char "#") realm -> all_in (not_char "#") country ->
  all_in (not_char "#") inst -> all_in (not_char "#") csi ->
  all_in (not_char "#") result ->
  matches subj fticks_pattern
    (fticks_line ts v realm country inst csi result rest) rest.
Proof.
  intros Hts Hv Hr Hc Hi Hs Hres.
  unfold fticks_pattern, fticks_line. cbn [seq].
  eapply M_Cat; [apply M_Grp, timestamp_matches, Hts|].
  eapply M_Cat; [apply (matches_lit_intro subj ": ")|].
  eapply M_Cat; [apply (matches_lit_intro subj "F-TICKS/eduroam/1")|].
  eapply M_Cat; [apply M_Chr, Hv|].
  eapply M_Cat; [apply (matches_lit_intro subj "0#REALM=")|].
  eapply M_Cat; [apply matches_star, Hr|].
  eapply M_Cat; [apply (matches_lit_intro subj "#VISCOUNTRY=")|].
  eapply M_Cat; [apply M_Grp, matches_star, Hc|].
  eapply M_Cat; [apply (matches_lit_intro subj "#VISINST=")|].
  eapply M_Cat; [apply M_Grp, matches_star, Hi|].
  eapply M_Cat; [apply (matches_lit_intro subj "#CSI=")|].
  eapply M_Cat; [apply M_Grp, matches_star, Hs|].
  eapply M_Cat; [apply (matches_lit_intro subj "#RESULT=")|].
  eapply M_Cat; [apply M_Grp, matches_star, Hres|].
  eapply M_Cat; [apply (matches_lit_intro subj "#")|].
  constructor.
Qed.

(** A line of the grammar is read in one way only. *)
Lemma fticks_line_unique subj ts v realm country inst csi result rest
    ts' v' realm' country' inst' csi' result' rest' :
  timestamp_text ts ->
  all_in (not_char "#") realm -> all_in (not_char "#") country ->
  all_in (not_char "#") inst -> all_in (not_char "#") csi ->
  all_in (not_char "#") result ->
  all_in (not_char "#") realm' -> all_in (not_char "#") country' ->
  all_in (not_char "#") inst' -> all_in (not_char "#") csi' ->
  all_in (not_char "#") result' ->
  matches subj (timestamp_re false)
    (fticks_line ts' v' realm' country' inst' csi' result' rest')
    (": F-TICKS/eduroam/1"
       ++ String v' ("0#REALM=" ++ realm' ++ "#VISCOUNTRY=" ++ country'
                     ++ "#VISINST=" ++ inst' ++ "#CSI=" ++ csi'
                     ++ "#RESULT=" ++ result' ++ "#" ++ rest')) ->
  fticks_line ts v realm country inst csi result rest =
  fticks_line ts' v' realm' country' inst' csi' result' rest' ->
  ts' = ts /\ country' = country /\ inst' = inst /\ csi' = csi /\
  result' = result.
Proof.
  intros Hts Hr Hc Hi Hs Hres Hr' Hc' Hi' Hs' Hres' M E.
  rewrite <- E in M. unfold fticks_line in M at 1.
  apply (timestamp_unique _ _ _ _ Hts) in M.
  unfold fticks_line in E. rewrite M in E.
  assert (T : ts' = ts) by (symmetry; apply (append_cancel_r _ _ _ E)).
  split; [exact T|].
  simpl in M. injection M as Ev M.
  destruct (split_unique (not_char "#") "#" _ _ _ _ Hr' Hr eq_refl M) as [_ M1].
  simpl in M1. apply (append_cancel "VISCOUNTRY=") in M1.
  destruct (split_unique (not_char "#") "#" _ _ _ _ Hc' Hc eq_refl M1) as [? M2].
  simpl in M2. apply (append_cancel "VISINST=") in M2.
  destruct (split_unique (not_char "#") "#" _ _ _ _ Hi' Hi eq_refl M2) as [? M3].
  simpl in M3. apply (append_cancel "CSI=") in M3.
  destruct (split_unique (not_char "#") "#" _ _ _ _ Hs' Hs eq_refl M3) as [? M4].
  simpl in M4. apply (append_cancel "RESULT=") in M4.
  destruct (split_unique (not_char "#") "#" _ _ _ _ Hres' Hres eq_refl M4) as [? _].
  auto.
Qed.

(** C3: the RESULT of a record is the text between [#RESULT=] and the next
    [#] of the line the F-TICKS pattern has found, and the reason is
    "Authentication successful" exactly when this text is "OK", and
    "Authentication failed" for every other text, so for "FAIL", for the
    empty text and for "ok"; every line of the grammar gives such a
    record. *)
Theorem reason_iff_ok :
  (forall line d,
     fticks_record line = Some d ->
     exists pre ts v realm country inst csi result rest,
       line = pre ++ fticks_line ts v realm country inst csi result rest /\
       all_in (not_char "#") realm /\ all_in (not_char "#") country /\
       all_in (not_char "#") inst /\ all_in (not_char "#") csi /\
       all_in (not_char "#") result /\
       dict_get d "RESULT" = Some (VStr result) /\
       (dict_get d "Reason" = Some (VStr "Authentication successful") <->
        result = "OK") /\
       (result <> "OK" ->
        dict_get d "Reason" = Some (VStr "Authentication failed"))) /\
  (forall ts v realm country inst csi result rest,
     timestamp_text ts -> any_char v = true ->
     all_in (not_char "#") realm -> all_in (not_char "#") country ->
     all_in (not_char "#") inst -> all_in (not_char "#") csi ->
     all_in (not_char "#") result ->
     exists reason,
       fticks_record (fticks_line ts v realm country inst csi result rest) =
       Some [("Timestamp", VStr ts); ("VISCOUNTRY", VStr country);
             ("VISINST", VStr inst); ("CSI", VStr csi);
             ("RESULT", VStr result); ("Reason", VStr reason)] /\
       (reason = "Authentication successful" <-> result = "OK") /\
       (result <> "OK" -> reason = "Authentication failed")).
Proof.
  assert (Reason : forall result,
     (reason_of (Some result) = "Authentication successful" <-> result = "OK") /\
     (result <> "OK" -> reason_of (Some result) = "Authentication failed")).
  { intros result. unfold reason_of.
    destruct (String.eqb result "OK") eqn:Er.
    - apply String.eqb_eq in Er. subst. split; [tauto | congruence].
    - apply String.eqb_neq in Er. split; [|reflexivity].
      split; [discriminate | congruence]. }
  split.
  - intros line d H. unfold fticks_record, re_search in H.
    destruct (search_from fticks_pattern line line) as [m|] eqn:E;
      [|discriminate].
    inversion H; subst d; clear H.
    destruct (search_from_runs _ _ _ _ E) as (pre & t & s' & El & R).
    destruct (fticks_runs _ _ _ _ R)
      as (ts & v & realm & country & inst & csi & result & -> & _ & _ &
          Hr & Hc & Hi & Hs & Hres & ->).
    exists pre, ts, v, realm, country, inst, csi, result, s'.
    split; [exact El|]. repeat (split; [assumption|]).
    cbn [dict_get String.eqb Ascii.eqb Bool.eqb group lookup of_opt].
    split; [reflexivity|].
    destruct (Reason result) as [R1 R2]. split.
    + split; [intros X; apply R1; congruence | intros X; f_equal; f_equal; now apply R1].
    + intros X. f_equal. f_equal. now apply R2.
  - intros ts v realm country inst csi result rest Hts Hv Hr Hc Hi Hs Hres.
    set (line := fticks_line ts v realm country inst csi result rest).
    assert (M : is_some (match_at fticks_pattern line line) = true).
    { apply match_at_matches. exists rest.
      now apply fticks_line_matches. }
    destruct (match_at fticks_pattern line line) as [m|] eqn:E;
      [clear M | discriminate].
    destruct (match_at_runs _ _ _ _ E) as (s' & R).
    destruct (fticks_runs _ _ _ _ R)
      as (ts' & v' & realm' & country' & inst' & csi' & result' & El & Mt &
          _ & Hr' & Hc' & Hi' & Hs' & Hres' & ->).
    destruct (fticks_line_unique line ts v realm country inst csi result rest
                ts' v' realm' country' inst' csi' result' s')
      as (-> & -> & -> & -> & ->); auto.
    exists (reason_of (Some result)).
    unfold fticks_record, re_search. fold line.
    rewrite (search_from_first _ _ _ _ E).
    cbn [group lookup String.eqb Ascii.eqb Bool.eqb of_opt].
    split; [reflexivity | apply Reason].
Qed.

Lemma reason_iff_ok_witness :
  fticks_record Examples.fticks_line = Some Examples.fticks_dict /\
  (exists pre ts v realm country inst csi result rest,
     Examples.fticks_line =
       pre ++ fticks_line ts v realm country inst csi result rest /\
     all_in (not_char "#") realm /\ all_in (not_char "#") country /\
     all_in (not_char "#") inst /\ all_in (not_char "#") csi /\
     all_in (not_char "#") result /\
     dict_get Examples.fticks_dict "RESULT" = Some (VStr result) /\
     (dict_get Examples.fticks_dict "Reason" =
        Some (VStr "Authentication successful") <-> result = "OK") /\
     (result <> "OK" ->
      dict_get Examples.fticks_dict "Reason" =
        Some (VStr "Authentication failed"))) /\
  (exists reason,
     fticks_record
       (fticks_line "Thu Jul 25 09:03:05 2024" "." "iitd.ac.in" "IN"
          "nit.ac.in" "abc123" "ok" "") =
     Some [("Timestamp", VStr "Thu Jul 25 09:03:05 2024");
           ("VISCOUNTRY", VStr "IN"); ("VISINST", VStr "nit.ac.in");
           ("CSI", VStr "abc123"); ("RESULT", VStr "ok");
           ("Reason", VStr reason)] /\
     (reason = "Authentication successful" <-> "ok" = "OK") /\
     ("ok" <> "OK" -> reason = "Authentication failed")).
Proof.
  assert (E : fticks_record Examples.fticks_line = Some Examples.fticks_dict)
    by (vm_compute; reflexivity).
  split; [exact E|]. split.
  - exact (proj1 reason_iff_ok Examples.fticks_line Examples.fticks_dict E).
  - apply (proj2 reason_iff_ok); try (vm_compute; reflexivity).
    apply (Timestamp "Thu" "Jul" "25" "09" "03" "05" "2024");
      try (split; vm_compute; reflexivity);
      try (vm_compute; reflexivity); discriminate.
Defined.

End FticksReason.

(** ** The home country of a realm *)

Module HomeCountry.

Import Pandas Ritik RitikFacts ExtendedRuns Markers.

Lemma any_in_iff ms s :
  Py.any_in ms s = true <-> exists m, In m ms /\ Py.contains m s = true.
Proof. unfold Py.any_in. apply existsb_exists. Qed.

Lemma any_in_false ms s :
  Py.any_in ms s = false <-> forall m, In m ms -> Py.contains m s = false.
Proof.
  split.
  - intros H m Hm. destruct (Py.contains m s) eqn:E; [|reflexivity].
    assert (X : Py.any_in ms s = true) by (apply any_in_iff; eauto).
    congruence.
  - intros H. destruct (Py.any_in ms s) eqn:E; [|reflexivity].
    apply any_in_iff in E. destruct E as (m & Hm & E).
    rewrite (H m Hm) in E. discriminate.
Qed.

Lemma first_country_at s : forall before ms c after,
  Py.any_in ms s = true ->
  (forall ms' c', In (ms', c') before -> Py.any_in ms' s = false) ->
  first_country (before ++ (ms, c) :: after)%list s = c.
Proof.
  induction before as [|[ms0 c0] before IH]; intros ms c after H N; simpl.
  - now rewrite H.
  - rewrite (N ms0 c0) by now left. apply IH; auto.
    intros ms' c' Hin. apply (N ms' c'). now right.
Qed.

Lemma first_country_found s : forall tests c,
  first_country tests s = c -> c <> "Unknown" ->
  exists ms, In (ms, c) tests /\ Py.any_in ms s = true.
Proof.
  induction tests as [|[ms0 c0] tests IH]; intros c H N; simpl in H.
  - congruence.
  - destruct (Py.any_in ms0 s) eqn:E.
    + subst c0. exists ms0. split; [now left | exact E].
    + destruct (IH c H N) as (ms & Hin & Hms). exists ms. split; [now right | exact Hms].
Qed.

Lemma any_in_one m s : Py.any_in [m] s = Py.contains m s.
Proof. unfold Py.any_in. simpl. apply orb_false_r. Qed.

Lemma any_in_two m m' s :
  Py.any_in [m; m'] s = Py.contains m s || Py.contains m' s.
Proof. unfold Py.any_in. simpl. now rewrite orb_false_r. Qed.

(** [get_country_from_realm] is the list of tests, read in order. *)
Lemma get_country_tests realm :
  get_country_from_realm (VStr realm) =
  first_country country_tests (Py.lower realm).
Proof.
  unfold get_country_from_realm. cbn [isna eq_str py_str orb].
  destruct (String.eqb realm "") eqn:E.
  - apply String.eqb_eq in E. subst realm. reflexivity.
  - unfold country_tests. cbn [first_country].
    change (Py.any_in (".in" :: indian_institutions) (Py.lower realm))
      with (Py.contains ".in" (Py.lower realm)
            || Py.any_in indian_institutions (Py.lower realm)).
    rewrite !any_in_one, any_in_two. reflexivity.
Qed.

(** C9: the home country is decided by the markers the lower-cased realm
    holds anywhere, the tests being read in order: the country of a
    marker is returned when no marker of an earlier test occurs, and a
    country other than "Unknown" is returned for one of its markers only.
    The test of [.in] and the domestic domains comes first, so the home
    country is "India" for every realm with [.in] anywhere, in any case,
    also for "x.infn.it"; it is "Unknown" for a realm without any
    marker, and for a null realm. *)
Theorem home_country_by_containment realm :
  (forall before markers country after m a b,
     country_tests = (before ++ (markers, country) :: after)%list ->
     In m markers -> Py.lower realm = a ++ m ++ b ->
     (forall markers' country' m',
        In (markers', country') before -> In m' markers' ->
        Py.contains m' (Py.lower realm) = false) ->
     get_country_from_realm (VStr realm) = country) /\
  (forall country,
     get_country_from_realm (VStr realm) = country -> country <> "Unknown" ->
     exists markers m a b,
       In (markers, country) country_tests /\ In m markers /\
       Py.lower realm = a ++ m ++ b) /\
  (exists after,
     country_tests = (".in" :: indian_institutions, "India") :: after) /\
  (Py.contains ".in" realm = true ->
   get_country_from_realm (VStr realm) = "India") /\
  (Py.contains ".in" (Py.lower realm) = true ->
   get_country_from_realm (VStr realm) = "India") /\
  (Py.any_in country_markers (Py.lower realm) = false ->
   get_country_from_realm (VStr realm) = "Unknown") /\
  get_country_from_realm (VStr "x.infn.it") = "India" /\
  (forall v, isna v = true -> get_country_from_realm v = "Unknown").
Proof.
  assert (L : Py.contains ".in" (Py.lower realm) = true ->
              get_country_from_realm (VStr realm) = "India").
  { intros H. rewrite get_country_tests. unfold country_tests.
    cbn [first_country].
    change (Py.any_in (".in" :: indian_institutions) (Py.lower realm))
      with (Py.contains ".in" (Py.lower realm)
            || Py.any_in indian_institutions (Py.lower realm)).
    rewrite H. reflexivity. }
  split; [|split; [|split; [|split; [|split; [exact L|split; [|split]]]]]].
  - intros before markers country after m a b E Hm Ea N.
    rewrite get_country_tests, E. apply first_country_at.
    + apply any_in_iff. exists m. split; [exact Hm|].
      apply contains_iff. eauto.
    + intros ms' c' Hin. apply any_in_false. intros m' Hm'.
      now apply (N ms' c').
  - intros country E N. rewrite get_country_tests in E.
    destruct (first_country_found _ _ _ E N) as (ms & Hin & Hms).
    apply any_in_iff in Hms. destruct Hms as (m & Hm & C).
    apply contains_iff in C. destruct C as (a & b & C).
    exists ms, m, a, b. auto.
  - eexists. reflexivity.
  - intros H. apply L. now apply (contains_lower ".in").
  - intros H. rewrite get_country_tests.
    assert (N : forall ms c, In (ms, c) country_tests ->
                  Py.any_in ms (Py.lower realm) = false).
    { intros ms c Hin. apply any_in_false. intros m Hm.
      assert (M : In m country_markers).
      { unfold country_tests in Hin. unfold country_markers. simpl in Hin.
        repeat match goal with
        | H : _ \/ _ |- _ => destruct H as [H|H]
        | H : (_, _) = (_, _) |- _ => inversion H; subst; clear H
        | H : False |- _ => destruct H
        end; simpl in Hm;
        try (destruct Hm as [<-|Hm]; [now left|right; apply in_or_app; now left]);
        right; apply in_or_app; right; simpl; tauto. }
      revert M. revert H. unfold Py.any_in. intros H M.
      destruct (Py.contains m (Py.lower realm)) eqn:C; [|reflexivity].
      assert (X : existsb (fun p => Py.contains p (Py.lower realm))
                    country_markers = true)
        by (apply existsb_exists; eauto).
      congruence. }
    unfold country_tests in *. cbn [first_country].
    repeat match goal with
    | |- context [Py.any_in ?ms (Py.lower realm)] =>
        rewrite (N ms _ ltac:(simpl; tauto))
    end.
    reflexivity.
  - vm_compute. reflexivity.
  - intros v H. unfold get_country_from_realm. rewrite H. reflexivity.
Qed.

Lemma home_country_by_containment_witness :
  (country_tests =
     ([(".in" :: indian_institutions, "India"); ([".it"], "Italy")]
      ++ ([".uk"; ".ac.uk"], "UK")
      :: [([".edu"], "USA"); ([".de"], "Germany"); ([".fr"], "France");
          ([".nl"], "Netherlands"); ([".se"], "Sweden")])%list) /\
  In ".ac.uk" [".uk"; ".ac.uk"] /\
  Py.lower "Physics.Ox.AC.UK" = "physics.ox" ++ ".ac.uk" ++ "" /\
  get_country_from_realm (VStr "Physics.Ox.AC.UK") = "UK" /\
  Py.contains ".in" "dept.infn.it" = true /\
  get_country_from_realm (VStr "dept.infn.it") = "India".
Proof.
  assert (H : Py.contains ".in" "dept.infn.it" = true) by (vm_compute; reflexivity).
  split; [reflexivity|]. split; [simpl; tauto|]. split; [reflexivity|].
  split.
  - apply (proj1 (home_country_by_containment "Physics.Ox.AC.UK")
             [(".in" :: indian_institutions, "India"); ([".it"], "Italy")]
             [".uk"; ".ac.uk"] "UK"
             [([".edu"], "USA"); ([".de"], "Germany"); ([".fr"], "France");
              ([".nl"], "Netherlands"); ([".se"], "Sweden")]
             ".ac.uk" "physics.ox" "");
      [reflexivity | simpl; tauto | reflexivity |].
    intros ms c m Hin Hm. simpl in Hin.
    destruct Hin as [Hin|[Hin|[]]]; inversion Hin; subst; clear Hin;
      simpl in Hm;
      repeat (destruct Hm as [<-|Hm]; [vm_compute; reflexivity|]);
      destruct Hm.
  - split; [exact H|].
    exact (proj1 (proj2 (proj2 (proj2 (home_country_by_containment "dept.infn.it")))) H).
Defined.

End HomeCountry.

(** ** Patterns in sequence *)

Module SeqFacts.

Import Re ReFacts Captured CapturedFacts Derivation DerivationFacts.












End SeqFacts.

(** ** Acceptance of an Access line *)

Module Acceptance.

Import Re ReFacts AccessGrammar Pandas Captured CapturedFacts Derivation
       DerivationFacts Required SeqFacts.

(** *** The extended analyzer *)




(** *** The minimal analyzer *)






(** *** Optional groups that did not take part *)





Lemma runs_liti_matches subj w s c s' c' :
  runs subj (liti w) s c s' c' -> matches subj (liti w) s s'.
Proof. apply runs_matches. Qed.


(** *** Lines that are not accepted *)



(** *** The claim *)



End Acceptance.
